(** * Construction Claims Notification Copilot: the helper functions of app.py

    A shallow embedding of the four helper functions of [app.py]
    ([extract_text_from_pdf], [analyze_contract], [generate_notice_draft],
    [create_calendar_file]) together with the Python built-ins they call,
    followed by the properties of the specification that concern them. *)

From Stdlib Require Import List NArith ZArith String Ascii Bool Lia Permutation.
From Stdlib Require Import DecimalString.
Import ListNotations.

Set Warnings "-register-all".
Local Open Scope N_scope.

(** ** Python built-ins *)

Module Py.

(** A Python [str] is a sequence of Unicode code points. *)
Definition str := list N.

(** A source literal made of ASCII characters. *)
Definition lit (s : string) : str := map N_of_ascii (list_ascii_of_string s).

Fixpoint str_eqb (a b : str) : bool :=
  match a, b with
  | [], [] => true
  | x :: a', y :: b' => (x =? y) && str_eqb a' b'
  | _, _ => false
  end.

(** [s.startswith(p)]. *)
Fixpoint startswith (p s : str) : bool :=
  match p, s with
  | [], _ => true
  | _ :: _, [] => false
  | x :: p', y :: s' => (x =? y) && startswith p' s'
  end.

(** [sub in s]: [sub] occurs in [s] as a contiguous run. *)
Fixpoint contains (sub s : str) : bool :=
  startswith sub s
  || match s with
     | [] => false
     | _ :: s' => contains sub s'
     end.

(** [str.lower] on one code point. The letters A-Z move to a-z; every other
    ASCII code point is kept. Code points from 128 on are kept as well: Python
    sends them to code points outside ASCII, but for U+0130 (to "i" followed
    by U+0307) and U+212A (to "k"), neither of which can complete one of the
    tokens searched for below, so that the searches of this file give the
    answers Python gives. *)
Definition lower_char (c : N) : N :=
  if (65 <=? c) && (c <=? 90) then c + 32 else c.

Definition lower (s : str) : str := map lower_char s.

(** The code points that [str.isspace] accepts, which are the ones that
    [str.strip] removes when it is called without argument. *)
Definition isspace (c : N) : bool :=
  ((9 <=? c) && (c <=? 13)) || ((28 <=? c) && (c <=? 32))
  || (c =? 133) || (c =? 160) || (c =? 5760)
  || ((8192 <=? c) && (c <=? 8202))
  || (c =? 8232) || (c =? 8233) || (c =? 8239) || (c =? 8287) || (c =? 12288).

Fixpoint lstrip (s : str) : str :=
  match s with
  | c :: s' => if isspace c then lstrip s' else s
  | [] => []
  end.

Definition rstrip (s : str) : str := rev (lstrip (rev s)).

Definition strip (s : str) : str := rstrip (lstrip s).

(** [s.replace(old, new)] for a non-empty [old]: the occurrences of [old]
    are found from left to right and do not overlap. [skip] counts the code
    points of an occurrence just replaced that are still to be passed. *)
Fixpoint replace_from (old new : str) (skip : nat) (s : str) : str :=
  match s with
  | [] => []
  | c :: s' =>
      match skip with
      | S k => replace_from old new k s'
      | O =>
          if startswith old s
          then new ++ replace_from old new (List.length old - 1) s'
          else c :: replace_from old new 0 s'
      end
  end.

Definition replace (old new s : str) : str := replace_from old new 0 s.

(** [str(n)] for an [int]. *)
Definition str_of_int (z : Z) : str :=
  lit (NilZero.string_of_int (Z.to_int z)).

(** Exceptions, all of them subclasses of [Exception]. [LibraryError] stands
    for whatever an external library raises (the model client, the PDF
    reader), with its message. *)
Inductive exn : Type :=
| KeyError (key : str)
| TypeError
| ValueError
| IndexError
| JSONDecodeError
| RecursionError
| LibraryError (msg : str).

Inductive result (A : Type) : Type :=
| Ok (a : A)
| Raise (e : exn).
Arguments Ok {A} a.
Arguments Raise {A} e.

(** The values [json.loads] produces. A [float] is carried by the literal
    that denotes it: the program never computes with one. A [dict] lists its
    items in insertion order, each key once. *)
Inductive value : Type :=
| VNone
| VBool (b : bool)
| VInt (z : Z)
| VFloat (literal : str)
| VStr (s : str)
| VList (items : list value)
| VDict (items : list (str * value)).

(** [d[key] = v] on the items of a [dict]: a key already present keeps its
    place and takes the new value. *)
Fixpoint dict_set (d : list (str * value)) (key : str) (v : value)
  : list (str * value) :=
  match d with
  | [] => [(key, v)]
  | (k, w) :: d' =>
      if str_eqb k key then (k, v) :: d' else (k, w) :: dict_set d' key v
  end.

(** [dict(pairs)]. *)
Definition dict_of_pairs (pairs : list (str * value)) : list (str * value) :=
  fold_left (fun d kv => dict_set d (fst kv) (snd kv)) pairs [].

Fixpoint dict_get (d : list (str * value)) (key : str) : option value :=
  match d with
  | [] => None
  | (k, w) :: d' => if str_eqb k key then Some w else dict_get d' key
  end.

(** [obj[key]] with a [str] key: only a [dict] can be indexed so. *)
Definition subscript (obj : value) (key : str) : result value :=
  match obj with
  | VDict d =>
      match dict_get d key with
      | Some v => Ok v
      | None => Raise (KeyError key)
      end
  | _ => Raise TypeError
  end.

Section Repr.

(** What [repr] makes of a [float] and of a [str] is left to the
    interpreter: the shortest decimal that reads back as the float, and the
    quoted text with its escapes. *)
Variable float_repr : str -> str.
Variable str_repr : str -> str.

(** [", ".join(parts)]. *)
Fixpoint join_comma (parts : list str) : str :=
  match parts with
  | [] => []
  | [p] => p
  | p :: parts' => p ++ lit ", " ++ join_comma parts'
  end.

Fixpoint repr (v : value) : str :=
  match v with
  | VNone => lit "None"
  | VBool true => lit "True"
  | VBool false => lit "False"
  | VInt z => str_of_int z
  | VFloat f => float_repr f
  | VStr s => str_repr s
  | VList l => lit "[" ++ join_comma (map repr l) ++ lit "]"
  | VDict d =>
      lit "{"
      ++ join_comma (map (fun kv => str_repr (fst kv) ++ lit ": " ++ repr (snd kv)) d)
      ++ lit "}"
  end.

(** [str(v)], which is also [format(v, "")], the text an f-string or
    [str.format] puts for a field without format specification. *)
Definition str_of (v : value) : str :=
  match v with
  | VStr s => s
  | _ => repr v
  end.

End Repr.

End Py.

Import Py.

(** ** [json.loads], after the decoder of the standard library *)

Module Json.

(** [WHITESPACE]: space, tab, line feed, carriage return. *)
Definition is_ws (c : N) : bool :=
  (c =? 32) || (c =? 9) || (c =? 10) || (c =? 13).

Fixpoint skip_ws (s : str) : str :=
  match s with
  | c :: s' => if is_ws c then skip_ws s' else s
  | [] => []
  end.

Definition is_digit (c : N) : bool := (48 <=? c) && (c <=? 57).

Definition hex_digit (c : N) : option N :=
  if is_digit c then Some (c - 48)
  else if (65 <=? c) && (c <=? 70) then Some (c - 55)
  else if (97 <=? c) && (c <=? 102) then Some (c - 87)
  else None.

(** [_decode_uXXXX]: the four hexadecimal digits at the head of [s]. *)
Definition decode_uXXXX (s : str) : option N :=
  match s with
  | a :: b :: c :: d :: _ =>
      match hex_digit a, hex_digit b, hex_digit c, hex_digit d with
      | Some a, Some b, Some c, Some d => Some (((a * 16 + b) * 16 + c) * 16 + d)
      | _, _, _, _ => None
      end
  | _ => None
  end.

(** The table [BACKSLASH] of the one-letter escapes. *)
Definition BACKSLASH (esc : N) : option N :=
  if esc =? 34 then Some 34          (* quote *)
  else if esc =? 92 then Some 92     (* backslash *)
  else if esc =? 47 then Some 47     (* slash *)
  else if esc =? 98 then Some 8      (* backspace *)
  else if esc =? 102 then Some 12    (* form feed *)
  else if esc =? 110 then Some 10    (* line feed *)
  else if esc =? 114 then Some 13    (* carriage return *)
  else if esc =? 116 then Some 9     (* tab *)
  else None.

(** One more code point consumed. *)
Definition step {A : Type} (r : result (A * nat)) : result (A * nat) :=
  match r with
  | Ok (a, n) => Ok (a, S n)
  | Raise e => Raise e
  end.

(** A code point of the content, then the rest of the scan. *)
Definition emit (ch : N) (r : result (str * nat)) : result (str * nat) :=
  match r with
  | Ok (content, n) => Ok (ch :: content, S n)
  | Raise e => Raise e
  end.

(** [scanstring] in strict mode, on the text that follows the opening
    quote: the content of the string and the number of code points read, the
    closing quote included. [skip] counts the code points of an escape
    already decoded that are still to be passed. *)
Fixpoint scanstring_from (skip : nat) (s : str) : result (str * nat) :=
  match s with
  | [] => Raise JSONDecodeError
  | c :: s' =>
      match skip with
      | S k => step (scanstring_from k s')
      | O =>
          if c =? 34 then Ok ([], 1%nat)
          else if c =? 92 then
            match s' with
            | [] => Raise JSONDecodeError
            | esc :: s2 =>
                if esc =? 117 then
                  match decode_uXXXX s2 with
                  | None => Raise JSONDecodeError
                  | Some uni =>
                      let s3 := skipn 4 s2 in
                      if (55296 <=? uni) && (uni <=? 56319)
                         && startswith [92; 117] s3
                      then
                        match decode_uXXXX (skipn 2 s3) with
                        | None => Raise JSONDecodeError
                        | Some uni2 =>
                            if (56320 <=? uni2) && (uni2 <=? 57343)
                            then emit (65536 + N.lor (N.shiftl (uni - 55296) 10)
                                                     (uni2 - 56320))
                                      (scanstring_from 11 s')
                            else emit uni (scanstring_from 5 s')
                        end
                      else emit uni (scanstring_from 5 s')
                  end
                else
                  match BACKSLASH esc with
                  | Some ch => emit ch (scanstring_from 1 s')
                  | None => Raise JSONDecodeError
                  end
            end
          else if c <? 32 then Raise JSONDecodeError
          else emit c (scanstring_from 0 s')
      end
  end.

Definition scanstring (s : str) : result (str * nat) := scanstring_from 0 s.

(** The longest run of decimal digits at the head of [s]. *)
Fixpoint digits (s : str) : str :=
  match s with
  | c :: s' => if is_digit c then c :: digits s' else []
  | [] => []
  end.

(** [NUMBER_RE]: an integer part (an optional minus sign, then either 0 or
    a digit from 1 to 9 followed by any digits), an optional fraction (a dot
    and at least one digit) and an optional exponent (e or E, an optional
    sign, at least one digit). The three groups of the match at the head of
    [s], empty when absent. *)
Definition match_number (s : str) : option (str * str * str) :=
  let sign := if startswith [45] s then [45] else [] in
  let s1 := skipn (List.length sign) s in
  let body :=
    match s1 with
    | c :: s' =>
        if c =? 48 then Some [48]
        else if is_digit c then Some (c :: digits s')
        else None
    | [] => None
    end in
  match body with
  | None => None
  | Some body =>
      let integer := sign ++ body in
      let s2 := skipn (List.length integer) s in
      let frac :=
        match s2 with
        | c :: s' =>
            if (c =? 46) && negb (Nat.eqb (List.length (digits s')) 0)
            then c :: digits s' else []
        | [] => []
        end in
      let s3 := skipn (List.length frac) s2 in
      let exp :=
        match s3 with
        | c :: s' =>
            if (c =? 101) || (c =? 69) then
              let esign :=
                if startswith [45] s' || startswith [43] s'
                then firstn 1 s' else [] in
              let ds := digits (skipn (List.length esign) s') in
              if Nat.eqb (List.length ds) 0 then [] else c :: esign ++ ds
            else []
        | [] => []
        end in
      Some (integer, frac, exp)
  end.

(** [int(integer)] on a group matched by [NUMBER_RE]. *)
Definition parse_int (integer : str) : Z :=
  let magnitude (ds : str) :=
    fold_left (fun acc c => (acc * 10 + Z.of_N (c - 48))%Z) ds 0%Z in
  match integer with
  | 45 :: ds => (- magnitude ds)%Z
  | ds => magnitude ds
  end.

(** Where the loop of [JSONObject] stands, whitespace apart. *)
Inductive object_phase : Type :=
| ObjFirst                (* after the brace: the closing brace or a key *)
| ObjKey                  (* after a comma: a key *)
| ObjColon (key : str)    (* after a key: the colon *)
| ObjValue (key : str)    (* after the colon: a value *)
| ObjDelim.               (* after a value: a comma or the closing brace *)

(** [JSONObject] on the text that follows the opening brace; [scan_once] is
    handed over as in the decoder. The result is [dict(pairs)] and the number
    of code points read, the closing brace included. [skip] counts the code
    points of a key or of a value already read that are still to be
    passed. *)
Fixpoint JSONObject_from (scan_once : str -> result (value * nat))
    (phase : object_phase) (pairs : list (str * value)) (skip : nat) (s : str)
  : result (list (str * value) * nat) :=
  match s with
  | [] => Raise JSONDecodeError
  | c :: s' =>
      match skip with
      | S k => step (JSONObject_from scan_once phase pairs k s')
      | O =>
          if is_ws c then step (JSONObject_from scan_once phase pairs 0 s')
          else
            let key_here :=
              match scanstring s' with
              | Ok (key, n) =>
                  step (JSONObject_from scan_once (ObjColon key) pairs n s')
              | Raise e => Raise e
              end in
            match phase with
            | ObjFirst =>
                if c =? 125 then Ok (dict_of_pairs pairs, 1%nat)
                else if c =? 34 then key_here
                else Raise JSONDecodeError
            | ObjKey =>
                if c =? 34 then key_here else Raise JSONDecodeError
            | ObjColon key =>
                if c =? 58
                then step (JSONObject_from scan_once (ObjValue key) pairs 0 s')
                else Raise JSONDecodeError
            | ObjValue key =>
                match scan_once s with
                | Ok (v, n) =>
                    step (JSONObject_from scan_once ObjDelim
                            (pairs ++ [(key, v)]) (n - 1) s')
                | Raise e => Raise e
                end
            | ObjDelim =>
                if c =? 125 then Ok (dict_of_pairs pairs, 1%nat)
                else if c =? 44
                then step (JSONObject_from scan_once ObjKey pairs 0 s')
                else Raise JSONDecodeError
            end
      end
  end.

Definition JSONObject (scan_once : str -> result (value * nat)) (s : str)
  : result (list (str * value) * nat) :=
  JSONObject_from scan_once ObjFirst [] 0 s.

(** Where the loop of [JSONArray] stands, whitespace apart. *)
Inductive array_phase : Type :=
| ArrFirst      (* after the bracket: the closing bracket or a value *)
| ArrValue      (* after a comma: a value *)
| ArrDelim.     (* after a value: a comma or the closing bracket *)

(** [JSONArray] on the text that follows the opening bracket. *)
Fixpoint JSONArray_from (scan_once : str -> result (value * nat))
    (phase : array_phase) (values : list value) (skip : nat) (s : str)
  : result (list value * nat) :=
  match s with
  | [] => Raise JSONDecodeError
  | c :: s' =>
      match skip with
      | S k => step (JSONArray_from scan_once phase values k s')
      | O =>
          if is_ws c then step (JSONArray_from scan_once phase values 0 s')
          else
            let value_here :=
              match scan_once s with
              | Ok (v, n) =>
                  step (JSONArray_from scan_once ArrDelim
                          (values ++ [v]) (n - 1) s')
              | Raise e => Raise e
              end in
            match phase with
            | ArrFirst => if c =? 93 then Ok (values, 1%nat) else value_here
            | ArrValue => value_here
            | ArrDelim =>
                if c =? 93 then Ok (values, 1%nat)
                else if c =? 44
                then step (JSONArray_from scan_once ArrValue values 0 s')
                else Raise JSONDecodeError
            end
      end
  end.

Definition JSONArray (scan_once : str -> result (value * nat)) (s : str)
  : result (list value * nat) :=
  JSONArray_from scan_once ArrFirst [] 0 s.

(** [scan_once] at the head of [s]: the value and the number of code points
    read. Entering an object or an array takes one of the [depth] levels of
    recursion that the interpreter still allows. *)
Fixpoint scan_once (depth : nat) (s : str) {struct depth}
  : result (value * nat) :=
  match s with
  | [] => Raise JSONDecodeError
  | c :: s' =>
      if c =? 34 then
        match scanstring s' with
        | Ok (content, n) => Ok (VStr content, S n)
        | Raise e => Raise e
        end
      else if c =? 123 then
        match depth with
        | O => Raise RecursionError
        | S d =>
            match JSONObject (scan_once d) s' with
            | Ok (items, n) => Ok (VDict items, S n)
            | Raise e => Raise e
            end
        end
      else if c =? 91 then
        match depth with
        | O => Raise RecursionError
        | S d =>
            match JSONArray (scan_once d) s' with
            | Ok (items, n) => Ok (VList items, S n)
            | Raise e => Raise e
            end
        end
      else if startswith (lit "null") s then Ok (VNone, 4%nat)
      else if startswith (lit "true") s then Ok (VBool true, 4%nat)
      else if startswith (lit "false") s then Ok (VBool false, 5%nat)
      else
        match match_number s with
        | Some (integer, [], []) =>
            Ok (VInt (parse_int integer), List.length integer)
        | Some (integer, frac, exp) =>
            Ok (VFloat (integer ++ frac ++ exp),
                List.length (integer ++ frac ++ exp))
        | None =>
            if startswith (lit "NaN") s then Ok (VFloat (lit "NaN"), 3%nat)
            else if startswith (lit "Infinity") s
            then Ok (VFloat (lit "Infinity"), 8%nat)
            else if startswith (lit "-Infinity") s
            then Ok (VFloat (lit "-Infinity"), 9%nat)
            else Raise JSONDecodeError
        end
  end.

(** [json.loads(s)] for a [str]: a byte order mark is refused, whitespace
    is allowed around the one value, and nothing else may follow it. [limit]
    is the depth of recursion that the interpreter allows at the call; the
    bound that it puts on the number of digits of an integer is left out. *)
Definition loads (limit : nat) (s : str) : result value :=
  if startswith [65279] s then Raise JSONDecodeError
  else
    let s1 := skip_ws s in
    match scan_once limit s1 with
    | Ok (obj, n) =>
        match skip_ws (skipn n s1) with
        | [] => Ok obj
        | _ :: _ => Raise JSONDecodeError
        end
    | Raise e => Raise e
    end.

End Json.

(** ** Effects *)

(** What a call leaves behind besides its result: the errors shown through
    [st.error] (the text before the exception, and the exception whose
    message follows it) and the prompts sent to the generative model. *)
Inductive effect : Type :=
| ShownError (prefix : str) (e : exn)
| ModelCall (prompt : str).

(** A computation: the effects in the order they happen, and a value or the
    exception that ended it. *)
Definition M (A : Type) : Type := (list effect * result A)%type.

Definition ret {A : Type} (a : A) : M A := ([], Ok a).

Definition lift {A : Type} (r : result A) : M A := ([], r).

Definition bind {A B : Type} (m : M A) (k : A -> M B) : M B :=
  match m with
  | (log, Ok a) => let (log', r) := k a in (log ++ log', r)
  | (log, Raise e) => (log, Raise e)
  end.

(** [try: body / except Exception as e: handler]. *)
Definition try_except {A : Type} (body : M A) (handler : exn -> M A) : M A :=
  match body with
  | (log, Ok a) => (log, Ok a)
  | (log, Raise e) => let (log', r) := handler e in (log ++ log', r)
  end.

Declare Scope py_scope.
Delimit Scope py_scope with py.
Notation "x <- m ;; k" := (bind m (fun x => k))
  (at level 61, m at next level, right associativity) : py_scope.
Notation "m ;; k" := (bind m (fun _ => k))
  (at level 61, right associativity) : py_scope.
Local Open Scope py_scope.

(** [st.error] on the text [prefix] followed by the message of [e]. *)
Definition st_error (prefix : str) (e : exn) : M unit :=
  ([ShownError prefix e], Ok tt).

(** ** Constants of the script *)

(** A literal in which [~] stands for the double quote. *)
Definition litq (s : string) : str :=
  map (fun c => if c =? 126 then 34 else c) (lit s).

Definition ANALYST_PROMPT : str := litq "
ROLE: Senior Contract Administrator (Canadian Construction Law).
OBJECTIVE: Scan the contract and extract TWO things:
1. Project Metadata (Owner Name, Project Name, Contract Number).
2. Notification Requirements (The clauses).

OUTPUT FORMAT:
Return a SINGLE VALID JSON object with this structure:
{
  ~metadata~: {
    ~owner_name~: ~Name of Owner/Client~,
    ~project_name~: ~Name of Project~,
    ~contract_number~: ~Contract Ref Number or 'TBD'~
  },
  ~clauses~: [
    {
      ~clause_id~: ~GC 6.5.1~,
      ~topic~: ~Delays~,
      ~trigger_event~: ~Delay by Owner~,
      ~time_limit~: ~10 Working Days~,
      ~risk_level~: ~High~
    }
  ]
}
Output ONLY the JSON. No markdown.
".

Definition DRAFTER_PROMPT : str := litq "
ROLE: Expert Construction Claims Consultant (Canada).
OBJECTIVE: Draft a formal contractual notice.
INPUT DATA:
- Date: {date_str}
- Owner: {owner}
- Attention: {recipient}
- Project: {project}
- Contract #: {contract_num}
- Clause: {clause_id}
- User Cause: {cause}
- User Effect: {effect}

RULES:
1. TONE: Professional, firm, but collaborative. Avoid overly litigious language. Use ~Please be advised...~
2. FORMAT: Standard Business Letter.
3. STRUCTURE:
   - Header: {date_str}
   - To: {owner}
   - Attention: {recipient}
   - Re: Notice of {topic} - {project} ({contract_num})
   - Opening: State clearly that on {date_str}, an issue was identified.
   - Body Paragraph 1 (The Facts): Describe what happened versus what was in the contract.
   - Body Paragraph 2 (The Impact): Use bullet points for Schedule/Cost impacts.
   - Contractual Reference: Cite {clause_id} as the basis for the notice.
   - Closing: ~We request your direction...~ and mention that detailed costs are being tracked.
".

Definition newline : str := [10].

(** ** External collaborators *)

(** The answer of the generative model: reading its [text] may raise. *)
Record GenerationResponse : Type := { text : result str }.

(** A client of the generative model, as its method [generate_content]:
    from a prompt to an answer, or to the exception of a failed call. *)
Definition Model : Type := str -> result GenerationResponse.

(** A page of a PDF, as what [extract_text()] yields on it. *)
Definition Page : Type := result str.

(** [timedelta(days=n)], in microseconds; a [datetime] is the number of
    microseconds since some origin. *)
Definition timedelta (days : Z) : Z := (days * 86400000000)%Z.

(** [DisplayAlarm(trigger=...)] with a [timedelta]: relative to the start
    of the event that carries it. *)
Record DisplayAlarm : Type := { trigger : Z }.

Record Event : Type := {
  name : str;
  begin : Z;
  description : str;
  alarms : list DisplayAlarm
}.

(** The moment an alarm of an event fires. *)
Definition alarm_time (e : Event) (a : DisplayAlarm) : Z :=
  (begin e + trigger a)%Z.

(** [Calendar.events] is a [set] (the script calls [add] on it, and [append]
    on the list [alarms]): here its members, listed as they were added.
    Every [Event()] is a new object, so that no member is added twice. *)
Record Calendar : Type := { events : list Event }.

(** ** The deadline heuristic of [create_calendar_file] (lines 167-174) *)

(** The [if]/[elif] chain on [limit_text]; the initial value 7 of
    [days_to_add] survives when no branch is taken. *)
Definition days_to_add (limit_text : str) : Z :=
  if contains (lit "10") limit_text then 10%Z
  else if contains (lit "5") limit_text then 5%Z
  else if contains (lit "3") limit_text then 3%Z
  else if contains (lit "24") limit_text then 1%Z
  else if contains (lit "immediately") limit_text then 0%Z
  else 7%Z.

(** ** The specification's reading of the heuristic *)

(** Two code points that differ at most by the case of an ASCII letter. *)
Definition ci_char_eqb (a b : N) : bool := lower_char a =? lower_char b.

Fixpoint ci_startswith (p s : str) : bool :=
  match p, s with
  | [], _ => true
  | _ :: _, [] => false
  | x :: p', y :: s' => ci_char_eqb x y && ci_startswith p' s'
  end.

(** Case-insensitive substring search of the token [tok] in [s]. *)
Fixpoint ci_contains (tok s : str) : bool :=
  ci_startswith tok s
  || match s with
     | [] => false
     | _ :: s' => ci_contains tok s'
     end.

(** "10" gives 10 days; "5" gives 5; "3" gives 3; "24" gives 1;
    "immediately" gives 0; no match gives 7; the first match wins. *)
Definition spec_offset (time_limit : str) : Z :=
  if ci_contains (lit "10") time_limit then 10%Z
  else if ci_contains (lit "5") time_limit then 5%Z
  else if ci_contains (lit "3") time_limit then 3%Z
  else if ci_contains (lit "24") time_limit then 1%Z
  else if ci_contains (lit "immediately") time_limit then 0%Z
  else 7%Z.

(** [s] is [t] up to the case of its letters. *)
Definition same_up_to_case (s t : str) : Prop :=
  Forall2 (fun a b => lower_char a = lower_char b) s t.

(** The same reading for a time limit that is a whole number from 0 to 99,
    on its one or two decimal digits: 10 gives 10 days; a digit 5 gives 5;
    a digit 3 gives 3; 24 gives 1; any other number gives 7. *)
Definition int_offset (z : Z) : Z :=
  let has_digit d := ((z / 10 =? d) || (z mod 10 =? d))%Z in
  if (z =? 10)%Z then 10%Z
  else if has_digit 5%Z then 5%Z
  else if has_digit 3%Z then 3%Z
  else if (z =? 24)%Z then 1%Z
  else 7%Z.

(** ** The helper functions *)

Section App.

Set Default Proof Using "Type".

(** The interpreter: [repr] of floats and of strings, and the depth of
    recursion still allowed when [json.loads] is called. *)
Variable float_repr : str -> str.
Variable str_repr : str -> str.
Variable recursion_limit : nat.

(** [GenerativeModel(name)]: a client, or the exception of a failed
    construction. *)
Variable GenerativeModel : str -> result Model.

(** [PdfReader(uploaded_file).pages], or the exception of a failed read. *)
Variable UploadedFile : Type.
Variable PdfReader : UploadedFile -> result (list Page).

(** [datetime.now()]: the reading of the clock at its n-th call. *)
Variable datetime_now : nat -> Z.

(** The order in which the members of a set come out when it is iterated,
    which Python leaves open: some arrangement of the members. *)
Variable set_order : list Event -> list Event.
Hypothesis set_order_perm : forall l, Permutation (set_order l) l.

Local Abbreviation str_of := (Py.str_of float_repr str_repr).

(** [model.generate_content(prompt)]. *)
Definition generate_content (model : Model) (prompt : str)
  : M GenerationResponse :=
  ([ModelCall prompt], model prompt).

(** *** [extract_text_from_pdf] (lines 119-129) *)

(** The [for] loop over [enumerate(reader.pages)], from index [i] on. *)
Fixpoint pages_loop (i : nat) (pages : list Page) (text : str) : result str :=
  match pages with
  | [] => Ok text
  | page :: pages' =>
      if (50 <? i)%nat then Ok text
      else
        match page with
        | Ok extracted => pages_loop (S i) pages' (text ++ (extracted ++ newline))
        | Raise e => Raise e
        end
  end.

(** The text, or [None] after an error was shown. *)
Definition extract_text_from_pdf (uploaded_file : UploadedFile) : M (option str) :=
  try_except
    (pages <- lift (PdfReader uploaded_file) ;;
     text <- lift (pages_loop 0 pages []) ;;
     ret (Some text))
    (fun e => st_error (lit "Error reading PDF: ") e ;; ret None).

(** *** [analyze_contract] (lines 131-140) *)

Definition fence_json : str := lit "```json".
Definition fence : str := lit "```".

(** The f-string of line 133. *)
Definition prompt_of_contract (contract_text : str) : str :=
  ANALYST_PROMPT ++ newline ++ lit "INPUT CONTRACT TEXT:" ++ newline
  ++ contract_text.

(** Line 136. *)
Definition clean_json (response_text : str) : str :=
  strip (replace fence [] (replace fence_json [] response_text)).

(** The value returned after a failure (line 140). *)
Definition empty_analysis : value :=
  VDict [(lit "metadata", VDict []); (lit "clauses", VList [])].

Definition analyze_contract (contract_text : str) : M value :=
  model <- lift (GenerativeModel (lit "gemini-2.0-flash-001")) ;;
  let prompt := prompt_of_contract contract_text in
  try_except
    (response <- generate_content model prompt ;;
     response_text <- lift (text response) ;;
     lift (Json.loads recursion_limit (clean_json response_text)))
    (fun e =>
       st_error (lit "AI Analysis Failed: ") e ;;
       ret empty_analysis).

(** *** [generate_notice_draft] (lines 142-156) *)

(** Where the scan of a template by [str.format] stands. *)
Inductive format_state : Type :=
| FmtText                  (* literal text *)
| FmtOpen                  (* just after an opening brace *)
| FmtClose                 (* just after a closing brace *)
| FmtField (name : str).   (* inside a replacement field *)

(** [template.format] with keyword arguments [kwargs], for replacement
    fields that are plain names,
    the only ones [DRAFTER_PROMPT] has: a doubled brace stands for itself, a
    field is replaced by [format(kwargs[name], "")]. *)
Fixpoint format_from (kwargs : list (str * value)) (st : format_state)
    (template : str) : result str :=
  match template with
  | [] =>
      match st with
      | FmtText => Ok []
      | _ => Raise ValueError
      end
  | c :: template' =>
      let emit (piece : str) :=
        match format_from kwargs FmtText template' with
        | Ok out => Ok (piece ++ out)
        | Raise e => Raise e
        end in
      match st with
      | FmtText =>
          if c =? 123 then format_from kwargs FmtOpen template'
          else if c =? 125 then format_from kwargs FmtClose template'
          else emit [c]
      | FmtOpen =>
          if c =? 123 then emit [123]
          else if c =? 125 then Raise IndexError
          else format_from kwargs (FmtField [c]) template'
      | FmtClose =>
          if c =? 125 then emit [125] else Raise ValueError
      | FmtField name =>
          if c =? 125 then
            match dict_get kwargs name with
            | Some v => emit (str_of v)
            | None => Raise (KeyError name)
            end
          else format_from kwargs (FmtField (name ++ [c])) template'
      end
  end.

Definition format (template : str) (kwargs : list (str * value)) : result str :=
  format_from kwargs FmtText template.

Definition generate_notice_draft (clause inputs meta : value) : M str :=
  model <- lift (GenerativeModel (lit "gemini-2.0-flash-001")) ;;
  date_str <- lift (subscript inputs (lit "date")) ;;
  owner <- lift (subscript meta (lit "owner")) ;;
  recipient <- lift (subscript meta (lit "recipient")) ;;
  project <- lift (subscript meta (lit "project")) ;;
  contract_num <- lift (subscript meta (lit "contract_num")) ;;
  clause_id <- lift (subscript clause (lit "clause_id")) ;;
  topic <- lift (subscript clause (lit "topic")) ;;
  cause <- lift (subscript inputs (lit "cause")) ;;
  effect <- lift (subscript inputs (lit "effect")) ;;
  prompt <- lift (format DRAFTER_PROMPT
                    [(lit "date_str", date_str); (lit "owner", owner);
                     (lit "recipient", recipient); (lit "project", project);
                     (lit "contract_num", contract_num);
                     (lit "clause_id", clause_id); (lit "topic", topic);
                     (lit "cause", cause); (lit "effect", effect)]) ;;
  response <- generate_content model prompt ;;
  lift (text response).

(** *** [create_calendar_file] (lines 159-197) *)

(** The time limit of a clause as the heuristic reads it (line 168). *)
Definition limit_text (time_limit : value) : str := lower (str_of time_limit).

(** The body of the loop (lines 162-194) on one clause, [now] being what
    [datetime.now()] returns in it. *)
Definition calendar_event (now : Z) (item : value) : result Event :=
  match subscript item (lit "topic") with Raise e => Raise e | Ok topic =>
  match subscript item (lit "clause_id") with Raise e => Raise e | Ok clause_id =>
  let e_name :=
    [9888; 65039] ++ lit " NOTICE DUE: " ++ str_of topic
    ++ lit " (" ++ str_of clause_id ++ lit ")" in
  match subscript item (lit "time_limit") with Raise e => Raise e | Ok time_limit =>
  let due_date := (now + timedelta (days_to_add (limit_text time_limit)))%Z in
  match subscript item (lit "trigger_event") with Raise e => Raise e | Ok trigger_event =>
  let e_description :=
    newline
    ++ lit "        PROJECT NOTICE DEADLINE" ++ newline
    ++ lit "        -----------------------" ++ newline
    ++ lit "        Topic: " ++ str_of topic ++ newline
    ++ lit "        Clause: " ++ str_of clause_id ++ newline
    ++ lit "        Trigger: " ++ str_of trigger_event ++ newline
    ++ lit "        Exact Rule: " ++ str_of time_limit ++ newline
    ++ lit "        " ++ newline
    ++ lit "        ACTION REQUIRED:" ++ newline
    ++ lit "        Draft and submit notice immediately to preserve claim entitlement."
    ++ newline
    ++ lit "        " in
  Ok {| name := e_name;
        begin := due_date;
        description := e_description;
        alarms := [{| trigger := timedelta (-1) |}] |}
  end end end end.

(** The [for] loop over [clauses], at its [i]-th turn, [added] being the
    members of [c.events] so far. *)
Fixpoint events_loop (i : nat) (clauses : list value) (added : list Event)
  : result Calendar :=
  match clauses with
  | [] => Ok {| events := added |}
  | item :: clauses' =>
      match calendar_event (datetime_now i) item with
      | Ok e => events_loop (S i) clauses' (added ++ [e])
      | Raise e => Raise e
      end
  end.

(** [c.serialize()], as the events of the text it writes, in the order it
    writes them: the order in which the set [c.events] is iterated. *)
Definition serialize (c : Calendar) : list Event := set_order (events c).

Definition create_calendar_file (clauses : list value) : M (list Event) :=
  c <- lift (events_loop 0 clauses []) ;;
  ret (serialize c).

(** ** The specification's reading of the drafting prompt *)

(** The drafting template with each of its fields replaced by the text of
    the value given for it. *)
Definition filled_template
    (date_str owner recipient project contract_num clause_id topic cause
     effect : value) : str :=
  litq "
ROLE: Expert Construction Claims Consultant (Canada).
OBJECTIVE: Draft a formal contractual notice.
INPUT DATA:
- Date: "
  ++ str_of date_str
  ++ litq "
- Owner: "
  ++ str_of owner
  ++ litq "
- Attention: "
  ++ str_of recipient
  ++ litq "
- Project: "
  ++ str_of project
  ++ litq "
- Contract #: "
  ++ str_of contract_num
  ++ litq "
- Clause: "
  ++ str_of clause_id
  ++ litq "
- User Cause: "
  ++ str_of cause
  ++ litq "
- User Effect: "
  ++ str_of effect
  ++ litq "

RULES:
1. TONE: Professional, firm, but collaborative. Avoid overly litigious language. Use ~Please be advised...~
2. FORMAT: Standard Business Letter.
3. STRUCTURE:
   - Header: "
  ++ str_of date_str
  ++ litq "
   - To: "
  ++ str_of owner
  ++ litq "
   - Attention: "
  ++ str_of recipient
  ++ litq "
   - Re: Notice of "
  ++ str_of topic
  ++ litq " - "
  ++ str_of project
  ++ litq " ("
  ++ str_of contract_num
  ++ litq ")
   - Opening: State clearly that on "
  ++ str_of date_str
  ++ litq ", an issue was identified.
   - Body Paragraph 1 (The Facts): Describe what happened versus what was in the contract.
   - Body Paragraph 2 (The Impact): Use bullet points for Schedule/Cost impacts.
   - Contractual Reference: Cite "
  ++ str_of clause_id
  ++ litq " as the basis for the notice.
   - Closing: ~We request your direction...~ and mention that detailed costs are being tracked.
".

(** The title of the event of a clause: its topic and its clause id. *)
Definition event_title (topic clause_id : value) : str :=
  [9888; 65039] ++ lit " NOTICE DUE: " ++ str_of topic
  ++ lit " (" ++ str_of clause_id ++ lit ")".

(** A clause that carries the four fields the exporter reads. *)
Definition has_fields (item topic clause_id trigger_event time_limit : value)
  : Prop :=
  subscript item (lit "topic") = Ok topic
  /\ subscript item (lit "clause_id") = Ok clause_id
  /\ subscript item (lit "trigger_event") = Ok trigger_event
  /\ subscript item (lit "time_limit") = Ok time_limit.

(** [evs] lists one event per clause of [clauses], in their order, the
    first made at the [i]-th reading of the clock. *)
Inductive events_of : nat -> list value -> list Event -> Prop :=
| events_of_nil i : events_of i [] []
| events_of_cons i item clauses e evs :
    calendar_event (datetime_now i) item = Ok e ->
    events_of (S i) clauses evs ->
    events_of i (item :: clauses) (e :: evs).

(** Text that may stand before or after the body of an answer: whitespace,
    with or without one fence marker in it. *)
Definition wrapping (w : str) : Prop :=
  exists ws mark ws',
    w = ws ++ mark ++ ws'
    /\ forallb isspace ws = true /\ forallb isspace ws' = true
    /\ (mark = [] \/ mark = fence \/ mark = fence_json).

(** No occurrence of [old] begins in [a] when [s] follows it. *)
Definition inert (old a s : str) : Prop :=
  forall a1 c a2, a = a1 ++ c :: a2 -> startswith old (c :: a2 ++ s) = false.

(** ** Sample inputs *)

(** A stand-in for the [repr] of the interpreter. *)
Definition plain_repr (s : str) : str := s.

(** A model that answers every prompt with the same text. *)
Definition answering (response_text : str) : Model :=
  fun _ => Ok {| text := Ok response_text |}.

(** A model whose call fails. *)
Definition unreachable_model : Model :=
  fun _ => Raise (LibraryError (lit "503 Service Unavailable")).

(** A constructor that hands out the same client under every name. *)
Definition client (model : Model) : str -> result Model :=
  fun _ => Ok model.

(** A clock that advances by one second between two readings. *)
Definition ticking_clock (n : nat) : Z := (Z.of_nat n * 1000000)%Z.

(** The clause of the example of [ANALYST_PROMPT], and another one. *)
Definition clause_delays : value :=
  VDict [(lit "clause_id", VStr (lit "GC 6.5.1"));
         (lit "topic", VStr (lit "Delays"));
         (lit "trigger_event", VStr (lit "Delay by Owner"));
         (lit "time_limit", VStr (lit "10 Working Days"));
         (lit "risk_level", VStr (lit "High"))].

Definition clause_changes : value :=
  VDict [(lit "clause_id", VStr (lit "GC 6.2.1"));
         (lit "topic", VStr (lit "Changes"));
         (lit "trigger_event", VStr (lit "Change Directive"));
         (lit "time_limit", VNone);
         (lit "risk_level", VStr (lit "Medium"))].

(** A clause whose time limit is a number, and one whose time limit is a
    list. *)
Definition clause_claims : value :=
  VDict [(lit "clause_id", VStr (lit "GC 6.6.1"));
         (lit "topic", VStr (lit "Claims"));
         (lit "trigger_event", VStr (lit "Event giving rise to a claim"));
         (lit "time_limit", VInt 10)].

Definition clause_concealed : value :=
  VDict [(lit "clause_id", VStr (lit "GC 6.4.1"));
         (lit "topic", VStr (lit "Concealed Conditions"));
         (lit "trigger_event", VStr (lit "Discovery"));
         (lit "time_limit", VList [VInt 5; VNone; VBool true])].

(** What the form of the script hands to [generate_notice_draft]. *)
Definition sample_inputs : value :=
  VDict [(lit "cause", VStr (lit "Access to the site was denied."));
         (lit "effect", VStr (lit "Work stopped for two days."));
         (lit "date", VStr (lit "2024-05-01"))].

Definition sample_meta : value :=
  VDict [(lit "owner", VStr (lit "City of Toronto"));
         (lit "recipient", VStr (lit "Project Manager"));
         (lit "project", VStr (lit "Bridge Rehabilitation"));
         (lit "contract_num", VStr (lit "TBD"))].

(** What stands between the braces of an answer, and the object it
    denotes. *)
Definition answer_inside : str :=
  litq "~metadata~: {~owner_name~: ~City of Toronto~}, ~clauses~: []".

Definition answer_object : list (str * value) :=
  [(lit "metadata", VDict [(lit "owner_name", VStr (lit "City of Toronto"))]);
   (lit "clauses", VList [])].

(** An answer one of whose strings holds a fence marker. *)
Definition answer_with_inner_fence : str :=
  litq "{~metadata~: {}, ~clauses~: [{~topic~: ~a```b~}]}".

(** A document of 52 pages whose last page cannot be read. *)
Definition long_document : list Page :=
  repeat (Ok (lit "page")) 51 ++ [Raise (LibraryError (lit "damaged page"))].

(** ** Readings of the code used by the further properties *)

(** The exception that the loop body of [create_calendar_file] meets first
    on [item], if any: the subscripts are evaluated in the order [topic],
    [clause_id], [time_limit], [trigger_event]. *)
Definition first_missing_field (item : value) : option exn :=
  match item with
  | VDict d =>
      match find (fun key => match dict_get d key with
                             | None => true
                             | Some _ => false
                             end)
                 [lit "topic"; lit "clause_id"; lit "time_limit";
                  lit "trigger_event"] with
      | Some key => Some (KeyError key)
      | None => None
      end
  | _ => Some TypeError
  end.

(** The nine subscripts of [generate_notice_draft], in the order in which
    the keyword arguments of [format] are evaluated. *)
Definition draft_lookups (clause inputs meta : value) : list (result value) :=
  [subscript inputs (lit "date"); subscript meta (lit "owner");
   subscript meta (lit "recipient"); subscript meta (lit "project");
   subscript meta (lit "contract_num"); subscript clause (lit "clause_id");
   subscript clause (lit "topic"); subscript inputs (lit "cause");
   subscript inputs (lit "effect")].

(** ** The script around the helper functions *)

(** [st.session_state], by the keys under which the script stores
    something, each absent or present with the kind of value the script (or,
    for [password], the text input that owns the key) puts there. The
    script reads [password] only in the callback, after an entry; the empty
    text that the input holds before any entry is not told apart from
    absence. *)
Record SessionState : Type := {
  password : option str;
  password_correct : option bool;
  analysis : option value;
  selected_clause : option value;
  draft_mode : option bool;
  current_draft : option str
}.

(** The state of a session that begins. *)
Definition fresh_session : SessionState :=
  {| password := None; password_correct := None; analysis := None;
     selected_clause := None; draft_mode := None; current_draft := None |}.

(** Assignments to, and deletions of, one key. *)
Definition with_password (v : option str) (s : SessionState) : SessionState :=
  {| password := v; password_correct := password_correct s;
     analysis := analysis s; selected_clause := selected_clause s;
     draft_mode := draft_mode s; current_draft := current_draft s |}.

Definition with_password_correct (v : option bool) (s : SessionState)
  : SessionState :=
  {| password := password s; password_correct := v;
     analysis := analysis s; selected_clause := selected_clause s;
     draft_mode := draft_mode s; current_draft := current_draft s |}.

Definition with_analysis (v : option value) (s : SessionState) : SessionState :=
  {| password := password s; password_correct := password_correct s;
     analysis := v; selected_clause := selected_clause s;
     draft_mode := draft_mode s; current_draft := current_draft s |}.

Definition with_selected_clause (v : option value) (s : SessionState)
  : SessionState :=
  {| password := password s; password_correct := password_correct s;
     analysis := analysis s; selected_clause := v;
     draft_mode := draft_mode s; current_draft := current_draft s |}.

Definition with_draft_mode (v : option bool) (s : SessionState) : SessionState :=
  {| password := password s; password_correct := password_correct s;
     analysis := analysis s; selected_clause := selected_clause s;
     draft_mode := v; current_draft := current_draft s |}.

Definition with_current_draft (v : option str) (s : SessionState)
  : SessionState :=
  {| password := password s; password_correct := password_correct s;
     analysis := analysis s; selected_clause := selected_clause s;
     draft_mode := draft_mode s; current_draft := v |}.

(** One clause of the notification matrix as the page shows it. *)
Record MatrixRow : Type := {
  expander_label : str;
  trigger_text : str;
  button_key : str
}.

(** What a run of the script puts on the page, as far as the properties
    below look at it, and what the helper functions leave behind. *)
Inductive shown : Type :=
| TextInput (label key : str)
| ErrorBox (message : str)
| SuccessBox (message : str)
| ByHelper (e : effect)
| Subheader (body : str)
| Caption (body : str)
| Expander (row : MatrixRow)
| CalendarDownload (ics_data : list Event) (file_name : str)
| Header (body : str)
| DraftDownload (draft_text file_name : str).

(** Exceptions of the script: those of the built-ins and of the helper
    functions, and the two that only the script itself can meet. *)
Inductive script_exn : Type :=
| Builtin (e : exn)
| AttributeError
| NameError (name : str).

(** What a stretch of the script comes to: it runs through, with a value,
    or an exception ends the run. *)
Inductive outcome (A : Type) : Type :=
| Done (a : A)
| Uncaught (e : script_exn).

#[global] Arguments Done {A} a.
#[global] Arguments Uncaught {A} e.

(** *** [check_password] (lines 10-35) *)

(** [st.secrets] at the key [app_password]: a value, or the exception of a
    missing secret. *)
Variable app_password : result value.

(** [entered == secret] for the text [entered]: a secret that is not a
    string equals no text. *)
Definition equals_text (entered : str) (secret : value) : bool :=
  match secret with
  | VStr s => str_eqb entered s
  | _ => false
  end.

(** The callback of the text input (lines 13-19). *)
Definition password_entered (session : SessionState) : result SessionState :=
  match password session with
  | None => Raise (KeyError (lit "password"))
  | Some entered =>
      match app_password with
      | Raise e => Raise e
      | Ok secret =>
          if equals_text entered secret
          then Ok (with_password None
                     (with_password_correct (Some true) session))
          else Ok (with_password_correct (Some false) session)
      end
  end.

Definition password_label : str :=
  [128274] ++ lit " Please enter the Password to access this tool:".

Definition password_incorrect : str :=
  [128533] ++ lit " Password incorrect. Please ask the administrator.".

(** What [check_password] shows, and what it returns. *)
Definition check_password (session : SessionState) : list shown * bool :=
  match password_correct session with
  | Some true => ([], true)
  | Some false =>
      ([TextInput password_label (lit "password");
        ErrorBox password_incorrect], false)
  | None => ([TextInput password_label (lit "password")], false)
  end.

(** An entry typed in the text input: the text goes to the session state
    under the key of the input, then the callback runs. *)
Definition on_change (entered : str) (session : SessionState)
  : result SessionState :=
  password_entered (with_password (Some entered) session).

(** The runs of the script at the gate while entries are typed: a run that
    [check_password] lets through shows no text input, so that later entries
    have nowhere to be typed. *)
Fixpoint gate_runs (entries : list str) (session : SessionState)
  : result SessionState :=
  match entries with
  | [] => Ok session
  | entered :: entries' =>
      if snd (check_password session) then Ok session
      else
        match on_change entered session with
        | Ok session' => gate_runs entries' session'
        | Raise e => Raise e
        end
  end.

(** *** The sidebar (lines 208-214) *)

(** [if text:] on what [extract_text_from_pdf] returns. *)
Definition has_text (text : option str) : bool :=
  match text with
  | Some (_ :: _) => true
  | _ => false
  end.

Definition sidebar_analysis (uploaded_file : option UploadedFile)
    (analyze_pressed : bool) (session : SessionState)
  : list shown * result SessionState :=
  match uploaded_file with
  | None => ([], Ok session)
  | Some file =>
      if analyze_pressed then
        match extract_text_from_pdf file with
        | (log, Raise e) => (map ByHelper log, Raise e)
        | (log, Ok text) =>
            if has_text text then
              match analyze_contract (match text with
                                      | Some t => t
                                      | None => []
                                      end) with
              | (log', Raise e) => (map ByHelper (log ++ log'), Raise e)
              | (log', Ok data) =>
                  (map ByHelper (log ++ log')
                   ++ [SuccessBox (lit "Extraction Complete!")],
                   Ok (with_analysis (Some data) session))
              end
            else (map ByHelper log, Ok session)
        end
      else ([], Ok session)
  end.

(** *** The dashboard (lines 217-249) *)

(** [v.get(key, default)]: of the values that [json.loads] returns only a
    [dict] has the method. *)
Definition get_or (v : value) (key : str) (default : value) : outcome value :=
  match v with
  | VDict d =>
      Done (match dict_get d key with
            | Some w => w
            | None => default
            end)
  | _ => Uncaught AttributeError
  end.

(** Lines 218-224: the two parts of the analysis, and the two lines of the
    page that name the project. *)
Definition dashboard_header (data : value)
  : outcome (value * value * list shown) :=
  match get_or data (lit "metadata") (VDict []) with
  | Uncaught e => Uncaught e
  | Done meta =>
  match get_or data (lit "clauses") (VList []) with
  | Uncaught e => Uncaught e
  | Done clauses =>
  match get_or meta (lit "project_name") (VStr (lit "Unknown Project")) with
  | Uncaught e => Uncaught e
  | Done project_name =>
  match get_or meta (lit "owner_name") (VStr (lit "Unknown")) with
  | Uncaught e => Uncaught e
  | Done owner_name =>
  match get_or meta (lit "contract_number") (VStr (lit "N/A")) with
  | Uncaught e => Uncaught e
  | Done contract_number =>
      Done (meta, clauses,
            [Subheader ([128194] ++ lit " Project: " ++ str_of project_name);
             Caption (lit "Owner: " ++ str_of owner_name
                      ++ lit " | Contract #: " ++ str_of contract_number)])
  end end end end end.

(** [for item in v]: the items that iterating [v] yields. *)
Definition iterate (v : value) : result (list value) :=
  match v with
  | VList items => Ok items
  | VDict items => Ok (map (fun kv => VStr (fst kv)) items)
  | VStr s => Ok (map (fun c => VStr [c]) s)
  | _ => Raise TypeError
  end.

(** One turn of the loop of lines 230-238, up to its button. *)
Definition matrix_row (index : nat) (item : value) : result MatrixRow :=
  match subscript item (lit "clause_id") with Raise e => Raise e | Ok clause_id =>
  match subscript item (lit "topic") with Raise e => Raise e | Ok topic =>
  match subscript item (lit "time_limit") with Raise e => Raise e | Ok time_limit =>
  match subscript item (lit "trigger_event") with Raise e => Raise e | Ok trigger_event =>
  Ok {| expander_label :=
          [9888; 65039] ++ lit " " ++ str_of clause_id ++ lit ": "
          ++ str_of topic ++ lit " (" ++ str_of time_limit ++ lit ")";
        trigger_text := lit "**Trigger:** " ++ str_of trigger_event;
        button_key := lit "btn_" ++ str_of_int (Z.of_nat index) |}
  end end end end.

(** The loop over [enumerate(clauses)]: [draft_pressed] tells which of the
    buttons was pressed. The result is the rows shown in full, the session
    state that the loop leaves, and the exception that ended it, if any. *)
Fixpoint notification_matrix (index : nat) (items : list value)
    (draft_pressed : nat -> bool) (session : SessionState)
  : list MatrixRow * SessionState * option exn :=
  match items with
  | [] => ([], session, None)
  | item :: items' =>
      match matrix_row index item with
      | Raise e => ([], session, Some e)
      | Ok row =>
          let session' :=
            if draft_pressed index
            then with_draft_mode (Some true)
                   (with_selected_clause (Some item) session)
            else session in
          let '(rows, session'', failure) :=
            notification_matrix (S index) items' draft_pressed session' in
          (row :: rows, session'', failure)
      end
  end.

(** The block under [if 'analysis' in st.session_state], for the analysis
    [data] found there. A run that gets through it has bound [meta], which
    the drafting section reads. *)
Definition dashboard (data : value) (draft_pressed : nat -> bool)
    (calendar_pressed : bool) (session : SessionState)
  : list shown * SessionState * outcome value :=
  match dashboard_header data with
  | Uncaught e => ([], session, Uncaught e)
  | Done (meta, clauses, head) =>
      match iterate clauses with
      | Raise e => (head, session, Uncaught (Builtin e))
      | Ok items =>
          let '(rows, session', failure) :=
            notification_matrix 0 items draft_pressed session in
          match failure with
          | Some e =>
              (head ++ map Expander rows, session', Uncaught (Builtin e))
          | None =>
              if calendar_pressed then
                match create_calendar_file items with
                | (log, Ok ics_data) =>
                    (head ++ map Expander rows ++ map ByHelper log
                     ++ [CalendarDownload ics_data
                           (lit "project_deadlines.ics")],
                     session', Done meta)
                | (log, Raise e) =>
                    (head ++ map Expander rows ++ map ByHelper log,
                     session', Uncaught (Builtin e))
                end
              else (head ++ map Expander rows, session', Done meta)
          end
      end
  end.

(** Lines 217-249 with their test: the name [meta] is bound only when the
    session state holds an analysis. *)
Definition dashboard_block (draft_pressed : nat -> bool)
    (calendar_pressed : bool) (session : SessionState)
  : list shown * SessionState * outcome (option value) :=
  match analysis session with
  | Some data =>
      match dashboard data draft_pressed calendar_pressed session with
      | (dash, session', Done meta) => (dash, session', Done (Some meta))
      | (dash, session', Uncaught e) => (dash, session', Uncaught e)
      end
  | None => ([], session, Done None)
  end.

(** *** The drafting section (lines 252-305) *)

(** What the widgets of the form return. The three text inputs whose first
    value comes from the analysis return that value or the text typed;
    [date_in] is the text that [str] makes of the date chosen. *)
Record Form : Type := {
  owner_in : value;
  recipient_in : str;
  proj_in : value;
  num_in : value;
  date_in : str;
  cause_in : str;
  effect_in : str
}.

(** The first values of the three text inputs (lines 262-266), read from
    [meta] when the run has bound it. *)
Definition form_defaults (meta : option value)
  : outcome (value * value * value) :=
  match meta with
  | None => Uncaught (NameError (lit "meta"))
  | Some meta =>
      match get_or meta (lit "owner_name") (VStr []) with
      | Uncaught e => Uncaught e
      | Done owner_name =>
      match get_or meta (lit "project_name") (VStr []) with
      | Uncaught e => Uncaught e
      | Done project_name =>
      match get_or meta (lit "contract_number") (VStr []) with
      | Uncaught e => Uncaught e
      | Done contract_number => Done (owner_name, project_name, contract_number)
      end end end
  end.

(** The final output (lines 293-305). *)
Definition final_output (target : value) (session : SessionState)
  : list shown * option script_exn :=
  match current_draft session with
  | None => ([], None)
  | Some draft_text =>
      match subscript target (lit "clause_id") with
      | Raise e => ([], Some (Builtin e))
      | Ok clause_id =>
          ([DraftDownload draft_text
              (lit "Notice_" ++ str_of clause_id ++ lit ".txt")], None)
      end
  end.

(** [meta] is the dictionary that the dashboard has bound in this run, if it
    has. The result is what the section shows, the session state it leaves
    and the exception that ended it, if any. *)
Definition drafting_section (meta : option value) (submitted : bool)
    (form : Form) (session : SessionState)
  : list shown * SessionState * option script_exn :=
  match draft_mode session, selected_clause session with
  | Some true, Some target =>
      match subscript target (lit "clause_id") with
      | Raise e => ([], session, Some (Builtin e))
      | Ok clause_id =>
          let head := [Header (lit "3. Draft Notice: " ++ str_of clause_id)] in
          match form_defaults meta with
          | Uncaught e => (head, session, Some e)
          | Done _ =>
              if submitted then
                let final_meta :=
                  VDict [(lit "owner", owner_in form);
                         (lit "recipient", VStr (recipient_in form));
                         (lit "project", proj_in form);
                         (lit "contract_num", num_in form)] in
                let inputs :=
                  VDict [(lit "cause", VStr (cause_in form));
                         (lit "effect", VStr (effect_in form));
                         (lit "date", VStr (date_in form))] in
                match generate_notice_draft target inputs final_meta with
                | (log, Raise e) =>
                    (head ++ map ByHelper log, session, Some (Builtin e))
                | (log, Ok draft) =>
                    let session' := with_current_draft (Some draft) session in
                    let (out, failure) := final_output target session' in
                    (head ++ map ByHelper log ++ out, session', failure)
                end
              else
                let (out, failure) := final_output target session in
                (head ++ out, session, failure)
          end
      end
  | _, _ => ([], session, None)
  end.

(** *** A run of the script (lines 38-305) *)

(** How a run ends. *)
Inductive ending : Type :=
| Completed
| Stopped
| Failed (e : script_exn).

(** One run of the script from top to bottom, given what the widgets return
    in it. The authentication block (lines 46-60) catches its own
    exceptions, reads and writes no session state and binds no name that
    the rest reads; its error box is not among what is recorded here. *)
Definition script_run (uploaded_file : option UploadedFile)
    (analyze_pressed : bool) (draft_pressed : nat -> bool)
    (calendar_pressed submitted : bool) (form : Form)
    (session : SessionState)
  : list shown * SessionState * ending :=
  let (gate, opened) := check_password session in
  if opened then
    match sidebar_analysis uploaded_file analyze_pressed session with
    | (side, Raise e) => (gate ++ side, session, Failed (Builtin e))
    | (side, Ok session1) =>
        match dashboard_block draft_pressed calendar_pressed session1 with
        | (dash, session2, Uncaught e) =>
            (gate ++ side ++ dash, session2, Failed e)
        | (dash, session2, Done meta) =>
            let '(draft, session3, failure) :=
              drafting_section meta submitted form session2 in
            (gate ++ side ++ dash ++ draft, session3,
             match failure with
             | Some e => Failed e
             | None => Completed
             end)
        end
    end
  else (gate, session, Stopped).

(** What the user does between two states of a session: a text is entered
    at the gate, which runs the callback, or the script runs. *)
Definition after_entry (entered : str) (session : SessionState)
  : SessionState :=
  match on_change entered session with
  | Ok session' => session'
  | Raise _ => with_password (Some entered) session
  end.

Inductive reachable : SessionState -> Prop :=
| reach_fresh : reachable fresh_session
| reach_entry (entered : str) (session : SessionState) :
    reachable session ->
    snd (check_password session) = false ->
    reachable (after_entry entered session)
| reach_run (uploaded_file : option UploadedFile) (analyze_pressed : bool)
    (draft_pressed : nat -> bool) (calendar_pressed submitted : bool)
    (form : Form) (session : SessionState) :
    reachable session ->
    reachable (snd (fst (script_run uploaded_file analyze_pressed
                           draft_pressed calendar_pressed submitted form
                           session))).

(** What holds of the session state between any two steps of the user. *)
Definition consistent (s : SessionState) : Prop :=
  (draft_mode s = None \/ draft_mode s = Some true)
  /\ (draft_mode s = Some true <-> selected_clause s <> None)
  /\ (draft_mode s = Some true -> analysis s <> None)
  /\ (current_draft s <> None -> draft_mode s = Some true)
  /\ (analysis s <> None -> password_correct s = Some true).

Definition is_dict (v : value) : bool :=
  match v with
  | VDict _ => true
  | _ => false
  end.

(** ** Sample inputs of the script *)

(** A document whose second page cannot be read, and one that can be read
    throughout. *)
Definition damaged_document : list Page :=
  [Ok (lit "page"); Raise (LibraryError (lit "damaged page"))].

Definition short_document : list Page :=
  [Ok (lit "GC 6.5.1 Delays"); Ok (lit "GC 6.2.1 Changes")].

(** A clause without time limit, and one to be notified at once. *)
Definition clause_without_limit : value :=
  VDict [(lit "clause_id", VStr (lit "GC 8.1.1"));
         (lit "topic", VStr (lit "Disputes"));
         (lit "trigger_event", VStr (lit "Dispute"))].

Definition clause_immediate : value :=
  VDict [(lit "clause_id", VStr (lit "GC 7.1.2"));
         (lit "topic", VStr (lit "Default"));
         (lit "trigger_event", VStr (lit "Notice of default"));
         (lit "time_limit", VStr (lit "Immediately upon discovery"))].

Definition sample_analysis : value :=
  VDict [(lit "metadata",
          VDict [(lit "owner_name", VStr (lit "City of Toronto"));
                 (lit "project_name", VStr (lit "Bridge Rehabilitation"))]);
         (lit "clauses", VList [clause_delays; clause_changes])].

(** A session past the gate, then with an analysis, then with the second
    clause selected. *)
Definition open_session : SessionState :=
  with_password_correct (Some true) fresh_session.

Definition analysed_session : SessionState :=
  with_analysis (Some sample_analysis) open_session.

Definition drafting_session : SessionState :=
  with_draft_mode (Some true)
    (with_selected_clause (Some clause_changes) analysed_session).

Definition sample_form : Form :=
  {| owner_in := VStr (lit "City of Toronto");
     recipient_in := lit "Project Manager";
     proj_in := VStr (lit "Bridge Rehabilitation");
     num_in := VStr [];
     date_in := lit "2024-05-01";
     cause_in := lit "Access to the site was denied.";
     effect_in := lit "Work stopped for two days." |}.

(** The button of the second clause, and no button. *)
Definition second_button (index : nat) : bool := Nat.eqb index 1.

Definition no_button (index : nat) : bool := false.

(** * Properties *)

Lemma startswith_lower (tok s : str) :
  lower tok = tok ->
  startswith tok (lower s) = ci_startswith tok s.
Proof.
  revert s; induction tok as [|x tok IH]; intros s Hl; [reflexivity|].
  destruct s as [|y s]; [reflexivity|].
  cbn in Hl. injection Hl as Hx Htok.
  cbn [lower map startswith ci_startswith]. fold (lower s).
  rewrite IH by exact Htok.
  unfold ci_char_eqb. rewrite Hx. reflexivity.
Qed.

Lemma contains_lower (tok s : str) :
  lower tok = tok ->
  contains tok (lower s) = ci_contains tok s.
Proof.
  intros Hl. induction s as [|y s IH].
  - cbn [lower map contains ci_contains].
    change (@nil N) with (lower []) at 1. now rewrite startswith_lower.
  - cbn [contains ci_contains]. rewrite <- IH.
    rewrite <- (startswith_lower tok (y :: s) Hl). reflexivity.
Qed.

Lemma days_to_add_spec (s : str) : days_to_add (lower s) = spec_offset s.
Proof.
  unfold days_to_add, spec_offset.
  rewrite !contains_lower by reflexivity. reflexivity.
Qed.


Lemma startswith_ci (p s : str) :
  startswith p s = true -> ci_startswith p s = true.
Proof.
  revert s; induction p as [|x p IH]; intros [|y s]; cbn; try easy.
  intros H. apply andb_true_iff in H as [Hxy Hp].
  apply N.eqb_eq in Hxy. subst y.
  unfold ci_char_eqb. rewrite N.eqb_refl. cbn. now apply IH.
Qed.

Lemma contains_ci (tok s : str) :
  contains tok s = true -> ci_contains tok s = true.
Proof.
  induction s as [|y s IH]; cbn [contains ci_contains]; intros H;
    apply orb_true_iff in H as [H|H].
  - now rewrite (startswith_ci _ _ H).
  - discriminate.
  - now rewrite (startswith_ci _ _ H).
  - rewrite (IH H). apply orb_true_r.
Qed.

Lemma same_up_to_case_lower (s t : str) :
  same_up_to_case s t -> lower s = lower t.
Proof.
  unfold lower.
  induction 1 as [|a b s t Hab _ IH]; [reflexivity|].
  cbn [map]. now rewrite Hab, IH.
Qed.

(** C1. The day offset derived from a time-limit text is the one of the
    case-insensitive search of the tokens "10", "5", "3", "24" and
    "immediately" in this order, the first match giving 10, 5, 3, 1 or 0
    days and no match giving 7. In particular a text that contains "10"
    gives 10 whatever else it contains, "immediately" in any case gives 0,
    and "Without Delay" gives 7. *)
Theorem deadline_offset_priority (time_limit : str) :
  days_to_add (limit_text (VStr time_limit)) = spec_offset time_limit
  /\ (contains (lit "10") time_limit = true ->
      days_to_add (limit_text (VStr time_limit)) = 10%Z)
  /\ (same_up_to_case time_limit (lit "immediately") ->
      days_to_add (limit_text (VStr time_limit)) = 0%Z)
  /\ days_to_add (limit_text (VStr (lit "Without Delay"))) = 7%Z.
Proof.
  unfold limit_text; cbn [Py.str_of].
  repeat split.
  - apply days_to_add_spec.
  - intros H. rewrite days_to_add_spec. unfold spec_offset.
    now rewrite (contains_ci _ _ H).
  - intros H. now rewrite (same_up_to_case_lower _ _ H).
Qed.

(** *** The calendar exporter *)

Lemma calendar_event_ok (now : Z) (item topic clause_id trigger_event time_limit : value) :
  has_fields item topic clause_id trigger_event time_limit ->
  exists d,
    calendar_event now item
    = Ok {| name := event_title topic clause_id;
            begin := (now + timedelta (days_to_add (limit_text time_limit)))%Z;
            description := d;
            alarms := [{| trigger := timedelta (-1) |}] |}.
Proof.
  intros (Ht & Hc & Hr & Hl). unfold calendar_event.
  rewrite Ht, Hc, Hl, Hr. eexists. reflexivity.
Qed.

Lemma calendar_event_inv (now : Z) (item : value) (e : Event) :
  calendar_event now item = Ok e ->
  exists topic clause_id trigger_event time_limit,
    has_fields item topic clause_id trigger_event time_limit
    /\ name e = event_title topic clause_id
    /\ begin e = (now + timedelta (days_to_add (limit_text time_limit)))%Z
    /\ alarms e = [{| trigger := timedelta (-1) |}].
Proof.
  unfold calendar_event.
  destruct (subscript item (lit "topic")) as [topic|] eqn:Ht; [|discriminate].
  destruct (subscript item (lit "clause_id")) as [cid|] eqn:Hc; [|discriminate].
  destruct (subscript item (lit "time_limit")) as [tl|] eqn:Hl; [|discriminate].
  destruct (subscript item (lit "trigger_event")) as [tr|] eqn:Hr; [|discriminate].
  intros [= <-]. exists topic, cid, tr, tl. repeat split; assumption.
Qed.

Lemma events_loop_spec (clauses : list value) :
  forall i added evs,
    events_of i clauses evs ->
    events_loop i clauses added = Ok {| events := added ++ evs |}.
Proof.
  induction clauses as [|item clauses IH]; intros i added evs H; inversion H; subst.
  - cbn. now rewrite app_nil_r.
  - cbn [events_loop]. rewrite H3. rewrite (IH _ _ _ H5).
    now rewrite <- app_assoc.
Qed.

Lemma events_of_total (clauses : list value) :
  (forall item, In item clauses ->
     exists topic clause_id trigger_event time_limit,
       has_fields item topic clause_id trigger_event time_limit) ->
  forall i, exists evs, events_of i clauses evs.
Proof.
  induction clauses as [|item clauses IH]; intros H i.
  - exists []. constructor.
  - destruct (H item (or_introl eq_refl)) as (t & c & r & l & Hf).
    destruct (calendar_event_ok (datetime_now i) _ _ _ _ _ Hf) as (d & He).
    destruct (IH (fun x Hx => H x (or_intror Hx)) (S i)) as (evs & Hevs).
    eexists. econstructor; eassumption.
Qed.

Lemma events_of_length (clauses : list value) :
  forall i evs, events_of i clauses evs -> List.length evs = List.length clauses.
Proof.
  induction clauses; intros i evs H; inversion H; subst; cbn; [reflexivity|].
  f_equal. eauto.
Qed.

(** The event of the [k]-th clause is the [k]-th event made. *)
Lemma events_of_nth (clauses : list value) :
  forall i evs k item,
    events_of i clauses evs ->
    nth_error clauses k = Some item ->
    exists e,
      nth_error evs k = Some e
      /\ calendar_event (datetime_now (i + k)) item = Ok e.
Proof.
  induction clauses as [|x clauses IH]; intros i evs k item H Hk;
    inversion H; subst.
  - destruct k; discriminate.
  - destruct k as [|k]; cbn in Hk.
    + injection Hk as <-. exists e. rewrite Nat.add_0_r. now split.
    + destruct (IH _ _ _ _ H5 Hk) as (e' & Hn & He').
      exists e'. split; [exact Hn|]. now rewrite Nat.add_succ_r.
Qed.

Lemma events_of_In (clauses : list value) :
  forall i evs e,
    events_of i clauses evs ->
    In e evs ->
    exists k item,
      nth_error clauses k = Some item
      /\ calendar_event (datetime_now (i + k)) item = Ok e.
Proof.
  induction clauses as [|x clauses IH]; intros i evs e H Hin;
    inversion H; subst.
  - destruct Hin.
  - destruct Hin as [<-|Hin].
    + exists 0%nat, x. rewrite Nat.add_0_r. now split.
    + destruct (IH _ _ _ H5 Hin) as (k & item & Hk & He).
      exists (S k), item. split; [exact Hk|]. now rewrite Nat.add_succ_r.
Qed.

Lemma events_of_titles (clauses : list value) :
  forall i evs,
    events_of i clauses evs ->
    Forall2
      (fun item e =>
         exists topic clause_id,
           subscript item (lit "topic") = Ok topic
           /\ subscript item (lit "clause_id") = Ok clause_id
           /\ name e = event_title topic clause_id)
      clauses evs.
Proof.
  induction clauses as [|x clauses IH]; intros i evs H; inversion H; subst;
    constructor; eauto.
  destruct (calendar_event_inv _ _ _ H3) as (t & c & r & l & Hf & Hn & _).
  exists t, c. destruct Hf as (Ht & Hc & _). now repeat split.
Qed.

Lemma create_calendar_file_spec (clauses : list value) (evs : list Event) :
  events_of 0 clauses evs ->
  create_calendar_file clauses = ([], Ok (set_order evs)).
Proof.
  intros H. unfold create_calendar_file, lift, bind.
  now rewrite (events_loop_spec _ _ [] _ H).
Qed.

(** C2, amended. For every list of clauses that carry the four fields, the
    exporter returns a payload with one event per clause, the title of the
    event of a clause combining its topic and its clause id; the payload
    holds these events in some arrangement, the one in which the set of
    events is iterated, which need not be the order of the clauses (it is
    their order when the set is iterated as it was filled). *)
Theorem calendar_one_event_per_clause (clauses : list value) :
  (forall item, In item clauses ->
     exists topic clause_id trigger_event time_limit,
       has_fields item topic clause_id trigger_event time_limit) ->
  exists evs payload,
    Forall2
      (fun item e =>
         exists topic clause_id,
           subscript item (lit "topic") = Ok topic
           /\ subscript item (lit "clause_id") = Ok clause_id
           /\ name e = event_title topic clause_id)
      clauses evs
    /\ create_calendar_file clauses = ([], Ok payload)
    /\ Permutation payload evs
    /\ List.length payload = List.length clauses
    /\ (set_order evs = evs -> payload = evs).
Proof using set_order_perm.
  intros H. destruct (events_of_total _ H 0%nat) as (evs & Hevs).
  exists evs, (set_order evs). repeat split.
  - exact (events_of_titles _ _ _ Hevs).
  - exact (create_calendar_file_spec _ _ Hevs).
  - apply set_order_perm.
  - rewrite (Permutation_length (set_order_perm evs)).
    exact (events_of_length _ _ _ Hevs).
  - trivial.
Qed.

(** C3. For every list of clauses that carry the four fields, the exporter
    returns a payload in which each clause has its event, whose start is the
    reading of the clock taken for it plus the day offset derived from its
    time limit, and every event of the payload carries exactly one alarm,
    which fires exactly one day before the start of the event. *)
Theorem event_start_and_alarm (clauses : list value) :
  (forall item, In item clauses ->
     exists topic clause_id trigger_event time_limit,
       has_fields item topic clause_id trigger_event time_limit) ->
  exists payload,
    create_calendar_file clauses = ([], Ok payload)
    /\ (forall i item,
          nth_error clauses i = Some item ->
          exists e time_limit,
            In e payload
            /\ calendar_event (datetime_now i) item = Ok e
            /\ subscript item (lit "time_limit") = Ok time_limit
            /\ begin e
               = (datetime_now i + timedelta (days_to_add (limit_text time_limit)))%Z)
    /\ (forall e,
          In e payload ->
          exists a,
            alarms e = [a]
            /\ alarm_time e a = (begin e - 86400000000)%Z).
Proof using set_order_perm.
  intros H. destruct (events_of_total _ H 0%nat) as (evs & Hevs).
  exists (set_order evs). split; [exact (create_calendar_file_spec _ _ Hevs)|].
  split.
  - intros i item Hi.
    destruct (events_of_nth _ _ _ _ _ Hevs Hi) as (e & Hn & He).
    cbn in He.
    destruct (calendar_event_inv _ _ _ He) as (t & c & r & l & Hf & _ & Hb & _).
    exists e, l. repeat split; try assumption.
    + apply (Permutation_in _ (Permutation_sym (set_order_perm evs))).
      eapply nth_error_In; eassumption.
    + apply Hf.
  - intros e Hin.
    apply (Permutation_in _ (set_order_perm evs)) in Hin.
    destruct (events_of_In _ _ _ _ Hevs Hin) as (k & item & _ & He).
    destruct (calendar_event_inv _ _ _ He) as (t & c & r & l & _ & _ & _ & Ha).
    eexists. split; [exact Ha|].
    unfold alarm_time, timedelta; cbn. lia.
Qed.

(** C6. For a clause whose time limit is "10 Working Days" the derived
    offset is 10, and the exporter produces one event for it, due 10 days
    (864000000000 microseconds) after the reading of the clock, with one
    alarm that fires 9 days (777600000000 microseconds) after that reading,
    which is one day (86400000000 microseconds) before the event is due. *)
Theorem ten_working_days_end_to_end
    (item topic clause_id trigger_event : value) :
  has_fields item topic clause_id trigger_event (VStr (lit "10 Working Days")) ->
  days_to_add (limit_text (VStr (lit "10 Working Days"))) = 10%Z
  /\ exists e a,
       create_calendar_file [item] = ([], Ok [e])
       /\ name e = event_title topic clause_id
       /\ begin e = (datetime_now 0 + 864000000000)%Z
       /\ alarms e = [a]
       /\ alarm_time e a = (datetime_now 0 + 777600000000)%Z
       /\ alarm_time e a = (begin e - 86400000000)%Z.
Proof using set_order_perm.
  intros Hf. split; [reflexivity|].
  destruct (calendar_event_ok (datetime_now 0) _ _ _ _ _ Hf) as (d & He).
  eexists. exists {| trigger := timedelta (-1) |}. split.
  - rewrite (create_calendar_file_spec [item] _
               (events_of_cons _ _ _ _ _ He (events_of_nil _))).
    now rewrite (Permutation_length_1_inv (Permutation_sym (set_order_perm _))).
  - cbn [name begin alarms].
    change (days_to_add (limit_text (VStr (lit "10 Working Days"))))
      with 10%Z.
    unfold alarm_time, timedelta; cbn [begin trigger].
    repeat split; lia.
Qed.

Lemma str_eqb_eq (a b : str) : str_eqb a b = true <-> a = b.
Proof.
  revert b; induction a as [|x a IH]; intros [|y b]; cbn [str_eqb];
    try (split; [discriminate|discriminate]); [now split|].
  rewrite andb_true_iff, N.eqb_eq, IH. split.
  - now intros [-> ->].
  - now intros [= -> ->].
Qed.

(** The offset of a whole number from 0 to 99 is the one that its digits
    give. *)
Lemma days_to_add_int (z : Z) :
  (0 <= z < 100)%Z -> days_to_add (lower (str_of_int z)) = int_offset z.
Proof.
  intros Hz.
  assert (H : forallb
                (fun n =>
                   (days_to_add (lower (str_of_int (Z.of_nat n)))
                    =? int_offset (Z.of_nat n))%Z)
                (seq 0 100)
              = true) by (vm_compute; reflexivity).
  rewrite forallb_forall in H. specialize (H (Z.to_nat z)).
  rewrite Z2Nat.id in H by lia.
  apply Z.eqb_eq, H, in_seq. lia.
Qed.

(** C10. The derivation does not depend on the type of the time limit:
    whatever value a clause carries as its time limit, the loop body makes
    its event, whose start is derived from the lowercased text that [str]
    makes of that value. That text is "none" for [None], which gives the
    default of 7 days (604800000000 microseconds), as do "true" and "false"
    for the two Booleans; for a whole number it is its decimal digits, so
    that the number 10 gives 10 days and, from 0 to 99, every number gives
    what its digits give; and for a list it is the texts of its members
    between brackets, so that a list that holds the number 5 gives 5
    days. *)
Theorem deadline_total_in_time_limit
    (now : Z) (item topic clause_id trigger_event time_limit : value) :
  has_fields item topic clause_id trigger_event time_limit ->
  exists e,
    calendar_event now item = Ok e
    /\ begin e
       = (now + 86400000000
                * days_to_add (lower (Py.str_of float_repr str_repr time_limit)))%Z
    /\ (time_limit = VNone ->
        limit_text time_limit = lit "none"
        /\ begin e = (now + 604800000000)%Z)
    /\ (forall b,
          time_limit = VBool b ->
          limit_text time_limit = (if b then lit "true" else lit "false")
          /\ begin e = (now + 604800000000)%Z)
    /\ (forall z,
          time_limit = VInt z ->
          (0 <= z < 100)%Z ->
          limit_text time_limit = str_of_int z
          /\ begin e = (now + 86400000000 * int_offset z)%Z)
    /\ (time_limit = VInt 10 ->
        limit_text time_limit = lit "10"
        /\ begin e = (now + 864000000000)%Z)
    /\ (time_limit = VList [VInt 5; VNone; VBool true] ->
        limit_text time_limit = lit "[5, none, true]"
        /\ begin e = (now + 432000000000)%Z).
Proof.
  intros Hf. destruct (calendar_event_ok now _ _ _ _ _ Hf) as (d & He).
  eexists. split; [exact He|]. cbn [begin]. unfold timedelta.
  split; [unfold limit_text; lia|].
  split; [intros ->; split; reflexivity|].
  split; [intros [|] ->; split; reflexivity|].
  split; [|split; intros ->; split; reflexivity].
  intros z -> Hz.
  assert (Ht : limit_text (VInt z) = lower (str_of_int z)) by reflexivity.
  assert (Hl : lower (str_of_int z) = str_of_int z).
  { assert (H : forallb
                  (fun n =>
                     str_eqb (lower (str_of_int (Z.of_nat n)))
                       (str_of_int (Z.of_nat n)))
                  (seq 0 100)
                = true) by (vm_compute; reflexivity).
    rewrite forallb_forall in H. specialize (H (Z.to_nat z)).
    rewrite Z2Nat.id in H by lia.
    apply str_eqb_eq, H, in_seq. lia. }
  split; [now rewrite Ht|].
  rewrite Ht, (days_to_add_int z Hz). lia.
Qed.

(** *** Text extraction *)

Lemma pages_loop_first_pages (pages : list Page) :
  forall i text texts,
    firstn (51 - i) pages = map Ok texts ->
    pages_loop i pages text
    = Ok (text ++ List.concat (map (fun t => t ++ newline) texts)).
Proof.
  induction pages as [|page pages IH]; intros i text texts H.
  - rewrite firstn_nil in H. destruct texts; [|discriminate].
    cbn. now rewrite app_nil_r.
  - cbn [pages_loop]. destruct (50 <? i)%nat eqn:Hi.
    + apply Nat.ltb_lt in Hi.
      replace (51 - i)%nat with 0%nat in H by lia.
      destruct texts; [|discriminate]. cbn. now rewrite app_nil_r.
    + apply Nat.ltb_ge in Hi.
      remember (51 - S i)%nat as m eqn:Hm.
      replace (51 - i)%nat with (S m) in H by lia.
      cbn [firstn] in H. destruct texts as [|t texts]; [discriminate|].
      cbn [map] in H. injection H as -> H. subst m.
      rewrite (IH _ _ _ H). cbn [map List.concat].
      now rewrite <- app_assoc.
Qed.

(** C8. Text extraction reads the first 51 pages only: when these pages
    (all the pages of a shorter document) yield their texts, the result is
    the concatenation of these texts, each followed by a newline, whatever
    the pages after them are. *)
Theorem pdf_text_first_51_pages
    (uploaded_file : UploadedFile) (pages : list Page) (texts : list str) :
  PdfReader uploaded_file = Ok pages ->
  firstn 51 pages = map Ok texts ->
  extract_text_from_pdf uploaded_file
  = ([], Ok (Some (List.concat (map (fun t => t ++ newline) texts)))).
Proof.
  intros Hr Hp. unfold extract_text_from_pdf, try_except, bind, lift, ret.
  rewrite Hr. now rewrite (pages_loop_first_pages pages 0 [] texts Hp).
Qed.

(** *** The extraction stage *)

(** C5. Once the client of the model is made: when the model call fails,
    when the text of the answer cannot be read or when the cleaned text does
    not parse, [analyze_contract] shows the error and returns the empty
    analysis; and in every case it returns a value to its caller, never an
    exception. *)
Theorem extraction_failure_is_contained (contract_text : str) (model : Model) :
  GenerativeModel (lit "gemini-2.0-flash-001") = Ok model ->
  (forall e,
     model (prompt_of_contract contract_text) = Raise e
     \/ (exists response,
           model (prompt_of_contract contract_text) = Ok response
           /\ text response = Raise e)
     \/ (exists response response_text,
           model (prompt_of_contract contract_text) = Ok response
           /\ text response = Ok response_text
           /\ Json.loads recursion_limit (clean_json response_text) = Raise e) ->
     analyze_contract contract_text
     = ([ModelCall (prompt_of_contract contract_text);
         ShownError (lit "AI Analysis Failed: ") e],
        Ok empty_analysis))
  /\ exists log v, analyze_contract contract_text = (log, Ok v).
Proof.
  intros Hmodel.
  unfold analyze_contract, generate_content, try_except, bind, lift, ret, st_error.
  rewrite Hmodel. split.
  - intros e [H|[(r & H & Ht)|(r & t & H & Ht & Hj)]]; rewrite H; cbn;
      try rewrite Ht; cbn; try rewrite Hj; reflexivity.
  - destruct (model _) as [r|e]; cbn; [|eauto].
    destruct (text r) as [t|e]; cbn; [|eauto].
    destruct (Json.loads _ _) as [v|e]; cbn; eauto.
Qed.

(** *** The drafting stage *)

Lemma dict_get_text (kwargs : list (str * value)) (name : str) :
  dict_get (map (fun kv => (fst kv, VStr (Py.str_of float_repr str_repr (snd kv)))) kwargs) name
  = option_map (fun v => VStr (Py.str_of float_repr str_repr v)) (dict_get kwargs name).
Proof.
  induction kwargs as [|[k w] kwargs IH]; [reflexivity|].
  cbn. destruct (str_eqb k name); [reflexivity|exact IH].
Qed.

(** [format] reads the values it is given through their text only. *)
Lemma format_from_text (kwargs : list (str * value)) (template : str) :
  forall st,
    format_from kwargs st template
    = format_from
        (map (fun kv => (fst kv, VStr (Py.str_of float_repr str_repr (snd kv)))) kwargs)
        st template.
Proof.
  induction template as [|c template IH]; intros st; [reflexivity|].
  destruct st as [| | |name_]; cbn [format_from]; rewrite <- ?IH;
    try reflexivity.
  rewrite dict_get_text.
  destruct (c =? 125); [|reflexivity].
  destruct (dict_get kwargs name_); reflexivity.
Qed.

Lemma format_drafter_prompt
    (date_str owner recipient project contract_num clause_id topic cause
     effect : value) :
  format DRAFTER_PROMPT
    [(lit "date_str", date_str); (lit "owner", owner);
     (lit "recipient", recipient); (lit "project", project);
     (lit "contract_num", contract_num);
     (lit "clause_id", clause_id); (lit "topic", topic);
     (lit "cause", cause); (lit "effect", effect)]
  = Ok (filled_template date_str owner recipient project contract_num
          clause_id topic cause effect).
Proof.
  unfold format. rewrite format_from_text. unfold filled_template.
  cbn [map fst snd].
  generalize (Py.str_of float_repr str_repr date_str).
  generalize (Py.str_of float_repr str_repr owner).
  generalize (Py.str_of float_repr str_repr recipient).
  generalize (Py.str_of float_repr str_repr project).
  generalize (Py.str_of float_repr str_repr contract_num).
  generalize (Py.str_of float_repr str_repr clause_id).
  generalize (Py.str_of float_repr str_repr topic).
  generalize (Py.str_of float_repr str_repr cause).
  generalize (Py.str_of float_repr str_repr effect).
  intros s9 s8 s7 s6 s5 s4 s3 s2 s1.
  vm_compute. reflexivity.
Qed.

(** C7. A drafting invocation whose inputs carry the fields of the template
    makes exactly one model call, on the template with its fields replaced by
    the given values, and returns the text of the answer as it is; when the
    call fails, or the text cannot be read, the exception reaches the
    caller. *)
Theorem notice_draft_single_call
    (model : Model) (clause inputs meta : value)
    (date_str owner recipient project contract_num clause_id topic cause
     effect : value) :
  GenerativeModel (lit "gemini-2.0-flash-001") = Ok model ->
  subscript inputs (lit "date") = Ok date_str ->
  subscript meta (lit "owner") = Ok owner ->
  subscript meta (lit "recipient") = Ok recipient ->
  subscript meta (lit "project") = Ok project ->
  subscript meta (lit "contract_num") = Ok contract_num ->
  subscript clause (lit "clause_id") = Ok clause_id ->
  subscript clause (lit "topic") = Ok topic ->
  subscript inputs (lit "cause") = Ok cause ->
  subscript inputs (lit "effect") = Ok effect ->
  generate_notice_draft clause inputs meta
  = ([ModelCall
        (filled_template date_str owner recipient project contract_num
           clause_id topic cause effect)],
     match model
             (filled_template date_str owner recipient project contract_num
                clause_id topic cause effect) with
     | Ok response => text response
     | Raise e => Raise e
     end).
Proof.
  intros H0 H1 H2 H3 H4 H5 H6 H7 H8 H9. unfold generate_notice_draft.
  rewrite H0, H1, H2, H3, H4, H5, H6, H7, H8, H9.
  unfold bind at 1 2 3 4 5 6 7 8 9 10. cbn [lift app].
  rewrite format_drafter_prompt.
  unfold bind, lift, generate_content.
  destruct (model _) as [response|e]; reflexivity.
Qed.

(** *** Searching and replacing *)

Lemma startswith_app (p s t : str) :
  startswith p s = true -> startswith p (s ++ t) = true.
Proof.
  revert s; induction p as [|x p IH]; intros [|y s]; cbn; try easy.
  intros H. apply andb_true_iff in H as [-> Hp]. cbn. now apply IH.
Qed.

Lemma startswith_refl_app (p s : str) : startswith p (p ++ s) = true.
Proof.
  induction p as [|x p IH]; [reflexivity|].
  cbn. now rewrite N.eqb_refl.
Qed.

Lemma startswith_contains (p s : str) :
  startswith p s = true -> contains p s = true.
Proof. intros H. destruct s; cbn; now rewrite H. Qed.

Lemma contains_app_l (p s t : str) :
  contains p s = true -> contains p (s ++ t) = true.
Proof.
  induction s as [|y s IH]; intros H.
  - cbn in H. rewrite orb_false_r in H.
    apply startswith_contains. now apply (startswith_app p []).
  - cbn [contains] in H. apply orb_true_iff in H as [H|H].
    + apply startswith_contains. now apply startswith_app.
    + cbn [app contains]. rewrite (IH H). apply orb_true_r.
Qed.

Lemma contains_app_r (p s t : str) :
  contains p t = true -> contains p (s ++ t) = true.
Proof.
  intros H. induction s as [|y s IH]; [exact H|].
  cbn [app contains]. rewrite IH. apply orb_true_r.
Qed.

(** What begins with a longer marker begins with a shorter one. *)
Lemma startswith_prefix (p q s : str) :
  startswith (p ++ q) s = true -> startswith p s = true.
Proof.
  revert s; induction p as [|x p IH]; intros [|y s]; cbn; try easy.
  intros H. apply andb_true_iff in H as [-> Hp]. cbn. now apply IH.
Qed.

Lemma contains_prefix (p q s : str) :
  contains (p ++ q) s = true -> contains p s = true.
Proof.
  induction s as [|y s IH]; cbn [contains]; intros H;
    apply orb_true_iff in H as [H|H].
  - now rewrite (startswith_prefix _ _ _ H).
  - discriminate.
  - now rewrite (startswith_prefix _ _ _ H).
  - rewrite (IH H). apply orb_true_r.
Qed.

(** An occurrence that begins in [u] lies in [u] or runs over its end. *)
Lemma startswith_app_inv (p u s : str) :
  startswith p (u ++ s) = true ->
  startswith p u = true \/ exists v, p = u ++ v.
Proof.
  revert u; induction p as [|x p IH]; intros u H; [now left|].
  destruct u as [|y u].
  - right. now exists (x :: p).
  - cbn in H. apply andb_true_iff in H as [Hxy Hp].
    apply N.eqb_eq in Hxy. subst y.
    destruct (IH _ Hp) as [H|[v ->]].
    + left. cbn. now rewrite N.eqb_refl.
    + right. now exists v.
Qed.

Lemma replace_from_skip (old new : str) (s : str) :
  forall k, replace_from old new k s = replace_from old new 0 (skipn k s).
Proof.
  induction s as [|c s IH]; intros [|k]; try reflexivity.
  cbn [replace_from skipn]. apply IH.
Qed.

Lemma replace_here (old new s : str) :
  old <> [] -> replace old new (old ++ s) = new ++ replace old new s.
Proof.
  intros Hold. destruct old as [|x old]; [easy|].
  unfold replace. cbn [app replace_from].
  change (x :: old ++ s) with ((x :: old) ++ s).
  rewrite startswith_refl_app, replace_from_skip.
  cbn [List.length].
  replace (S (List.length old) - 1)%nat with (List.length old) by lia.
  now rewrite skipn_app, skipn_all, Nat.sub_diag.
Qed.

Lemma replace_next (old new : str) (c : N) (s : str) :
  startswith old (c :: s) = false ->
  replace old new (c :: s) = c :: replace old new s.
Proof. intros H. unfold replace. cbn [replace_from]. now rewrite H. Qed.

Lemma replace_inert (old new a s : str) :
  inert old a s -> replace old new (a ++ s) = a ++ replace old new s.
Proof.
  induction a as [|c a IH]; intros H; [reflexivity|].
  cbn [app]. rewrite replace_next by exact (H [] c a eq_refl).
  f_equal. apply IH. intros a1 c' a2 ->. exact (H (c :: a1) c' a2 eq_refl).
Qed.

(** Whitespace is inert for a marker that does not begin with whitespace. *)
Lemma inert_whitespace (c : N) (old ws s : str) :
  isspace c = false ->
  forallb isspace ws = true ->
  inert (c :: old) ws s.
Proof.
  intros Hc Hws a1 y a2 ->. rewrite forallb_app in Hws.
  apply andb_true_iff in Hws as [_ Hy]. cbn [forallb] in Hy.
  apply andb_true_iff in Hy as [Hy _].
  cbn [startswith]. destruct (c =? y) eqn:E; [|reflexivity].
  apply N.eqb_eq in E. subst y. congruence.
Qed.

(** So is a text without occurrence whose last code point is foreign to the
    marker. *)
Lemma inert_body (old b s : str) (x : N) :
  contains old (b ++ [x]) = false ->
  ~ In x old ->
  inert old (b ++ [x]) s.
Proof.
  intros Hc Hx a1 c a2 E.
  destruct (startswith old (c :: a2 ++ s)) eqn:Hs; [exfalso|reflexivity].
  assert (Hlast : exists a2', c :: a2 = a2' ++ [x]).
  { destruct (exists_last (l := c :: a2)) as (a2' & y & E'); [easy|].
    exists a2'. rewrite E' in E. rewrite app_assoc in E.
    apply app_inj_tail in E as [_ ->]. exact E'. }
  destruct Hlast as (a2' & E2).
  change (c :: a2 ++ s) with ((c :: a2) ++ s) in Hs.
  destruct (startswith_app_inv _ _ _ Hs) as [H|[v ->]].
  - rewrite E in Hc. rewrite contains_app_r in Hc; [discriminate|].
    now apply startswith_contains.
  - apply Hx. rewrite E2. rewrite <- app_assoc. apply in_elt.
Qed.

Lemma replace_body (old b s : str) (x : N) :
  contains old (b ++ [x]) = false ->
  ~ In x old ->
  replace old [] ((b ++ [x]) ++ s) = (b ++ [x]) ++ replace old [] s.
Proof. intros Hc Hx. apply replace_inert. now apply inert_body. Qed.

Lemma replace_whitespace (c : N) (old ws s : str) :
  isspace c = false ->
  forallb isspace ws = true ->
  replace (c :: old) [] (ws ++ s) = ws ++ replace (c :: old) [] s.
Proof. intros Hc H. apply replace_inert. now apply inert_whitespace. Qed.

(** Passing the run [ws] that heads the text under replacement, by a lemma
    [lem] on markers that begin with a backquote and a proof [H] on [ws]. *)
Ltac pass_run lem H :=
  match goal with
  | |- context [replace ?old [] (?ws ++ ?s)] =>
      let E := fresh in
      pose proof (lem 96 (tl old) ws s eq_refl H
                  : replace old [] (ws ++ s) = ws ++ replace old [] s) as E;
      rewrite E; clear E
  end.

(** A fence marker is inert for the longer marker unless "json" follows. *)
Lemma inert_fence_before (s : str) :
  startswith [96] s = false ->
  startswith [106] s = false ->
  inert fence_json fence s.
Proof.
  intros Hq Hj a1 c a2 E.
  change fence with [96; 96; 96] in E.
  change fence_json with [96; 96; 96; 106; 115; 111; 110].
  destruct s as [|y s'].
  - destruct a1 as [|? [|? [|? [|? ?]]]]; cbn in E; try discriminate;
      injection E; intros; subst; reflexivity.
  - cbn [startswith] in Hq, Hj. rewrite andb_true_r in Hq, Hj.
    destruct a1 as [|? [|? [|? [|? ?]]]]; cbn in E; try discriminate;
      injection E; intros; subst; cbn [app startswith];
      rewrite ?N.eqb_refl, ?Hq, ?Hj; reflexivity.
Qed.

Lemma startswith_after_whitespace (c : N) (ws s : str) :
  forallb isspace ws = true ->
  isspace c = false ->
  startswith [c] s = false ->
  startswith [c] (ws ++ s) = false.
Proof.
  intros Hws Hc Hs. destruct ws as [|y ws]; [exact Hs|].
  cbn [forallb] in Hws. apply andb_true_iff in Hws as [Hy _].
  cbn [app startswith]. destruct (c =? y) eqn:E; [|reflexivity].
  apply N.eqb_eq in E. subst y. congruence.
Qed.

(** The first replacement on a wrapping: only the long marker goes. *)
Lemma replace_json_wrapping (w s : str) :
  wrapping w ->
  startswith [96] s = false ->
  startswith [106] s = false ->
  exists ws mark ws',
    replace fence_json [] (w ++ s) = (ws ++ mark ++ ws') ++ replace fence_json [] s
    /\ forallb isspace ws = true /\ forallb isspace ws' = true
    /\ (mark = [] \/ mark = fence).
Proof.
  intros (ws & mark & ws' & -> & Hws & Hws' & Hmark) Hq Hj.
  assert (Hq' : startswith [96] (ws' ++ s) = false)
    by now apply startswith_after_whitespace.
  assert (Hj' : startswith [106] (ws' ++ s) = false)
    by now apply startswith_after_whitespace.
  rewrite <- !app_assoc. pass_run replace_whitespace Hws.
  destruct Hmark as [->|[->| ->]].
  - exists ws, [], ws'. cbn [app]. pass_run replace_whitespace Hws'.
    rewrite <- app_assoc. auto.
  - exists ws, fence, ws'.
    rewrite (replace_inert fence_json [] fence (ws' ++ s))
      by now apply inert_fence_before.
    pass_run replace_whitespace Hws'. rewrite <- !app_assoc. auto.
  - exists ws, [], ws'.
    rewrite replace_here by discriminate. cbn [app]. pass_run replace_whitespace Hws'.
    rewrite <- app_assoc. auto.
Qed.

(** The second replacement on what the first one left of a wrapping. *)
Lemma replace_fence_wrapping (ws mark ws' s : str) :
  forallb isspace ws = true ->
  forallb isspace ws' = true ->
  mark = [] \/ mark = fence ->
  replace fence [] ((ws ++ mark ++ ws') ++ s) = (ws ++ ws') ++ replace fence [] s.
Proof.
  intros Hws Hws' Hmark. rewrite <- !app_assoc. pass_run replace_whitespace Hws.
  destruct Hmark as [->| ->].
  - cbn [app]. pass_run replace_whitespace Hws'. reflexivity.
  - rewrite replace_here by discriminate. cbn [app]. pass_run replace_whitespace Hws'.
    reflexivity.
Qed.

Lemma lstrip_whitespace (ws s : str) :
  forallb isspace ws = true -> lstrip (ws ++ s) = lstrip s.
Proof.
  induction ws as [|c ws IH]; intros H; [reflexivity|].
  cbn in H. apply andb_true_iff in H as [Hc H].
  cbn [app lstrip]. rewrite Hc. now apply IH.
Qed.

Lemma forallb_rev (f : N -> bool) (l : str) :
  forallb f l = true -> forallb f (rev l) = true.
Proof.
  rewrite !forallb_forall. intros H x Hx. apply H. now apply in_rev.
Qed.

(** [strip] leaves what lies between two runs of whitespace, when it
    begins and ends with code points that are not whitespace. *)
Lemma strip_between (ws ws' t : str) (x y : N) :
  forallb isspace ws = true ->
  forallb isspace ws' = true ->
  isspace x = false ->
  isspace y = false ->
  strip (ws ++ (x :: t ++ [y]) ++ ws') = x :: t ++ [y].
Proof.
  intros Hws Hws' Hx Hy. unfold strip, rstrip.
  rewrite lstrip_whitespace by exact Hws.
  cbn [app lstrip]. rewrite Hx.
  change (x :: (t ++ [y]) ++ ws') with ((x :: t ++ [y]) ++ ws').
  rewrite rev_app_distr.
  rewrite lstrip_whitespace by now apply forallb_rev.
  change (x :: t ++ [y]) with ((x :: t) ++ [y]).
  rewrite rev_app_distr. cbn [rev app lstrip]. rewrite Hy.
  change (y :: rev t ++ [x]) with ([y] ++ (rev t ++ [x])).
  rewrite rev_app_distr, rev_app_distr, rev_involutive. reflexivity.
Qed.

Lemma brace_not_in_marker (tail : str) :
  forallb (fun c => negb (c =? 125)) tail = true ->
  ~ In 125 (fence ++ tail).
Proof.
  intros Ht H. apply in_app_or in H as [H|H].
  - cbv in H. repeat (destruct H as [H|H]; [discriminate H|]). exact H.
  - rewrite forallb_forall in Ht. specialize (Ht _ H).
    now rewrite N.eqb_refl in Ht.
Qed.

(** The cleaning of an answer that wraps a text in braces free of fence
    markers gives this text back. *)
Lemma clean_json_wrapped (pre post mid : str) :
  wrapping pre ->
  wrapping post ->
  contains fence (123 :: mid ++ [125]) = false ->
  clean_json (pre ++ (123 :: mid ++ [125]) ++ post) = 123 :: mid ++ [125].
Proof.
  intros Hpre Hpost Hbody. unfold clean_json.
  assert (Hbody' : contains fence_json ((123 :: mid) ++ [125]) = false).
  { destruct (contains fence_json ((123 :: mid) ++ [125])) eqn:E; [|reflexivity].
    change fence_json with (fence ++ lit "json") in E.
    apply contains_prefix in E. cbn [app] in E. congruence. }
  destruct (replace_json_wrapping pre ((123 :: mid ++ [125]) ++ post) Hpre
              eq_refl eq_refl)
    as (ws & mark & ws' & -> & Hws & Hws' & Hmark).
  change (123 :: mid ++ [125]) with ((123 :: mid) ++ [125]).
  rewrite (replace_body fence_json (123 :: mid) post 125 Hbody')
    by exact (brace_not_in_marker [106; 115; 111; 110] eq_refl).
  rewrite <- (app_nil_r post) at 1.
  destruct (replace_json_wrapping post [] Hpost eq_refl eq_refl)
    as (ws2 & mark2 & ws2' & -> & Hws2 & Hws2' & Hmark2).
  change (replace fence_json [] []) with (@nil N). rewrite app_nil_r.
  rewrite (replace_fence_wrapping ws mark ws' _ Hws Hws' Hmark).
  rewrite (replace_body fence (123 :: mid) _ 125 Hbody)
    by exact (brace_not_in_marker [] eq_refl).
  rewrite <- (app_nil_r (ws2 ++ mark2 ++ ws2')).
  rewrite (replace_fence_wrapping ws2 mark2 ws2' [] Hws2 Hws2' Hmark2).
  change (replace fence [] []) with (@nil N). rewrite app_nil_r.
  apply strip_between; try reflexivity; rewrite forallb_app;
    apply andb_true_iff; now split.
Qed.

(** C4, amended. When the answer of the model is the text of a JSON object,
    from its opening brace to its closing brace, free of fence markers and
    wrapped or not in fence markers and whitespace, the cleaning gives this
    text back and [analyze_contract] returns the object that [json.loads]
    reads in it. *)
Theorem extraction_round_trip
    (contract_text pre mid post : str) (model : Model)
    (response : GenerationResponse) (items : list (str * value)) :
  GenerativeModel (lit "gemini-2.0-flash-001") = Ok model ->
  model (prompt_of_contract contract_text) = Ok response ->
  text response = Ok (pre ++ (123 :: mid ++ [125]) ++ post) ->
  wrapping pre ->
  wrapping post ->
  contains fence (123 :: mid ++ [125]) = false ->
  Json.loads recursion_limit (123 :: mid ++ [125]) = Ok (VDict items) ->
  clean_json (pre ++ (123 :: mid ++ [125]) ++ post) = 123 :: mid ++ [125]
  /\ analyze_contract contract_text
     = ([ModelCall (prompt_of_contract contract_text)], Ok (VDict items)).
Proof.
  intros Hmodel Hm Ht Hpre Hpost Hbody Hj.
  pose proof (clean_json_wrapped pre post mid Hpre Hpost Hbody) as Hc.
  split; [exact Hc|].
  unfold analyze_contract, generate_content, try_except, bind, lift.
  rewrite Hmodel, Hm, Ht, Hc, Hj. reflexivity.
Qed.

(** *** Fence stripping is global *)

Lemma startswith_head (c : N) (p s : str) :
  startswith [c] s = false -> startswith (c :: p) s = false.
Proof.
  destruct s as [|y s]; [reflexivity|].
  cbn [startswith]. rewrite andb_true_r. now intros ->.
Qed.

Lemma startswith_cons (x y : N) (p s : str) :
  startswith (x :: p) (y :: s) = (x =? y) && startswith p s.
Proof. reflexivity. Qed.

Lemma replace_fence_clears (n : nat) :
  forall s,
    (List.length s <= n)%nat ->
    contains fence (replace fence [] s) = false
    /\ (startswith [96] s = false ->
        startswith [96] (replace fence [] s) = false).
Proof.
  change fence with [96; 96; 96].
  induction n as [|n IH]; intros s Hn.
  - destruct s; [now split|cbn in Hn; lia].
  - destruct s as [|c s']; [now split|]. cbn [List.length] in Hn.
    destruct (startswith [96; 96; 96] (c :: s')) eqn:Hm.
    + destruct s' as [|d [|e s'']]; cbn [startswith] in Hm;
        try (rewrite ?andb_false_r in Hm; discriminate).
      apply andb_true_iff in Hm as [Hc Hm].
      apply andb_true_iff in Hm as [Hd Hm].
      apply andb_true_iff in Hm as [He _].
      apply N.eqb_eq in Hc, Hd, He. subst c d e.
      change (96 :: 96 :: 96 :: s'') with ([96; 96; 96] ++ s'').
      rewrite replace_here by discriminate. cbn [app].
      cbn [List.length] in Hn. split; [apply IH; lia|discriminate].
    + rewrite (replace_next _ _ _ _ Hm).
      destruct (IH s' ltac:(lia)) as [Hc' Hh'].
      split.
      * cbn [contains]. rewrite Hc', orb_false_r.
        rewrite startswith_cons.
        destruct (96 =? c) eqn:Ec; [|reflexivity].
        apply N.eqb_eq in Ec. subst c. cbn [andb].
        destruct s' as [|d s'']; [reflexivity|].
        destruct (96 =? d) eqn:Ed.
        -- apply N.eqb_eq in Ed. subst d.
           assert (Hs'' : startswith [96] s'' = false).
           { rewrite !startswith_cons, !N.eqb_refl in Hm. exact Hm. }
           rewrite replace_next
             by (rewrite startswith_cons, N.eqb_refl;
                 now apply startswith_head).
           rewrite startswith_cons, N.eqb_refl. cbn [andb].
           cbn [List.length] in Hn.
           now apply (IH s'' ltac:(lia)).
        -- apply startswith_head. apply Hh'.
           rewrite startswith_cons. now rewrite Ed.
      * intros Hh. cbn [startswith] in Hh |- *.
        rewrite andb_true_r in Hh. now rewrite Hh.
Qed.

Lemma lstrip_suffix (s : str) : exists t, s = t ++ lstrip s.
Proof.
  induction s as [|c s (t & IH)]; [now exists []|].
  cbn [lstrip]. destruct (isspace c).
  - exists (c :: t). cbn. now f_equal.
  - now exists [].
Qed.

Lemma contains_strip (p s : str) :
  contains p s = false -> contains p (strip s) = false.
Proof.
  intros H. destruct (contains p (strip s)) eqn:E; [|reflexivity].
  rewrite <- H. symmetry. unfold strip, rstrip in E.
  destruct (lstrip_suffix s) as (t & Hs).
  destruct (lstrip_suffix (rev (lstrip s))) as (u & Hu).
  rewrite Hs. apply contains_app_r.
  rewrite <- (rev_involutive (lstrip s)), Hu, rev_app_distr.
  now apply contains_app_l.
Qed.

(** C9. Fence stripping is global: no fence marker is left anywhere in the
    cleaned text of an answer; and there is an answer, a well-formed JSON
    object one of whose strings contains a fence marker, on which
    [analyze_contract] returns an object different from the one that
    [json.loads] reads in the answer. *)
Theorem fence_stripping_is_global :
  (forall response_text,
     contains fence (clean_json response_text) = false
     /\ contains fence_json (clean_json response_text) = false)
  /\ ((3 <= recursion_limit)%nat ->
      exists body topic,
        Json.loads recursion_limit body
        = Ok (VDict [(lit "metadata", VDict []);
                     (lit "clauses", VList [VDict [(lit "topic", VStr topic)]])])
        /\ contains fence topic = true
        /\ forall contract_text model response,
             GenerativeModel (lit "gemini-2.0-flash-001") = Ok model ->
             model (prompt_of_contract contract_text) = Ok response ->
             text response = Ok body ->
             exists topic',
               analyze_contract contract_text
               = ([ModelCall (prompt_of_contract contract_text)],
                  Ok (VDict [(lit "metadata", VDict []);
                             (lit "clauses",
                              VList [VDict [(lit "topic", VStr topic')]])]))
               /\ topic' <> topic).
Proof.
  split.
  - intros t.
    assert (H : contains fence (clean_json t) = false).
    { unfold clean_json. apply contains_strip.
      apply (replace_fence_clears _ _ (le_n _)). }
    split; [exact H|].
    destruct (contains fence_json (clean_json t)) eqn:E; [|reflexivity].
    change fence_json with (fence ++ lit "json") in E.
    apply contains_prefix in E. congruence.
  - intros Hlimit.
    exists (litq "{~metadata~: {}, ~clauses~: [{~topic~: ~a```b~}]}"),
           (lit "a```b").
    assert (Hloads :
      forall text_ topic_,
        Json.loads 3 text_
        = Ok (VDict [(lit "metadata", VDict []);
                     (lit "clauses", VList [VDict [(lit "topic", VStr topic_)]])]) ->
        Json.loads 4 text_
        = Ok (VDict [(lit "metadata", VDict []);
                     (lit "clauses", VList [VDict [(lit "topic", VStr topic_)]])]) ->
        (forall d, Json.loads (4 + d) text_ = Json.loads 4 text_) ->
        Json.loads recursion_limit text_
        = Ok (VDict [(lit "metadata", VDict []);
                     (lit "clauses", VList [VDict [(lit "topic", VStr topic_)]])])).
    { intros text_ topic_ H3 H4 H5.
      destruct recursion_limit as [|[|[|[|d]]]]; try lia; try assumption.
      exact (eq_trans (H5 d) H4). }
    split; [|split; [reflexivity|]].
    + apply Hloads; [vm_compute; reflexivity..|].
      intros d. vm_compute. reflexivity.
    + intros contract_text model response Hmodel Hm Ht. exists (lit "ab").
      split; [|discriminate].
      unfold analyze_contract, generate_content, try_except, bind, lift.
      rewrite Hmodel, Hm, Ht.
      rewrite (Hloads _ (lit "ab")); [reflexivity|vm_compute; reflexivity..|].
      intros d. vm_compute. reflexivity.
Qed.

(** * Further properties of the helper functions *)

(** *** Text extraction: failures *)

Lemma pages_loop_failure (pages : list Page) :
  forall i text k texts e,
    firstn k pages = map Ok texts ->
    nth_error pages k = Some (Raise e) ->
    (i + k <= 50)%nat ->
    pages_loop i pages text = Raise e.
Proof.
  induction pages as [|page pages IH]; intros i text k texts e Hf Hn Hk.
  - destruct k; discriminate.
  - cbn [pages_loop].
    replace (50 <? i)%nat with false by (symmetry; apply Nat.ltb_ge; lia).
    destruct k as [|k].
    + cbn in Hn. injection Hn as ->. reflexivity.
    + cbn [firstn] in Hf. destruct texts as [|t texts]; [discriminate|].
      cbn [map] in Hf. injection Hf as -> Hf. cbn [nth_error] in Hn.
      apply (IH _ _ k texts e Hf Hn). lia.
Qed.

(** X1. [extract_text_from_pdf] never raises and never returns a partial
    text: when the reader fails, or when one of the first 51 pages fails
    after pages that were read, it shows the error and returns [None]; and
    in every case it either returns a text and shows nothing, or returns
    [None] and shows one error. *)
Theorem pdf_failure_gives_none (uploaded_file : UploadedFile) :
  (forall e,
     PdfReader uploaded_file = Raise e ->
     extract_text_from_pdf uploaded_file
     = ([ShownError (lit "Error reading PDF: ") e], Ok None))
  /\ (forall pages k texts e,
        PdfReader uploaded_file = Ok pages ->
        firstn k pages = map Ok texts ->
        nth_error pages k = Some (Raise e) ->
        (k <= 50)%nat ->
        extract_text_from_pdf uploaded_file
        = ([ShownError (lit "Error reading PDF: ") e], Ok None))
  /\ ((exists text, extract_text_from_pdf uploaded_file = ([], Ok (Some text)))
      \/ (exists e,
            extract_text_from_pdf uploaded_file
            = ([ShownError (lit "Error reading PDF: ") e], Ok None))).
Proof.
  unfold extract_text_from_pdf, try_except, bind, lift, ret, st_error.
  split; [|split].
  - intros e ->. reflexivity.
  - intros pages k texts e -> Hf Hn Hk.
    now rewrite (pages_loop_failure pages 0 [] k texts e Hf Hn Hk).
  - destruct (PdfReader uploaded_file) as [pages|e]; [|right; now exists e].
    destruct (pages_loop 0 pages []) as [text|e];
      [left; now exists text|right; now exists e].
Qed.

Lemma firstn_nil_inv {A : Type} (n : nat) (l : list A) :
  firstn (S n) l = [] -> l = [].
Proof. destruct l; [reflexivity|discriminate]. Qed.

(** X2. The text of a document that was read is empty exactly when the
    document has no page: every page read, even one without text, leaves
    its newline. *)
Theorem pdf_text_empty_iff_no_page
    (uploaded_file : UploadedFile) (pages : list Page) (texts : list str) :
  PdfReader uploaded_file = Ok pages ->
  firstn 51 pages = map Ok texts ->
  exists text,
    extract_text_from_pdf uploaded_file = ([], Ok (Some text))
    /\ (text = [] <-> pages = [])
    /\ (List.length texts <= List.length text)%nat.
Proof.
  intros Hr Hp.
  exists (List.concat (map (fun t => t ++ newline) texts)).
  split; [|split].
  - unfold extract_text_from_pdf, try_except, bind, lift, ret.
    rewrite Hr. now rewrite (pages_loop_first_pages pages 0 [] texts Hp).
  - split.
    + intros Ht. destruct texts as [|t texts].
      * now apply (firstn_nil_inv 50).
      * cbn in Ht. apply app_eq_nil in Ht as [Ht _].
        apply app_eq_nil in Ht as [_ Ht]. discriminate.
    + intros ->. cbn in Hp. destruct texts; [reflexivity|discriminate].
  - clear Hp Hr. induction texts as [|t texts IH]; [apply le_n|].
    cbn [map List.concat List.length]. rewrite !length_app.
    cbn [newline List.length]. lia.
Qed.

(** *** The calendar exporter: incomplete clauses *)

Lemma calendar_event_first_missing (now : Z) (item : value) :
  match first_missing_field item with
  | Some e => calendar_event now item = Raise e
  | None => exists ev, calendar_event now item = Ok ev
  end.
Proof.
  unfold first_missing_field, calendar_event, subscript.
  destruct item as [| | | | |l|d]; try reflexivity.
  cbn [find].
  destruct (dict_get d (lit "topic")); [|reflexivity].
  destruct (dict_get d (lit "clause_id")); [|reflexivity].
  destruct (dict_get d (lit "time_limit")); [|reflexivity].
  destruct (dict_get d (lit "trigger_event")); [|reflexivity].
  eexists. reflexivity.
Qed.

Lemma events_loop_inv (clauses : list value) :
  forall i added c,
    events_loop i clauses added = Ok c ->
    exists evs, events_of i clauses evs /\ events c = added ++ evs.
Proof.
  induction clauses as [|item clauses IH]; intros i added c H.
  - cbn in H. injection H as <-. exists []. split; [constructor|].
    cbn. now rewrite app_nil_r.
  - cbn [events_loop] in H.
    destruct (calendar_event (datetime_now i) item) as [e|e] eqn:He;
      [|discriminate].
    destruct (IH _ _ _ H) as (evs & Hevs & Hc).
    exists (e :: evs). split; [now constructor|].
    rewrite Hc. now rewrite <- app_assoc.
Qed.

Lemma events_of_fields (clauses : list value) :
  forall i evs,
    events_of i clauses evs ->
    forall item, In item clauses ->
      exists topic clause_id trigger_event time_limit,
        has_fields item topic clause_id trigger_event time_limit.
Proof.
  induction clauses as [|x clauses IH]; intros i evs H item Hin;
    inversion H as [|? ? ? ev evs' Hev Hrest]; subst; [destruct Hin|].
  destruct Hin as [<-|Hin].
  - destruct (calendar_event_inv _ _ _ Hev) as (t & c & r & l & Hf & _).
    now exists t, c, r, l.
  - eauto.
Qed.

Lemma events_loop_stops (good : list value) :
  forall i added evs bad rest e,
    events_of i good evs ->
    calendar_event (datetime_now (i + List.length good)) bad = Raise e ->
    events_loop i (good ++ bad :: rest) added = Raise e.
Proof.
  induction good as [|item good IH]; intros i added evs bad rest e Hg Hb;
    inversion Hg as [|? ? ? ev evs' Hev Hrest]; subst.
  - cbn [app events_loop]. cbn in Hb. rewrite Nat.add_0_r in Hb.
    now rewrite Hb.
  - cbn [app events_loop]. rewrite Hev.
    apply (IH _ _ _ _ _ _ Hrest). cbn [List.length] in Hb.
    now rewrite Nat.add_succ_r in Hb.
Qed.

(** X3. The exporter returns a payload exactly when every clause carries
    the four fields it reads; otherwise it raises, and in no case does it
    show an error or call the model. *)
Theorem calendar_payload_iff_fields (clauses : list value) :
  ((exists payload, create_calendar_file clauses = ([], Ok payload))
   <-> (forall item, In item clauses ->
          exists topic clause_id trigger_event time_limit,
            has_fields item topic clause_id trigger_event time_limit))
  /\ ((exists payload, create_calendar_file clauses = ([], Ok payload))
      \/ (exists e, create_calendar_file clauses = ([], Raise e))).
Proof.
  split.
  - split.
    + intros (payload & H). unfold create_calendar_file, bind, lift, ret in H.
      destruct (events_loop 0 clauses []) as [c|e] eqn:Hl; [|discriminate].
      destruct (events_loop_inv _ _ _ _ Hl) as (evs & Hevs & _).
      exact (events_of_fields _ _ _ Hevs).
    + intros H. destruct (events_of_total _ H 0%nat) as (evs & Hevs).
      exists (set_order evs). exact (create_calendar_file_spec _ _ Hevs).
  - unfold create_calendar_file, bind, lift, ret.
    destruct (events_loop 0 clauses []) as [c|e]; [left|right]; eauto.
Qed.

(** X4. The exporter stops at the first incomplete clause: after clauses
    that carry the four fields, a clause that is not a dictionary raises
    [TypeError] and a dictionary raises [KeyError] on the first field it
    lacks, in the order topic, clause id, time limit, trigger event; the
    clauses after it are not looked at and no payload comes out. *)
Theorem calendar_stops_at_first_incomplete
    (good rest : list value) (bad : value) (e : exn) :
  (forall item, In item good ->
     exists topic clause_id trigger_event time_limit,
       has_fields item topic clause_id trigger_event time_limit) ->
  first_missing_field bad = Some e ->
  create_calendar_file (good ++ bad :: rest) = ([], Raise e).
Proof.
  intros Hg Hb. destruct (events_of_total _ Hg 0%nat) as (evs & Hevs).
  pose proof (calendar_event_first_missing
                (datetime_now (0 + List.length good)) bad) as Hm.
  rewrite Hb in Hm.
  unfold create_calendar_file, bind, lift.
  now rewrite (events_loop_stops good 0 [] evs bad rest e Hevs Hm).
Qed.

(** *** The calendar exporter: where due dates and reminders fall *)

Lemma days_to_add_values (limit_text : str) :
  In (days_to_add limit_text) [0; 1; 3; 5; 7; 10]%Z.
Proof.
  unfold days_to_add.
  repeat match goal with
         | |- context [if ?b then _ else _] => destruct b
         end; cbn; auto 10.
Qed.

Lemma days_to_add_range (limit_text : str) :
  (0 <= days_to_add limit_text <= 10)%Z
  /\ (days_to_add limit_text = 0 \/ 1 <= days_to_add limit_text)%Z.
Proof.
  unfold days_to_add.
  repeat match goal with
         | |- context [if ?b then _ else _] => destruct b
         end; lia.
Qed.

(** X5. Whatever a clause says, its event starts at the reading of the
    clock plus 0, 1, 3, 5, 7 or 10 days: never before that reading and never
    more than ten days after it; and its alarms fire between one day before
    the reading and nine days after it. *)
Theorem event_window (now : Z) (item : value) (e : Event) :
  calendar_event now item = Ok e ->
  (exists d, In d [0; 1; 3; 5; 7; 10]%Z /\ begin e = (now + timedelta d)%Z)
  /\ (now <= begin e <= now + timedelta 10)%Z
  /\ (forall a, In a (alarms e) ->
        (now - timedelta 1 <= alarm_time e a <= now + timedelta 9)%Z).
Proof.
  intros H.
  destruct (calendar_event_inv _ _ _ H) as (t & c & r & l & _ & _ & Hb & Ha).
  pose proof (days_to_add_values (limit_text l)) as Hd.
  split; [eexists; split; [exact Hd|exact Hb]|].
  destruct (days_to_add_range (limit_text l)) as [Hr _].
  unfold timedelta in *. split; [lia|].
  intros a Hin. rewrite Ha in Hin. destruct Hin as [<-|[]].
  unfold alarm_time. cbn [trigger]. lia.
Qed.

(** X6. The reminder of a clause falls before the reading of the clock
    exactly when the derived offset is 0 days (a time limit that says
    "immediately"): the event is then due at the reading itself and its
    alarm fires one day earlier. *)
Theorem immediate_reminder_is_past
    (now : Z) (item topic clause_id trigger_event time_limit : value) :
  has_fields item topic clause_id trigger_event time_limit ->
  exists e a,
    calendar_event now item = Ok e
    /\ alarms e = [a]
    /\ ((alarm_time e a < now)%Z
        <-> days_to_add (limit_text time_limit) = 0%Z)
    /\ (days_to_add (limit_text time_limit) = 0%Z ->
        begin e = now /\ alarm_time e a = (now - 86400000000)%Z).
Proof.
  intros Hf. destruct (calendar_event_ok now _ _ _ _ _ Hf) as (d & He).
  eexists. exists {| trigger := timedelta (-1) |}.
  split; [exact He|]. split; [reflexivity|].
  destruct (days_to_add_range (limit_text time_limit)) as [_ Hd].
  unfold alarm_time, timedelta. cbn [begin trigger].
  split.
  - destruct Hd as [Hd|Hd]; lia.
  - intros ->. lia.
Qed.

(** *** The cleaning of an answer *)

Lemma replace_absent (old new s : str) :
  contains old s = false -> replace old new s = s.
Proof.
  induction s as [|c s IH]; intros H; [reflexivity|].
  cbn [contains] in H. apply orb_false_iff in H as [Hs Hc].
  rewrite (replace_next _ _ _ _ Hs). f_equal. now apply IH.
Qed.

Lemma lstrip_idem (s : str) : lstrip (lstrip s) = lstrip s.
Proof.
  induction s as [|c s IH]; [reflexivity|].
  cbn [lstrip]. destruct (isspace c) eqn:E; [exact IH|].
  cbn [lstrip]. now rewrite E.
Qed.

Lemma lstrip_snoc (a : str) (c : N) :
  isspace c = false -> lstrip (a ++ [c]) = lstrip a ++ [c].
Proof.
  intros Hc. induction a as [|x a IH]; cbn [app lstrip].
  - now rewrite Hc.
  - destruct (isspace x); [exact IH|reflexivity].
Qed.

Lemma rstrip_cons (c : N) (u : str) :
  isspace c = false -> rstrip (c :: u) = c :: rstrip u.
Proof.
  intros Hc. unfold rstrip. cbn [rev].
  rewrite (lstrip_snoc _ _ Hc), rev_app_distr. reflexivity.
Qed.

Lemma rstrip_idem (u : str) : rstrip (rstrip u) = rstrip u.
Proof. unfold rstrip. now rewrite rev_involutive, lstrip_idem. Qed.

Lemma lstrip_head (s : str) :
  lstrip s = [] \/ exists c t, lstrip s = c :: t /\ isspace c = false.
Proof.
  induction s as [|c s IH]; [now left|].
  cbn [lstrip]. destruct (isspace c) eqn:E; [exact IH|].
  right. now exists c, s.
Qed.

Lemma strip_idem (s : str) : strip (strip s) = strip s.
Proof.
  unfold strip. destruct (lstrip_head s) as [->|(c & t & -> & Hc)];
    [reflexivity|].
  rewrite (rstrip_cons _ _ Hc). cbn [lstrip]. rewrite Hc.
  rewrite (rstrip_cons _ _ Hc). now rewrite rstrip_idem.
Qed.

Lemma clean_json_no_marker (t : str) :
  contains fence (clean_json t) = false
  /\ contains fence_json (clean_json t) = false.
Proof.
  assert (H : contains fence (clean_json t) = false).
  { unfold clean_json. apply contains_strip.
    apply (replace_fence_clears _ _ (le_n _)). }
  split; [exact H|].
  destruct (contains fence_json (clean_json t)) eqn:E; [|reflexivity].
  change fence_json with (fence ++ lit "json") in E.
  apply contains_prefix in E. congruence.
Qed.

(** X7. Cleaning is idempotent: cleaning a cleaned answer changes nothing,
    so that a cleaned text can be cleaned again without loss. *)
Theorem clean_json_idempotent (response_text : str) :
  clean_json (clean_json response_text) = clean_json response_text.
Proof.
  destruct (clean_json_no_marker response_text) as [Hf Hj].
  unfold clean_json at 1.
  rewrite (replace_absent _ _ _ Hj), (replace_absent _ _ _ Hf).
  unfold clean_json. apply strip_idem.
Qed.

Lemma replace_from_length (old : str) (s : str) :
  forall k, (List.length (replace_from old [] k s) <= List.length s)%nat.
Proof.
  induction s as [|c s IH]; intros k; [apply le_n|].
  cbn [replace_from List.length]. destruct k as [|k].
  - destruct (startswith old (c :: s)); cbn [app List.length].
    + specialize (IH (List.length old - 1)%nat). lia.
    + specialize (IH 0%nat). lia.
  - specialize (IH k). lia.
Qed.

Lemma lstrip_length (s : str) : (List.length (lstrip s) <= List.length s)%nat.
Proof.
  induction s as [|c s IH]; [apply le_n|].
  cbn [lstrip]. destruct (isspace c); cbn [List.length]; lia.
Qed.

Lemma strip_length (s : str) : (List.length (strip s) <= List.length s)%nat.
Proof.
  unfold strip, rstrip. rewrite length_rev.
  pose proof (lstrip_length (rev (lstrip s))) as H1.
  rewrite length_rev in H1. pose proof (lstrip_length s). lia.
Qed.

(** X8. Cleaning only takes away: the cleaned text is never longer than the
    answer, and an answer that holds no run of three backquotes is only
    stripped of the whitespace around it. *)
Theorem clean_json_only_removes (response_text : str) :
  (List.length (clean_json response_text) <= List.length response_text)%nat
  /\ (contains fence response_text = false ->
      clean_json response_text = strip response_text).
Proof.
  split.
  - unfold clean_json, replace.
    pose proof (strip_length
                  (replace_from fence [] 0
                     (replace_from fence_json [] 0 response_text))) as H1.
    pose proof (replace_from_length fence
                  (replace_from fence_json [] 0 response_text) 0) as H2.
    pose proof (replace_from_length fence_json response_text 0) as H3.
    lia.
  - intros Hf.
    assert (Hj : contains fence_json response_text = false).
    { destruct (contains fence_json response_text) eqn:E; [|reflexivity].
      change fence_json with (fence ++ lit "json") in E.
      apply contains_prefix in E. congruence. }
    unfold clean_json.
    now rewrite (replace_absent _ _ _ Hj), (replace_absent _ _ _ Hf).
Qed.

(** *** The two stages: every outcome *)


(** [generate_notice_draft], subscript by subscript. *)
Lemma generate_notice_draft_cases (model : Model) (clause inputs meta : value) :
  GenerativeModel (lit "gemini-2.0-flash-001") = Ok model ->
  generate_notice_draft clause inputs meta
  = match subscript inputs (lit "date") with Raise e => ([], Raise e) | Ok v1 =>
    match subscript meta (lit "owner") with Raise e => ([], Raise e) | Ok v2 =>
    match subscript meta (lit "recipient") with Raise e => ([], Raise e) | Ok v3 =>
    match subscript meta (lit "project") with Raise e => ([], Raise e) | Ok v4 =>
    match subscript meta (lit "contract_num") with Raise e => ([], Raise e) | Ok v5 =>
    match subscript clause (lit "clause_id") with Raise e => ([], Raise e) | Ok v6 =>
    match subscript clause (lit "topic") with Raise e => ([], Raise e) | Ok v7 =>
    match subscript inputs (lit "cause") with Raise e => ([], Raise e) | Ok v8 =>
    match subscript inputs (lit "effect") with Raise e => ([], Raise e) | Ok v9 =>
      ([ModelCall (filled_template v1 v2 v3 v4 v5 v6 v7 v8 v9)],
       match model (filled_template v1 v2 v3 v4 v5 v6 v7 v8 v9) with
       | Ok response => text response
       | Raise e => Raise e
       end)
    end end end end end end end end end.
Proof.
  intros Hm. unfold generate_notice_draft. rewrite Hm.
  destruct (subscript inputs (lit "date")); [|reflexivity].
  destruct (subscript meta (lit "owner")); [|reflexivity].
  destruct (subscript meta (lit "recipient")); [|reflexivity].
  destruct (subscript meta (lit "project")); [|reflexivity].
  destruct (subscript meta (lit "contract_num")); [|reflexivity].
  destruct (subscript clause (lit "clause_id")); [|reflexivity].
  destruct (subscript clause (lit "topic")); [|reflexivity].
  destruct (subscript inputs (lit "cause")); [|reflexivity].
  destruct (subscript inputs (lit "effect")); [|reflexivity].
  unfold bind at 1 2 3 4 5 6 7 8 9 10. cbn [lift app].
  rewrite format_drafter_prompt.
  unfold bind, lift, generate_content.
  destruct (model _) as [response|e]; reflexivity.
Qed.

(** X10. [generate_notice_draft] never calls the model more than once and
    never shows an error; and when one of the fields it reads is missing,
    it raises the exception of the first failing subscript without calling
    the model at all. *)
Theorem notice_draft_outcomes (model : Model) (clause inputs meta : value) :
  GenerativeModel (lit "gemini-2.0-flash-001") = Ok model ->
  ((exists e, In (Raise e) (draft_lookups clause inputs meta)) ->
   exists e,
     In (Raise e) (draft_lookups clause inputs meta)
     /\ generate_notice_draft clause inputs meta = ([], Raise e))
  /\ (exists r,
        generate_notice_draft clause inputs meta = ([], r)
        \/ exists prompt,
             generate_notice_draft clause inputs meta
             = ([ModelCall prompt], r)).
Proof.
  intros Hm. rewrite (generate_notice_draft_cases model _ _ _ Hm).
  unfold draft_lookups.
  destruct (subscript inputs (lit "date")) as [v1|e1];
    [|split; [intros _; exists e1|exists (Raise e1)]; cbn [In]; auto].
  destruct (subscript meta (lit "owner")) as [v2|e2];
    [|split; [intros _; exists e2|exists (Raise e2)]; cbn [In]; auto].
  destruct (subscript meta (lit "recipient")) as [v3|e3];
    [|split; [intros _; exists e3|exists (Raise e3)]; cbn [In]; auto].
  destruct (subscript meta (lit "project")) as [v4|e4];
    [|split; [intros _; exists e4|exists (Raise e4)]; cbn [In]; auto 6].
  destruct (subscript meta (lit "contract_num")) as [v5|e5];
    [|split; [intros _; exists e5|exists (Raise e5)]; cbn [In]; auto 7].
  destruct (subscript clause (lit "clause_id")) as [v6|e6];
    [|split; [intros _; exists e6|exists (Raise e6)]; cbn [In]; auto 8].
  destruct (subscript clause (lit "topic")) as [v7|e7];
    [|split; [intros _; exists e7|exists (Raise e7)]; cbn [In]; auto 9].
  destruct (subscript inputs (lit "cause")) as [v8|e8];
    [|split; [intros _; exists e8|exists (Raise e8)]; cbn [In]; auto 10].
  destruct (subscript inputs (lit "effect")) as [v9|e9];
    [|split; [intros _; exists e9|exists (Raise e9)]; cbn [In]; auto 11].
  split.
  - intros (e & He). cbn [In] in He.
    repeat (destruct He as [He|He]; [discriminate He|]). destruct He.
  - eexists. right. eexists. reflexivity.
Qed.

(** * Properties of the script around the helper functions *)

(** *** The password gate *)

Lemma equals_text_eq (entered : str) (secret : value) :
  equals_text entered secret = true <-> secret = VStr entered.
Proof.
  destruct secret; cbn [equals_text]; try (split; discriminate).
  rewrite str_eqb_eq. split; [now intros ->|now intros [= ->]].
Qed.

Lemma check_password_true (s : SessionState) :
  snd (check_password s) = true <-> password_correct s = Some true.
Proof.
  unfold check_password.
  destruct (password_correct s) as [[|]|]; cbn; split; congruence.
Qed.

Lemma gate_runs_open (entries : list str) (s : SessionState) :
  password_correct s = Some true -> gate_runs entries s = Ok s.
Proof.
  intros H. destruct entries as [|x entries]; [reflexivity|].
  cbn [gate_runs]. unfold check_password. now rewrite H.
Qed.

(** The runs at the gate, case by case. *)
Lemma gate_runs_cases (secret : value) :
  app_password = Ok secret ->
  forall entries s,
    password_correct s <> Some true ->
    exists s',
      gate_runs entries s = Ok s'
      /\ analysis s' = analysis s
      /\ selected_clause s' = selected_clause s
      /\ draft_mode s' = draft_mode s
      /\ current_draft s' = current_draft s
      /\ ((existsb (fun entered => equals_text entered secret) entries = true
           /\ password_correct s' = Some true
           /\ password s' = None)
          \/ (existsb (fun entered => equals_text entered secret) entries = false
              /\ ((entries = [] /\ s' = s)
                  \/ (entries <> []
                      /\ password_correct s' = Some false
                      /\ password s' = Some (last entries []))))).
Proof.
  intros Hsecret.
  induction entries as [|entered entries IH]; intros s Hs.
  - exists s. repeat split; auto.
  - cbn [gate_runs existsb].
    assert (Hc : snd (check_password s) = false).
    { destruct (snd (check_password s)) eqn:E; [|reflexivity].
      now apply check_password_true in E. }
    rewrite Hc. unfold on_change, password_entered.
    cbn [with_password password]. rewrite Hsecret.
    destruct (equals_text entered secret) eqn:He.
    + rewrite gate_runs_open by reflexivity.
      eexists. split; [reflexivity|]. cbn. auto 10.
    + destruct (IH (with_password_correct (Some false)
                      (with_password (Some entered) s))) as (s' & Hr & Ha & Hsel & Hd & Hcur & Hcases);
        [cbn; discriminate|].
      exists s'. split; [exact Hr|]. cbn in Ha, Hsel, Hd, Hcur.
      repeat (split; [assumption|]). cbn [orb].
      destruct Hcases as [(Hex & Hpc & Hp)|(Hex & [(-> & ->)|(Hne & Hpc & Hp)])].
      * left. auto.
      * right. split; [exact Hex|]. right.
        split; [discriminate|]. cbn. auto.
      * right. split; [exact Hex|]. right.
        split; [discriminate|]. split; [exact Hpc|].
        rewrite Hp. destruct entries; [easy|reflexivity].
Qed.

(** X11. The gate opens exactly when one of the entries typed is the
    secret, however many wrong entries came before it; a secret that is not
    a string is matched by no entry. When the gate opens the session state
    holds no password any more, and the entries leave the rest of the
    session state as it was. *)
Theorem gate_opens_iff_secret_entered
    (secret : value) (entries : list str) (session : SessionState) :
  app_password = Ok secret ->
  password_correct session <> Some true ->
  exists session',
    gate_runs entries session = Ok session'
    /\ (snd (check_password session') = true
        <-> exists entered, In entered entries /\ secret = VStr entered)
    /\ (snd (check_password session') = true -> password session' = None)
    /\ analysis session' = analysis session
    /\ selected_clause session' = selected_clause session
    /\ draft_mode session' = draft_mode session
    /\ current_draft session' = current_draft session.
Proof.
  intros Hsecret Hs.
  destruct (gate_runs_cases secret Hsecret entries session Hs)
    as (s' & Hr & Ha & Hsel & Hd & Hcur & Hcases).
  exists s'. split; [exact Hr|].
  rewrite check_password_true.
  assert (Hex : existsb (fun entered => equals_text entered secret) entries = true
                <-> exists entered, In entered entries /\ secret = VStr entered).
  { rewrite existsb_exists. split; intros (x & Hin & Hx); exists x;
      (split; [exact Hin|]); now apply equals_text_eq. }
  repeat split; try assumption.
  - intros Hpc. apply Hex.
    destruct Hcases as [(H & _)|(_ & [(_ & ->)|(_ & Hpc' & _)])];
      [exact H|contradiction|congruence].
  - intros H. apply Hex in H.
    destruct Hcases as [(_ & Hpc & _)|(Hf & _)]; [exact Hpc|congruence].
  - intros Hpc.
    destruct Hcases as [(_ & _ & Hp)|(_ & [(_ & ->)|(_ & Hpc' & _)])];
      [exact Hp|contradiction|congruence].
Qed.

(** X12. What the gate shows after the entries typed in a session that
    began: nothing once the secret was entered; otherwise the text input,
    followed by the error message as soon as one entry was typed, in which
    case the last wrong entry is still in the session state. *)
Theorem gate_display (secret : value) (entries : list str) :
  app_password = Ok secret ->
  exists session',
    gate_runs entries fresh_session = Ok session'
    /\ check_password session'
       = (if existsb (fun entered => equals_text entered secret) entries
          then ([], true)
          else match entries with
               | [] => ([TextInput password_label (lit "password")], false)
               | _ :: _ =>
                   ([TextInput password_label (lit "password");
                     ErrorBox password_incorrect], false)
               end)
    /\ (existsb (fun entered => equals_text entered secret) entries = false ->
        entries <> [] ->
        password session' = Some (last entries [])).
Proof.
  intros Hsecret.
  destruct (gate_runs_cases secret Hsecret entries fresh_session)
    as (s' & Hr & _ & _ & _ & _ & Hcases); [discriminate|].
  exists s'. split; [exact Hr|].
  destruct Hcases as [(Hex & Hpc & Hp)|(Hex & [(-> & ->)|(Hne & Hpc & Hp)])];
    rewrite Hex.
  - split; [|discriminate]. unfold check_password. now rewrite Hpc.
  - split; [reflexivity|]. intros _ H. now destruct H.
  - split; [|auto]. unfold check_password. rewrite Hpc.
    destruct entries; [easy|reflexivity].
Qed.

(** *** The sidebar *)

Lemma pages_text_nonempty (pages : list Page) (texts : list str) :
  pages <> [] ->
  firstn 51 pages = map Ok texts ->
  exists c t, List.concat (map (fun t => t ++ newline) texts) = c :: t.
Proof.
  intros Hp Hf. destruct texts as [|x texts].
  - destruct pages; [contradiction|discriminate].
  - cbn [map List.concat]. destruct x as [|c x]; cbn; eauto.
Qed.

(** [analyze_contract] once the client is made, case by case. *)
Lemma analyze_contract_cases (model : Model) (contract_text : str) :
  GenerativeModel (lit "gemini-2.0-flash-001") = Ok model ->
  analyze_contract contract_text
  = match model (prompt_of_contract contract_text) with
    | Raise e =>
        ([ModelCall (prompt_of_contract contract_text);
          ShownError (lit "AI Analysis Failed: ") e], Ok empty_analysis)
    | Ok response =>
        match text response with
        | Raise e =>
            ([ModelCall (prompt_of_contract contract_text);
              ShownError (lit "AI Analysis Failed: ") e], Ok empty_analysis)
        | Ok response_text =>
            match Json.loads recursion_limit (clean_json response_text) with
            | Raise e =>
                ([ModelCall (prompt_of_contract contract_text);
                  ShownError (lit "AI Analysis Failed: ") e],
                 Ok empty_analysis)
            | Ok v => ([ModelCall (prompt_of_contract contract_text)], Ok v)
            end
        end
    end.
Proof.
  intros Hm.
  unfold analyze_contract, generate_content, try_except, bind, lift, ret,
    st_error.
  rewrite Hm.
  destruct (model (prompt_of_contract contract_text)) as [r|e]; cbn;
    [|reflexivity].
  destruct (text r) as [t|e]; cbn; [|reflexivity].
  destruct (Json.loads recursion_limit (clean_json t)); reflexivity.
Qed.

(** X13. When nothing can be read from the uploaded file, the sidebar
    leaves the session state as it was and the model is not called: a
    failure of the reader or of one of the first 51 pages shows its error,
    and a document without pages shows nothing at all. *)
Theorem sidebar_without_text (file : UploadedFile) (session : SessionState) :
  (forall e,
     PdfReader file = Raise e ->
     sidebar_analysis (Some file) true session
     = ([ByHelper (ShownError (lit "Error reading PDF: ") e)], Ok session))
  /\ (forall pages k texts e,
        PdfReader file = Ok pages ->
        firstn k pages = map Ok texts ->
        nth_error pages k = Some (Raise e) ->
        (k <= 50)%nat ->
        sidebar_analysis (Some file) true session
        = ([ByHelper (ShownError (lit "Error reading PDF: ") e)], Ok session))
  /\ (PdfReader file = Ok [] ->
      sidebar_analysis (Some file) true session = ([], Ok session)).
Proof.
  unfold sidebar_analysis, extract_text_from_pdf, try_except, bind, lift,
    ret, st_error.
  split; [|split].
  - intros e ->. reflexivity.
  - intros pages k texts e -> Hf Hn Hk.
    now rewrite (pages_loop_failure pages 0 [] k texts e Hf Hn Hk).
  - intros ->. reflexivity.
Qed.

(** X14. Once a page was read and the client of the model is made, pressing
    the button always replaces the analysis of the session and ends on the
    message of success, after exactly one prompt built from the text read;
    this holds also when the extraction failed, in which case the error is
    shown before the message of success and the analysis becomes the empty
    one. *)
Theorem sidebar_replaces_analysis
    (file : UploadedFile) (pages : list Page) (texts : list str)
    (model : Model) (session : SessionState) :
  PdfReader file = Ok pages ->
  pages <> [] ->
  firstn 51 pages = map Ok texts ->
  GenerativeModel (lit "gemini-2.0-flash-001") = Ok model ->
  (exists data rest,
     sidebar_analysis (Some file) true session
     = (ByHelper
          (ModelCall
             (prompt_of_contract
                (List.concat (map (fun t => t ++ newline) texts))))
        :: rest ++ [SuccessBox (lit "Extraction Complete!")],
        Ok (with_analysis (Some data) session))
     /\ (rest = []
         \/ exists e,
              rest = [ByHelper (ShownError (lit "AI Analysis Failed: ") e)]
              /\ data = empty_analysis))
  /\ (forall e,
        model (prompt_of_contract
                 (List.concat (map (fun t => t ++ newline) texts)))
        = Raise e ->
        sidebar_analysis (Some file) true session
        = ([ByHelper
              (ModelCall
                 (prompt_of_contract
                    (List.concat (map (fun t => t ++ newline) texts))));
            ByHelper (ShownError (lit "AI Analysis Failed: ") e);
            SuccessBox (lit "Extraction Complete!")],
           Ok (with_analysis (Some empty_analysis) session))).
Proof.
  intros Hr Hp Hf Hm.
  destruct (pages_text_nonempty pages texts Hp Hf) as (c & t & Ht).
  assert (E : sidebar_analysis (Some file) true session
              = match analyze_contract
                        (List.concat (map (fun t => t ++ newline) texts)) with
                | (log', Raise e) => (map ByHelper log', Raise e)
                | (log', Ok data) =>
                    (map ByHelper log'
                     ++ [SuccessBox (lit "Extraction Complete!")],
                     Ok (with_analysis (Some data) session))
                end).
  { unfold sidebar_analysis, extract_text_from_pdf, try_except, bind, lift,
      ret.
    rewrite Hr, (pages_loop_first_pages pages 0 [] texts Hf). cbn [app].
    rewrite Ht. reflexivity. }
  rewrite E, (analyze_contract_cases model _ Hm). clear E.
  split.
  - destruct (model _) as [r|e]; [|exists empty_analysis; eexists; split;
                                    [reflexivity|right; eauto]].
    destruct (text r) as [rt|e]; [|exists empty_analysis; eexists; split;
                                    [reflexivity|right; eauto]].
    destruct (Json.loads recursion_limit (clean_json rt)) as [v|e];
      [exists v, []; split; [reflexivity|now left]
      |exists empty_analysis; eexists; split; [reflexivity|right; eauto]].
  - intros e ->. reflexivity.
Qed.

(** *** The notification matrix and the calendar button *)

Lemma matrix_row_fields (index : nat) (item : value) (row : MatrixRow) :
  matrix_row index item = Ok row ->
  exists topic clause_id trigger_event time_limit,
    has_fields item topic clause_id trigger_event time_limit.
Proof.
  unfold matrix_row, has_fields.
  destruct (subscript item (lit "clause_id")) as [c|]; [|discriminate].
  destruct (subscript item (lit "topic")) as [t|]; [|discriminate].
  destruct (subscript item (lit "time_limit")) as [l|]; [|discriminate].
  destruct (subscript item (lit "trigger_event")) as [r|]; [|discriminate].
  intros _. exists t, c, r, l. auto.
Qed.

Lemma notification_matrix_cons (index : nat) (item : value)
    (items : list value) (pressed : nat -> bool) (s : SessionState) :
  notification_matrix index (item :: items) pressed s
  = match matrix_row index item with
    | Raise e => ([], s, Some e)
    | Ok row =>
        let '(rows, s', failure) :=
          notification_matrix (S index) items pressed
            (if pressed index
             then with_draft_mode (Some true)
                    (with_selected_clause (Some item) s)
             else s) in
        (row :: rows, s', failure)
    end.
Proof. reflexivity. Qed.

(** A loop that ends without exception has shown one row for each item, and
    each item carries the four fields. *)
Lemma notification_matrix_fields (items : list value) :
  forall index pressed s rows s',
    notification_matrix index items pressed s = (rows, s', None) ->
    List.length rows = List.length items
    /\ (forall item, In item items ->
          exists topic clause_id trigger_event time_limit,
            has_fields item topic clause_id trigger_event time_limit).
Proof.
  induction items as [|item items IH]; intros index pressed s rows s' H.
  - cbn in H. injection H as <- <-. split; [reflexivity|intros ? []].
  - rewrite notification_matrix_cons in H.
    destruct (matrix_row index item) as [row|] eqn:Hrow; [|discriminate].
    destruct (notification_matrix (S index) items pressed _)
      as [[rows' s''] failure] eqn:Hrest.
    injection H as <- <- ->. destruct (IH _ _ _ _ _ Hrest) as [Hl Hf].
    split; [cbn; now rewrite Hl|].
    intros x [<-|Hx]; [exact (matrix_row_fields _ _ _ Hrow)|auto].
Qed.

(** Conversely the loop ends without exception on items that carry the four
    fields. *)
Lemma notification_matrix_total (items : list value) :
  (forall item, In item items ->
     exists topic clause_id trigger_event time_limit,
       has_fields item topic clause_id trigger_event time_limit) ->
  forall index pressed s,
    exists rows s', notification_matrix index items pressed s = (rows, s', None).
Proof.
  induction items as [|item items IH]; intros Hf index pressed s.
  - now exists [], s.
  - rewrite notification_matrix_cons.
    destruct (Hf item (or_introl eq_refl)) as (t & c & r & l & Ht & Hc & Hr & Hl).
    unfold matrix_row. rewrite Hc, Ht, Hl, Hr.
    destruct (IH (fun x Hx => Hf x (or_intror Hx)) (S index) pressed
                (if pressed index
                 then with_draft_mode (Some true)
                        (with_selected_clause (Some item) s)
                 else s)) as (rows & s' & ->).
    now eexists _, _.
Qed.

(** Whatever the loop does, and however it ends, it leaves the session
    state as it was or with a clause of the list selected for drafting. *)
Lemma notification_matrix_keeps (items : list value) :
  forall index pressed s rows s' failure,
    notification_matrix index items pressed s = (rows, s', failure) ->
    s' = s
    \/ exists item,
         In item items
         /\ s' = with_draft_mode (Some true)
                   (with_selected_clause (Some item) s).
Proof.
  induction items as [|item items IH];
    intros index pressed s rows s' failure H.
  - cbn in H. injection H as _ <- _. now left.
  - rewrite notification_matrix_cons in H.
    destruct (matrix_row index item) as [row|]; [|injection H as _ <- _; now left].
    destruct (notification_matrix (S index) items pressed _)
      as [[rows' s''] failure'] eqn:Hrest.
    injection H as _ <- _.
    destruct (IH _ _ _ _ _ _ Hrest) as [->|(x & Hx & ->)].
    + destruct (pressed index); [right; exists item; split; [now left|reflexivity]|now left].
    + right. exists x. split; [now right|].
      destruct (pressed index); reflexivity.
Qed.

Lemma notification_matrix_idle (items : list value) :
  forall index pressed s rows s' failure,
    (forall i, (index <= i)%nat -> pressed i = false) ->
    notification_matrix index items pressed s = (rows, s', failure) ->
    s' = s.
Proof.
  induction items as [|item items IH];
    intros index pressed s rows s' failure Hp H.
  - cbn in H. now injection H as _ <- _.
  - rewrite notification_matrix_cons in H.
    destruct (matrix_row index item) as [row|]; [|now injection H as _ <- _].
    rewrite (Hp index (le_n _)) in H.
    destruct (notification_matrix (S index) items pressed s)
      as [[rows' s''] failure'] eqn:Hrest.
    injection H as _ <- _.
    refine (IH _ _ _ _ _ _ _ Hrest).
    intros i Hi. apply Hp. lia.
Qed.

Lemma notification_matrix_selects (items : list value) :
  forall index pressed s rows s' k item,
    (forall i, pressed i = true <-> i = (index + k)%nat) ->
    nth_error items k = Some item ->
    notification_matrix index items pressed s = (rows, s', None) ->
    s' = with_draft_mode (Some true) (with_selected_clause (Some item) s).
Proof.
  induction items as [|x items IH];
    intros index pressed s rows s' k item Hp Hk H.
  - destruct k; discriminate.
  - rewrite notification_matrix_cons in H.
    destruct (matrix_row index x) as [row|]; [|discriminate].
    destruct k as [|k].
    + cbn in Hk. injection Hk as ->.
      assert (Hi : pressed index = true) by (apply Hp; lia).
      rewrite Hi in H.
      destruct (notification_matrix (S index) items pressed _)
        as [[rows' s''] failure] eqn:Hrest.
      injection H as _ <- _.
      refine (notification_matrix_idle _ _ _ _ _ _ _ _ Hrest).
      intros i Hle. destruct (pressed i) eqn:E; [|reflexivity].
      apply Hp in E. lia.
    + cbn in Hk.
      assert (Hi : pressed index = false).
      { destruct (pressed index) eqn:E; [|reflexivity].
        apply Hp in E. lia. }
      rewrite Hi in H.
      destruct (notification_matrix (S index) items pressed s)
        as [[rows' s''] failure] eqn:Hrest.
      injection H as _ <- ->.
      apply (IH (S index) pressed s rows' s'' k item); try assumption.
      intros i. rewrite Hp. lia.
Qed.

(** The dashboard once its header is through and the loop has ended
    without exception. *)
Lemma dashboard_through (data meta clauses : value) (head : list shown)
    (items : list value) (pressed : nat -> bool) (calendar_pressed : bool)
    (s s' : SessionState) (rows : list MatrixRow) :
  dashboard_header data = Done (meta, clauses, head) ->
  iterate clauses = Ok items ->
  notification_matrix 0 items pressed s = (rows, s', None) ->
  exists evs,
    events_of 0 items evs
    /\ dashboard data pressed calendar_pressed s
       = (head ++ map Expander rows
          ++ (if calendar_pressed
              then [CalendarDownload (set_order evs)
                      (lit "project_deadlines.ics")]
              else []),
          s', Done meta).
Proof.
  intros Hh Hi Hm.
  destruct (notification_matrix_fields _ _ _ _ _ _ Hm) as [_ Hf].
  destruct (events_of_total _ Hf 0%nat) as (evs & Hevs).
  exists evs. split; [exact Hevs|].
  unfold dashboard. rewrite Hh, Hi, Hm.
  destruct calendar_pressed.
  - now rewrite (create_calendar_file_spec _ _ Hevs).
  - now rewrite app_nil_r.
Qed.

(** X15. The calendar button stands behind the clause list: pressing it
    never changes how the dashboard ends nor the session state it leaves,
    and whenever the clause list was shown without exception, pressing the
    button offers calendar data with one event per row shown, under the
    fixed file name. *)
Theorem matrix_guards_exporter
    (data : value) (draft_pressed : nat -> bool) (session : SessionState) :
  snd (dashboard data draft_pressed true session)
  = snd (dashboard data draft_pressed false session)
  /\ snd (fst (dashboard data draft_pressed true session))
     = snd (fst (dashboard data draft_pressed false session))
  /\ (forall meta clauses head items rows session',
        dashboard_header data = Done (meta, clauses, head) ->
        iterate clauses = Ok items ->
        notification_matrix 0 items draft_pressed session
        = (rows, session', None) ->
        exists payload,
          dashboard data draft_pressed true session
          = (head ++ map Expander rows
             ++ [CalendarDownload payload (lit "project_deadlines.ics")],
             session', Done meta)
          /\ List.length payload = List.length rows).
Proof using set_order_perm.
  assert (Hsame :
            snd (dashboard data draft_pressed true session)
            = snd (dashboard data draft_pressed false session)
            /\ snd (fst (dashboard data draft_pressed true session))
               = snd (fst (dashboard data draft_pressed false session))).
  { destruct (dashboard_header data) as [[[meta clauses] head]|e] eqn:Hh;
      [|unfold dashboard; rewrite Hh; now split].
    destruct (iterate clauses) as [items|e] eqn:Hi;
      [|unfold dashboard; rewrite Hh, Hi; now split].
    destruct (notification_matrix 0 items draft_pressed session)
      as [[rows s'] [e|]] eqn:Hm;
      [unfold dashboard; rewrite Hh, Hi, Hm; now split|].
    destruct (dashboard_through data meta clauses head items draft_pressed
                true session s' rows Hh Hi Hm) as (evs & _ & ->).
    destruct (dashboard_through data meta clauses head items draft_pressed
                false session s' rows Hh Hi Hm) as (evs' & _ & ->).
    now split. }
  split; [exact (proj1 Hsame)|]. split; [exact (proj2 Hsame)|].
  intros meta clauses head items rows s' Hh Hi Hm.
  destruct (dashboard_through data meta clauses head items draft_pressed
              true session s' rows Hh Hi Hm) as (evs & Hevs & ->).
  exists (set_order evs). split; [reflexivity|].
  rewrite (Permutation_length (set_order_perm evs)).
  rewrite (events_of_length _ _ _ Hevs).
  symmetry. exact (proj1 (notification_matrix_fields _ _ _ _ _ _ Hm)).
Qed.

(** X16. The clause that the clause list hands to the drafting section is
    the one whose button was pressed, and it carries the clause id and the
    topic that the drafting section reads; when no button is pressed the
    clause list leaves the session state as it was, however the loop
    ends. *)
Theorem selected_clause_is_draftable
    (items : list value) (draft_pressed : nat -> bool)
    (session session' : SessionState) (rows : list MatrixRow)
    (failure : option exn) :
  notification_matrix 0 items draft_pressed session
  = (rows, session', failure) ->
  (forall k item,
     failure = None ->
     (forall i, draft_pressed i = true <-> i = k) ->
     nth_error items k = Some item ->
     selected_clause session' = Some item
     /\ draft_mode session' = Some true
     /\ analysis session' = analysis session
     /\ current_draft session' = current_draft session
     /\ exists clause_id topic,
          subscript item (lit "clause_id") = Ok clause_id
          /\ subscript item (lit "topic") = Ok topic)
  /\ ((forall i, draft_pressed i = false) -> session' = session).
Proof.
  intros H. split.
  - intros k item -> Hp Hk.
    rewrite (notification_matrix_selects items 0 draft_pressed session rows
               session' k item Hp Hk H).
    cbn. repeat split.
    destruct (notification_matrix_fields _ _ _ _ _ _ H) as [_ Hf].
    destruct (Hf item (nth_error_In _ _ Hk)) as (t & c & r & l & Ht & Hc & _).
    now exists c, t.
  - intros Hp.
    exact (notification_matrix_idle items 0 draft_pressed session rows
             session' failure (fun i _ => Hp i) H).
Qed.

(** *** The drafting section *)

Lemma get_or_dict (d : list (str * value)) (key : str) (default : value) :
  get_or (VDict d) key default
  = Done (match dict_get d key with Some w => w | None => default end).
Proof. reflexivity. Qed.

(** The section on a submitted form, when the header and the first values
    of the form are through. *)
Lemma drafting_section_submitted (meta : value) (form : Form)
    (session : SessionState) (target clause_id topic : value)
    (model : Model) (first_values : value * value * value) :
  draft_mode session = Some true ->
  selected_clause session = Some target ->
  subscript target (lit "clause_id") = Ok clause_id ->
  subscript target (lit "topic") = Ok topic ->
  form_defaults (Some meta) = Done first_values ->
  GenerativeModel (lit "gemini-2.0-flash-001") = Ok model ->
  let prompt :=
    filled_template (VStr (date_in form)) (owner_in form)
      (VStr (recipient_in form)) (proj_in form) (num_in form) clause_id
      topic (VStr (cause_in form)) (VStr (effect_in form)) in
  drafting_section (Some meta) true form session
  = match model prompt with
    | Ok response =>
        match text response with
        | Ok draft =>
            ([Header (lit "3. Draft Notice: " ++ str_of clause_id);
              ByHelper (ModelCall prompt);
              DraftDownload draft
                (lit "Notice_" ++ str_of clause_id ++ lit ".txt")],
             with_current_draft (Some draft) session, None)
        | Raise e =>
            ([Header (lit "3. Draft Notice: " ++ str_of clause_id);
              ByHelper (ModelCall prompt)],
             session, Some (Builtin e))
        end
    | Raise e =>
        ([Header (lit "3. Draft Notice: " ++ str_of clause_id);
          ByHelper (ModelCall prompt)],
         session, Some (Builtin e))
    end.
Proof.
  intros Hd Hs Hc Ht Hf Hm prompt. unfold drafting_section.
  rewrite Hd, Hs, Hc, Hf.
  rewrite (generate_notice_draft_cases model _ _ _ Hm), Hc, Ht.
  cbn [subscript dict_get].
  change (str_eqb (lit "cause") (lit "date")) with false.
  change (str_eqb (lit "effect") (lit "date")) with false.
  change (str_eqb (lit "date") (lit "date")) with true.
  change (str_eqb (lit "owner") (lit "owner")) with true.
  change (str_eqb (lit "owner") (lit "recipient")) with false.
  change (str_eqb (lit "recipient") (lit "recipient")) with true.
  change (str_eqb (lit "owner") (lit "project")) with false.
  change (str_eqb (lit "recipient") (lit "project")) with false.
  change (str_eqb (lit "project") (lit "project")) with true.
  change (str_eqb (lit "owner") (lit "contract_num")) with false.
  change (str_eqb (lit "recipient") (lit "contract_num")) with false.
  change (str_eqb (lit "project") (lit "contract_num")) with false.
  change (str_eqb (lit "contract_num") (lit "contract_num")) with true.
  change (str_eqb (lit "cause") (lit "cause")) with true.
  change (str_eqb (lit "cause") (lit "effect")) with false.
  change (str_eqb (lit "effect") (lit "effect")) with true.
  cbn iota. fold prompt.
  destruct (model prompt) as [response|e]; [|reflexivity].
  destruct (text response) as [draft|e]; [|reflexivity].
  unfold final_output. cbn [current_draft with_current_draft].
  rewrite Hc. reflexivity.
Qed.

(** X17. In the drafting section the model is called only when the form is
    submitted, and then exactly once, on the template filled with the
    values of the form as the widgets returned them and with the clause id
    and topic of the selected clause. The draft of the session is replaced
    only when the call succeeds, and then the file offered holds that draft
    and bears the clause id in its name; a failed call ends the run with
    its exception and leaves the session state as it was. *)
Theorem drafting_section_submission
    (fields : list (str * value)) (form : Form) (session : SessionState)
    (target clause_id topic : value) (model : Model) :
  draft_mode session = Some true ->
  selected_clause session = Some target ->
  subscript target (lit "clause_id") = Ok clause_id ->
  subscript target (lit "topic") = Ok topic ->
  GenerativeModel (lit "gemini-2.0-flash-001") = Ok model ->
  let prompt :=
    filled_template (VStr (date_in form)) (owner_in form)
      (VStr (recipient_in form)) (proj_in form) (num_in form) clause_id
      topic (VStr (cause_in form)) (VStr (effect_in form)) in
  let head := Header (lit "3. Draft Notice: " ++ str_of clause_id) in
  let file_name := lit "Notice_" ++ str_of clause_id ++ lit ".txt" in
  drafting_section (Some (VDict fields)) true form session
  = match model prompt with
    | Ok response =>
        match text response with
        | Ok draft =>
            ([head; ByHelper (ModelCall prompt);
              DraftDownload draft file_name],
             with_current_draft (Some draft) session, None)
        | Raise e =>
            ([head; ByHelper (ModelCall prompt)], session, Some (Builtin e))
        end
    | Raise e =>
        ([head; ByHelper (ModelCall prompt)], session, Some (Builtin e))
    end
  /\ drafting_section (Some (VDict fields)) false form session
     = (head :: match current_draft session with
                | Some draft => [DraftDownload draft file_name]
                | None => []
                end,
        session, None).
Proof.
  intros Hd Hs Hc Ht Hm prompt head file_name. split.
  - exact (drafting_section_submitted (VDict fields) form session target
             clause_id topic model _ Hd Hs Hc Ht eq_refl Hm).
  - unfold drafting_section. rewrite Hd, Hs, Hc.
    unfold form_defaults. rewrite !get_or_dict. cbn iota.
    unfold final_output.
    destruct (current_draft session); [rewrite Hc|]; reflexivity.
Qed.

(** *** The dashboard header *)

Lemma get_or_not_dict (v : value) (key : str) (default : value) :
  is_dict v = false -> get_or v key default = Uncaught AttributeError.
Proof. destruct v; cbn; congruence. Qed.

Lemma dashboard_header_dict (data meta clauses : value) (head : list shown) :
  dashboard_header data = Done (meta, clauses, head) ->
  is_dict data = true /\ is_dict meta = true.
Proof.
  unfold dashboard_header.
  destruct data as [| | | | | |d]; try discriminate.
  rewrite !get_or_dict.
  destruct (match dict_get d (lit "metadata") with
            | Some w => w
            | None => VDict []
            end) as [| | | | | |m] eqn:Hm; try discriminate.
  rewrite !get_or_dict. intros [= <- _ _]. now split.
Qed.

Lemma dashboard_header_exn (data : value) (e : script_exn) :
  dashboard_header data = Uncaught e -> e = AttributeError.
Proof.
  unfold dashboard_header.
  destruct data as [| | | | | |d]; try (now intros [= <-]).
  rewrite !get_or_dict.
  destruct (match dict_get d (lit "metadata") with
            | Some w => w
            | None => VDict []
            end) as [| | | | | |m] eqn:Hm; now intros [= <-].
Qed.

(** X18. The header of the dashboard gets through exactly when the analysis
    is an object whose metadata, if it has any, is an object too; the only
    exception it can meet is the one of a value without the method [get];
    and an analysis without metadata is shown under the three default
    names, with the clauses it has or none. *)
Theorem dashboard_header_outcomes (data : value) :
  ((exists r, dashboard_header data = Done r) <->
   is_dict data = true
   /\ forall meta, subscript data (lit "metadata") = Ok meta ->
                   is_dict meta = true)
  /\ (forall e, dashboard_header data = Uncaught e -> e = AttributeError)
  /\ (forall fields,
        data = VDict fields ->
        dict_get fields (lit "metadata") = None ->
        dashboard_header data
        = Done (VDict [],
                match dict_get fields (lit "clauses") with
                | Some clauses => clauses
                | None => VList []
                end,
                [Subheader ([128194] ++ lit " Project: Unknown Project");
                 Caption (lit "Owner: Unknown | Contract #: N/A")])).
Proof.
  split; [|split].
  - split.
    + intros [[[meta clauses] head] H].
      destruct (dashboard_header_dict _ _ _ _ H) as [Hd Hm].
      split; [exact Hd|]. intros m Hs.
      destruct data as [| | | | | |d]; try discriminate.
      cbn [subscript] in Hs.
      unfold dashboard_header in H. rewrite !get_or_dict in H.
      destruct (dict_get d (lit "metadata")) as [w|]; [|discriminate].
      injection Hs as ->.
      destruct m; try discriminate. reflexivity.
    + intros [Hd Hm]. destruct data as [| | | | | |d]; try discriminate.
      unfold dashboard_header. rewrite !get_or_dict.
      cbn [subscript] in Hm.
      destruct (dict_get d (lit "metadata")) as [w|].
      * specialize (Hm w eq_refl). destruct w; try discriminate.
        rewrite !get_or_dict. eauto.
      * rewrite !get_or_dict. eauto.
  - exact (dashboard_header_exn data).
  - intros fields -> Hnone. unfold dashboard_header.
    rewrite !get_or_dict, Hnone, !get_or_dict. reflexivity.
Qed.

(** *** A run of the script *)

Lemma script_run_open (uploaded_file : option UploadedFile)
    (analyze_pressed : bool) (draft_pressed : nat -> bool)
    (calendar_pressed submitted : bool) (form : Form) (s : SessionState) :
  password_correct s = Some true ->
  script_run uploaded_file analyze_pressed draft_pressed calendar_pressed
    submitted form s
  = match sidebar_analysis uploaded_file analyze_pressed s with
    | (side, Raise e) => (side, s, Failed (Builtin e))
    | (side, Ok session1) =>
        match dashboard_block draft_pressed calendar_pressed session1 with
        | (dash, session2, Uncaught e) => (side ++ dash, session2, Failed e)
        | (dash, session2, Done meta) =>
            let '(draft, session3, failure) :=
              drafting_section meta submitted form session2 in
            (side ++ dash ++ draft, session3,
             match failure with
             | Some e => Failed e
             | None => Completed
             end)
        end
    end.
Proof.
  intros H. unfold script_run, check_password. rewrite H. reflexivity.
Qed.

Lemma script_run_closed (uploaded_file : option UploadedFile)
    (analyze_pressed : bool) (draft_pressed : nat -> bool)
    (calendar_pressed submitted : bool) (form : Form) (s : SessionState) :
  password_correct s <> Some true ->
  script_run uploaded_file analyze_pressed draft_pressed calendar_pressed
    submitted form s
  = (fst (check_password s), s, Stopped).
Proof.
  intros H. unfold script_run, check_password.
  destruct (password_correct s) as [[|]|]; [contradiction| |]; reflexivity.
Qed.

(** X19. A run in which the analysis of an uploaded contract fails does not
    end there: the fallback value is stored as the analysis, the page
    reports the failure, then a completed extraction, and goes on to the
    dashboard under the default names with no clause; the calendar button
    then offers a calendar without events. *)
Theorem failed_analysis_run_completes
    (file : UploadedFile) (contract_text : str) (log : list effect)
    (draft_pressed : nat -> bool) (calendar_pressed submitted : bool)
    (form : Form) (session : SessionState) :
  password_correct session = Some true ->
  draft_mode session <> Some true ->
  extract_text_from_pdf file = ([], Ok (Some contract_text)) ->
  contract_text <> [] ->
  analyze_contract contract_text = (log, Ok empty_analysis) ->
  script_run (Some file) true draft_pressed calendar_pressed submitted form
    session
  = (map ByHelper log
     ++ [SuccessBox (lit "Extraction Complete!");
         Subheader ([128194] ++ lit " Project: Unknown Project");
         Caption (lit "Owner: Unknown | Contract #: N/A")]
     ++ (if calendar_pressed
         then [CalendarDownload [] (lit "project_deadlines.ics")]
         else []),
     with_analysis (Some empty_analysis) session, Completed).
Proof using set_order_perm.
  intros Hpc Hd Hx Ht Ha. rewrite (script_run_open _ _ _ _ _ _ _ Hpc).
  unfold sidebar_analysis. rewrite Hx.
  assert (Hh : has_text (Some contract_text) = true)
    by (destruct contract_text; [contradiction|reflexivity]).
  rewrite Hh, Ha. unfold dashboard_block. cbn [analysis with_analysis].
  assert (Hset : set_order [] = []).
  { apply Permutation_nil, Permutation_sym, set_order_perm. }
  assert (Hdash : dashboard empty_analysis draft_pressed calendar_pressed
                    (with_analysis (Some empty_analysis) session)
                  = ([Subheader ([128194] ++ lit " Project: Unknown Project");
                      Caption (lit "Owner: Unknown | Contract #: N/A")]
                     ++ (if calendar_pressed
                         then [CalendarDownload []
                                 (lit "project_deadlines.ics")]
                         else []),
                     with_analysis (Some empty_analysis) session,
                     Done (VDict []))).
  { unfold dashboard.
    change (dashboard_header empty_analysis)
      with (Done (A := value * value * list shown)
              (VDict [], VList [],
               [Subheader ([128194] ++ lit " Project: Unknown Project");
                Caption (lit "Owner: Unknown | Contract #: N/A")])).
    cbn [iterate notification_matrix map app].
    destruct calendar_pressed; [|reflexivity].
    rewrite (create_calendar_file_spec [] [] (events_of_nil 0)), Hset.
    reflexivity. }
  rewrite Hdash. unfold drafting_section. cbn [draft_mode with_analysis].
  destruct (draft_mode session) as [[|]|]; [contradiction| |];
    rewrite app_nil_r, app_nil_l, <- app_assoc; reflexivity.
Qed.

(** *** The session state between the steps of the user *)

Lemma sidebar_analysis_keeps (uploaded_file : option UploadedFile)
    (analyze_pressed : bool) (s s' : SessionState) (page : list shown) :
  sidebar_analysis uploaded_file analyze_pressed s = (page, Ok s') ->
  s' = s \/ exists data, s' = with_analysis (Some data) s.
Proof.
  unfold sidebar_analysis.
  destruct uploaded_file as [file|]; [|intros [= _ <-]; now left].
  destruct analyze_pressed; [|intros [= _ <-]; now left].
  destruct (extract_text_from_pdf file) as [log [text|e]]; [|discriminate].
  destruct (has_text text); [|intros [= _ <-]; now left].
  destruct (analyze_contract _) as [log' [data|e]]; [|discriminate].
  intros [= _ <-]. right. now exists data.
Qed.

Lemma dashboard_keeps (data : value) (pressed : nat -> bool) (cal : bool)
    (s s' : SessionState) (page : list shown) (r : outcome value) :
  dashboard data pressed cal s = (page, s', r) ->
  (s' = s
   \/ exists item,
        s' = with_draft_mode (Some true) (with_selected_clause (Some item) s))
  /\ (forall meta, r = Done meta -> is_dict meta = true)
  /\ (forall name, r <> Uncaught (NameError name))
  /\ (r = Uncaught AttributeError ->
      dashboard_header data = Uncaught AttributeError /\ s' = s).
Proof.
  unfold dashboard.
  destruct (dashboard_header data) as [[[meta clauses] head]|e] eqn:Hh.
  - assert (Hmeta := proj2 (dashboard_header_dict _ _ _ _ Hh)).
    destruct (iterate clauses) as [items|e].
    + destruct (notification_matrix 0 items pressed s)
        as [[rows s1] failure] eqn:Hm.
      assert (Hs : s1 = s
                   \/ exists item,
                        s1 = with_draft_mode (Some true)
                               (with_selected_clause (Some item) s)).
      { destruct (notification_matrix_keeps _ _ _ _ _ _ _ Hm)
          as [->|(x & _ & ->)]; eauto. }
      destruct failure as [e|].
      * intros [= _ <- <-]. repeat split; try discriminate. exact Hs.
      * destruct cal.
        -- destruct (create_calendar_file items) as [log [ics|e]];
             intros [= _ <- <-]; repeat split; try discriminate;
             try exact Hs.
           now intros m [= <-].
        -- intros [= _ <- <-]. repeat split; try discriminate;
             try exact Hs.
           now intros m [= <-].
    + intros [= _ <- <-]. repeat split; try discriminate. now left.
  - rewrite (dashboard_header_exn _ _ Hh).
    intros [= _ <- <-]. repeat split; try discriminate. now left.
Qed.

Lemma dashboard_block_keeps (pressed : nat -> bool) (cal : bool)
    (s s' : SessionState) (page : list shown) (r : outcome (option value)) :
  dashboard_block pressed cal s = (page, s', r) ->
  (s' = s
   \/ (analysis s <> None
       /\ exists item,
            s' = with_draft_mode (Some true)
                   (with_selected_clause (Some item) s)))
  /\ (forall meta, r = Done meta ->
        match meta with
        | Some m => is_dict m = true
        | None => analysis s = None /\ s' = s
        end)
  /\ (forall name, r <> Uncaught (NameError name))
  /\ (r = Uncaught AttributeError ->
      exists data,
        analysis s' = Some data
        /\ dashboard_header data = Uncaught AttributeError).
Proof.
  unfold dashboard_block. destruct (analysis s) as [data|] eqn:Ha.
  - destruct (dashboard data pressed cal s) as [[dash s1] r1] eqn:Hd.
    destruct (dashboard_keeps _ _ _ _ _ _ _ Hd) as (Hs & Hm & Hn & Hattr).
    destruct r1 as [meta|e]; intros [= _ <- <-].
    + repeat split; try discriminate.
      * destruct Hs as [->|Hs]; [now left|right; split; [discriminate|exact Hs]].
      * intros m [= <-]. now apply Hm.
    + repeat split; try discriminate.
      * destruct Hs as [->|Hs]; [now left|right; split; [discriminate|exact Hs]].
      * intros name [= ->]. now apply (Hn name).
      * intros [= ->]. destruct (Hattr eq_refl) as [Hh ->]. eauto.
  - intros [= _ <- <-]. repeat split; try discriminate.
    + now left.
    + intros m [= <-]. now split.
Qed.

Lemma form_defaults_dict (m : value) :
  is_dict m = true -> exists r, form_defaults (Some m) = Done r.
Proof.
  destruct m as [| | | | | |d]; try discriminate. intros _.
  unfold form_defaults.
  rewrite !get_or_dict. eauto.
Qed.

Lemma form_defaults_exn (meta : option value) (e : script_exn) :
  form_defaults meta = Uncaught e ->
  (meta = None /\ e = NameError (lit "meta"))
  \/ (exists m, meta = Some m /\ is_dict m = false /\ e = AttributeError).
Proof.
  unfold form_defaults. destruct meta as [m|]; [|intros [= <-]; now left].
  destruct m as [| | | | | |d];
    intros [= <-]; right; eexists; now repeat split.
Qed.

Lemma final_output_exn (target : value) (s : SessionState)
    (out : list shown) (failure : option script_exn) :
  final_output target s = (out, failure) ->
  failure = None \/ exists e, failure = Some (Builtin e).
Proof.
  unfold final_output. destruct (current_draft s); [|intros [= _ <-]; now left].
  destruct (subscript target (lit "clause_id")); intros [= _ <-]; eauto.
Qed.

Lemma drafting_section_keeps (meta : option value) (submitted : bool)
    (form : Form) (s s' : SessionState) (page : list shown)
    (failure : option script_exn) :
  drafting_section meta submitted form s = (page, s', failure) ->
  (s' = s
   \/ (draft_mode s = Some true
       /\ exists draft, s' = with_current_draft (Some draft) s))
  /\ (forall name, failure = Some (NameError name) ->
        meta = None /\ draft_mode s = Some true /\ selected_clause s <> None)
  /\ (failure = Some AttributeError ->
      exists m, meta = Some m /\ is_dict m = false).
Proof.
  unfold drafting_section.
  destruct (draft_mode s) as [[|]|] eqn:Hd;
    try (intros [= _ <- <-]; repeat split; try discriminate; now left).
  destruct (selected_clause s) as [target|] eqn:Hs;
    try (intros [= _ <- <-]; repeat split; try discriminate; now left).
  destruct (subscript target (lit "clause_id")) as [clause_id|e];
    [|intros [= _ <- <-]; repeat split; try discriminate; now left].
  destruct (form_defaults meta) as [r|e] eqn:Hf.
  - assert (Hfail : forall out failure' s1,
               final_output target s1 = (out, failure') ->
               (forall name, failure' = Some (NameError name) ->
                  meta = None /\ Some true = Some true
                  /\ Some target <> None)
               /\ (failure' = Some AttributeError ->
                   exists m, meta = Some m /\ is_dict m = false)).
    { intros out failure' s1 Ho.
      destruct (final_output_exn _ _ _ _ Ho) as [->|(e & ->)];
        split; discriminate. }
    destruct submitted.
    + destruct (generate_notice_draft _ _ _) as [log [draft|e]].
      * destruct (final_output target _) as [out failure'] eqn:Ho.
        intros [= _ <- <-]. split; [right; split; [reflexivity|eauto]|].
        exact (Hfail _ _ _ Ho).
      * intros [= _ <- <-]. repeat split; try discriminate. now left.
    + destruct (final_output target s) as [out failure'] eqn:Ho.
      intros [= _ <- <-]. split; [now left|]. exact (Hfail _ _ _ Ho).
  - intros [= _ <- <-]. split; [now left|].
    destruct (form_defaults_exn _ _ Hf) as [[-> ->]|(m & -> & Hm & ->)].
    + split; [|discriminate]. intros name _. repeat split. discriminate.
    + split; [discriminate|]. intros _. eauto.
Qed.

Lemma consistent_with_analysis (data : value) (s : SessionState) :
  consistent s -> password_correct s = Some true ->
  consistent (with_analysis (Some data) s).
Proof.
  unfold consistent. cbn. intros (H1 & H2 & H3 & H4 & H5) Hp.
  clear - H1 H2 H3 H4 H5 Hp.
  repeat split; try tauto; try discriminate.
Qed.

Lemma consistent_selected (item : value) (s : SessionState) :
  consistent s -> analysis s <> None ->
  consistent (with_draft_mode (Some true)
                (with_selected_clause (Some item) s)).
Proof.
  unfold consistent. cbn. intros (H1 & H2 & H3 & H4 & H5) Ha.
  clear - H1 H2 H3 H4 H5 Ha.
  repeat split; try tauto; try discriminate.
Qed.

Lemma consistent_with_draft (draft : str) (s : SessionState) :
  consistent s -> draft_mode s = Some true ->
  consistent (with_current_draft (Some draft) s).
Proof.
  unfold consistent. cbn. intros (H1 & H2 & H3 & H4 & H5) Hd.
  clear - H1 H2 H3 H4 H5 Hd.
  repeat split; try tauto.
Qed.

(** A session that has not passed the gate holds nothing yet. *)
Lemma consistent_closed (s : SessionState) :
  consistent s -> password_correct s <> Some true ->
  analysis s = None /\ selected_clause s = None /\ draft_mode s = None
  /\ current_draft s = None.
Proof.
  intros (H1 & H2 & H3 & H4 & H5) Hp.
  assert (Ha : analysis s = None).
  { destruct (analysis s); [|reflexivity].
    exfalso. apply Hp, H5. discriminate. }
  assert (Hd : draft_mode s = None).
  { destruct H1 as [H1|H1]; [exact H1|]. now apply H3 in H1. }
  repeat split; try assumption.
  - destruct (selected_clause s); [|reflexivity].
    assert (draft_mode s = Some true) by (apply H2; discriminate).
    congruence.
  - destruct (current_draft s); [|reflexivity].
    assert (draft_mode s = Some true) by (apply H4; discriminate).
    congruence.
Qed.

Lemma consistent_after_entry (entered : str) (s : SessionState) :
  consistent s -> snd (check_password s) = false ->
  consistent (after_entry entered s).
Proof.
  intros Hc Hg.
  assert (Hp : password_correct s <> Some true).
  { intros H. apply check_password_true in H. congruence. }
  destruct (consistent_closed s Hc Hp) as (Ha & Hs & Hd & Hcur).
  assert (Hall : forall s',
             analysis s' = analysis s ->
             selected_clause s' = selected_clause s ->
             draft_mode s' = draft_mode s ->
             current_draft s' = current_draft s ->
             consistent s').
  { intros s' E1 E2 E3 E4. unfold consistent.
    rewrite E1, E2, E3, E4, Ha, Hs, Hd, Hcur.
    clear. repeat split; try discriminate; try tauto. }
  unfold after_entry, on_change, password_entered. cbn [password with_password].
  destruct app_password as [secret|e]; [|now apply Hall].
  destruct (equals_text entered secret); now apply Hall.
Qed.

Lemma script_run_consistent (uploaded_file : option UploadedFile)
    (analyze_pressed : bool) (draft_pressed : nat -> bool)
    (calendar_pressed submitted : bool) (form : Form) (s : SessionState) :
  consistent s ->
  consistent (snd (fst (script_run uploaded_file analyze_pressed
                          draft_pressed calendar_pressed submitted form s)))
  /\ forall name,
       snd (script_run uploaded_file analyze_pressed draft_pressed
              calendar_pressed submitted form s)
       <> Failed (NameError name).
Proof.
  intros Hc.
  destruct (password_correct s) as [[|]|] eqn:Hp;
    try (rewrite script_run_closed by congruence; split;
         [exact Hc|discriminate]).
  rewrite (script_run_open _ _ _ _ _ _ _ Hp).
  destruct (sidebar_analysis uploaded_file analyze_pressed s)
    as [side [s1|e]] eqn:Hside; [|split; [exact Hc|discriminate]].
  assert (Hc1 : consistent s1).
  { destruct (sidebar_analysis_keeps _ _ _ _ _ Hside) as [->|(data & ->)];
      [exact Hc|now apply consistent_with_analysis]. }
  destruct (dashboard_block draft_pressed calendar_pressed s1)
    as [[dash s2] bound] eqn:Hdash.
  destruct (dashboard_block_keeps _ _ _ _ _ _ Hdash)
    as (Hs2 & Hmeta & Hname & _).
  assert (Hc2 : consistent s2).
  { destruct Hs2 as [->|(Ha & item & ->)];
      [exact Hc1|now apply consistent_selected]. }
  destruct bound as [meta|e].
  - destruct (drafting_section meta submitted form s2)
      as [[draft s3] failure] eqn:Hdraft.
    destruct (drafting_section_keeps _ _ _ _ _ _ _ Hdraft)
      as (Hs3 & Hn & _).
    split.
    + cbn [fst snd].
      destruct Hs3 as [->|(Hd & text & ->)];
        [exact Hc2|now apply consistent_with_draft].
    + intros name. cbn [snd]. destruct failure as [e|]; [|discriminate].
      intros [= ->]. destruct (Hn name eq_refl) as (-> & Hd & _).
      destruct (Hmeta None eq_refl) as [Ha ->].
      destruct Hc1 as (_ & _ & H3 & _). now apply H3 in Hd.
  - split; [exact Hc2|]. intros name [= ->]. now apply (Hname name).
Qed.

Lemma reachable_consistent (s : SessionState) : reachable s -> consistent s.
Proof.
  induction 1 as [|entered s Hr IH Hg|f a p c sub form s Hr IH].
  - unfold consistent. cbn. clear.
    repeat split; try discriminate; try tauto.
  - now apply consistent_after_entry.
  - now apply script_run_consistent.
Qed.

(** X20. Whatever the user does from the start of a session, in whatever
    order: a session that has not passed the gate holds no analysis, no
    selected clause and no draft; the drafting mode is on exactly when a
    clause is selected, and then an analysis is held as well; and a draft
    is held only in drafting mode. *)
Theorem session_invariants (session : SessionState) :
  reachable session ->
  (password_correct session <> Some true ->
   analysis session = None /\ selected_clause session = None
   /\ draft_mode session = None /\ current_draft session = None)
  /\ (draft_mode session = Some true <-> selected_clause session <> None)
  /\ (draft_mode session = Some true -> analysis session <> None)
  /\ (current_draft session <> None -> draft_mode session = Some true)
  /\ draft_mode session <> Some false.
Proof.
  intros Hr. assert (Hc := reachable_consistent _ Hr).
  split; [exact (consistent_closed _ Hc)|].
  destruct Hc as (H1 & H2 & H3 & H4 & H5). clear - H1 H2 H3 H4 H5.
  repeat split; try tauto. destruct H1 as [H1|H1]; congruence.
Qed.

(** X21. The drafting section reads the name [meta], which only the
    dashboard binds. In no run of a session, whatever came before, is the
    name read unbound; and a run ends on a value without the method [get]
    only in the header of the dashboard, on the analysis that the session
    holds after the run. *)
Theorem meta_bound_when_read
    (uploaded_file : option UploadedFile) (analyze_pressed : bool)
    (draft_pressed : nat -> bool) (calendar_pressed submitted : bool)
    (form : Form) (session : SessionState) :
  reachable session ->
  (forall name,
     snd (script_run uploaded_file analyze_pressed draft_pressed
            calendar_pressed submitted form session)
     <> Failed (NameError name))
  /\ (snd (script_run uploaded_file analyze_pressed draft_pressed
             calendar_pressed submitted form session)
      = Failed AttributeError ->
      exists data,
        analysis (snd (fst (script_run uploaded_file analyze_pressed
                              draft_pressed calendar_pressed submitted form
                              session)))
        = Some data
        /\ dashboard_header data = Uncaught AttributeError).
Proof.
  intros Hr. assert (Hc := reachable_consistent _ Hr).
  split;
    [exact (proj2 (script_run_consistent uploaded_file analyze_pressed
                     draft_pressed calendar_pressed submitted form session
                     Hc))|].
  destruct (password_correct session) as [[|]|] eqn:Hp;
    try (rewrite script_run_closed by congruence; discriminate).
  rewrite (script_run_open _ _ _ _ _ _ _ Hp).
  destruct (sidebar_analysis uploaded_file analyze_pressed session)
    as [side [s1|e]]; [|discriminate].
  destruct (dashboard_block draft_pressed calendar_pressed s1)
    as [[dash s2] bound] eqn:Hdash.
  destruct (dashboard_block_keeps _ _ _ _ _ _ Hdash)
    as (_ & Hmeta & _ & Hattr).
  destruct bound as [meta|e].
  - destruct (drafting_section meta submitted form s2)
      as [[draft s3] failure] eqn:Hdraft.
    destruct (drafting_section_keeps _ _ _ _ _ _ _ Hdraft) as (_ & _ & Ha).
    cbn [fst snd]. destruct failure as [e|]; [|discriminate].
    intros [= ->]. destruct (Ha eq_refl) as (m & -> & Hm).
    specialize (Hmeta (Some m) eq_refl). cbn in Hmeta. congruence.
  - cbn [fst snd]. intros [= ->]. exact (Hattr eq_refl).
Qed.

(** *** From the button of a clause to its draft *)

(** The rows shown, and the exception met, do not depend on the buttons
    nor on the session state. *)
Lemma notification_matrix_rows (items : list value) :
  forall index pressed pressed' s s',
    fst (fst (notification_matrix index items pressed s))
    = fst (fst (notification_matrix index items pressed' s'))
    /\ snd (notification_matrix index items pressed s)
       = snd (notification_matrix index items pressed' s').
Proof.
  induction items as [|item items IH]; intros index pressed pressed' s s';
    [now split|].
  rewrite !notification_matrix_cons.
  destruct (matrix_row index item) as [row|e]; [|now split].
  specialize (IH (S index) pressed pressed'
                (if pressed index
                 then with_draft_mode (Some true)
                        (with_selected_clause (Some item) s)
                 else s)
                (if pressed' index
                 then with_draft_mode (Some true)
                        (with_selected_clause (Some item) s')
                 else s')).
  destruct (notification_matrix (S index) items pressed _) as [[r1 s1] f1].
  destruct (notification_matrix (S index) items pressed' _) as [[r2 s2] f2].
  cbn [fst snd] in *. destruct IH as [-> ->]. now split.
Qed.

(** X22. From the button of a clause to its draft, over two runs of the
    script. In the run in which the button of the clause at position [k] is
    pressed, that clause is selected, the drafting section opens on it and
    no model is called. In the next run, in which the form is submitted,
    the model is called once, on the template filled with the form and with
    the clause id and topic of that very clause; its answer becomes the
    draft of the session and is offered under the name of the clause, and
    its failure ends the run and leaves the session state as it was. *)
Theorem press_then_submit
    (session : SessionState) (data meta clauses : value) (head : list shown)
    (items : list value) (k : nat) (item : value)
    (draft_pressed : nat -> bool) (form : Form) (model : Model) :
  password_correct session = Some true ->
  analysis session = Some data ->
  dashboard_header data = Done (meta, clauses, head) ->
  iterate clauses = Ok items ->
  (forall x, In x items ->
     exists topic clause_id trigger_event time_limit,
       has_fields x topic clause_id trigger_event time_limit) ->
  nth_error items k = Some item ->
  (forall i, draft_pressed i = true <-> i = k) ->
  GenerativeModel (lit "gemini-2.0-flash-001") = Ok model ->
  exists clause_id topic rows,
    subscript item (lit "clause_id") = Ok clause_id
    /\ subscript item (lit "topic") = Ok topic
    /\ List.length rows = List.length items
    /\ let selected :=
         with_draft_mode (Some true)
           (with_selected_clause (Some item) session) in
       let prompt :=
         filled_template (VStr (date_in form)) (owner_in form)
           (VStr (recipient_in form)) (proj_in form) (num_in form) clause_id
           topic (VStr (cause_in form)) (VStr (effect_in form)) in
       let opened := Header (lit "3. Draft Notice: " ++ str_of clause_id) in
       let file_name := lit "Notice_" ++ str_of clause_id ++ lit ".txt" in
       script_run None false draft_pressed false false form session
       = (head ++ map Expander rows
          ++ opened :: match current_draft session with
                       | Some draft => [DraftDownload draft file_name]
                       | None => []
                       end,
          selected, Completed)
       /\ script_run None false (fun _ => false) false true form selected
          = match model prompt with
            | Ok response =>
                match text response with
                | Ok draft =>
                    (head ++ map Expander rows
                     ++ [opened; ByHelper (ModelCall prompt);
                         DraftDownload draft file_name],
                     with_current_draft (Some draft) selected, Completed)
                | Raise e =>
                    (head ++ map Expander rows
                     ++ [opened; ByHelper (ModelCall prompt)],
                     selected, Failed (Builtin e))
                end
            | Raise e =>
                (head ++ map Expander rows
                 ++ [opened; ByHelper (ModelCall prompt)],
                 selected, Failed (Builtin e))
            end.
Proof.
  intros Hp Ha Hh Hi Hf Hk Hpress Hm.
  destruct (Hf item (nth_error_In _ _ Hk)) as (topic & clause_id & r & l & Ht & Hc & _).
  destruct (notification_matrix_total items Hf 0%nat draft_pressed session)
    as (rows & s1 & Hrun1).
  assert (Hs1 := notification_matrix_selects items 0 draft_pressed session
                   rows s1 k item Hpress Hk Hrun1).
  subst s1.
  set (selected := with_draft_mode (Some true)
                     (with_selected_clause (Some item) session)) in *.
  assert (Hrun2 : notification_matrix 0 items (fun _ => false) selected
                  = (rows, selected, None)).
  { destruct (notification_matrix 0 items (fun _ => false) selected)
      as [[rows2 s2] f2] eqn:E.
    assert (Hidle := notification_matrix_idle items 0 (fun _ => false)
                       selected rows2 s2 f2 (fun _ _ => eq_refl) E).
    destruct (notification_matrix_rows items 0 (fun _ => false)
                draft_pressed selected session) as [Hr Hfl].
    rewrite E, Hrun1 in Hr, Hfl. cbn in Hr, Hfl. now subst. }
  destruct (form_defaults_dict meta (proj2 (dashboard_header_dict _ _ _ _ Hh)))
    as (first_values & Hdef).
  exists clause_id, topic, rows.
  split; [exact Hc|]. split; [exact Ht|].
  split; [exact (proj1 (notification_matrix_fields _ _ _ _ _ _ Hrun1))|].
  cbv zeta. split.
  - rewrite (script_run_open _ _ _ _ _ _ _ Hp).
    unfold sidebar_analysis, dashboard_block. rewrite Ha.
    destruct (dashboard_through data meta clauses head items draft_pressed
                false session selected rows Hh Hi Hrun1) as (evs & _ & ->).
    unfold drafting_section.
    change (draft_mode selected) with (Some true).
    change (selected_clause selected) with (Some item).
    cbv beta iota. rewrite Hc, Hdef. unfold final_output.
    change (current_draft selected) with (current_draft session).
    destruct (current_draft session) as [draft|];
      [rewrite Hc|]; cbn [app]; rewrite app_nil_r, <- app_assoc; reflexivity.
  - assert (Hp' : password_correct selected = Some true) by exact Hp.
    rewrite (script_run_open _ _ _ _ _ _ _ Hp').
    unfold sidebar_analysis, dashboard_block.
    change (analysis selected) with (analysis session). rewrite Ha.
    destruct (dashboard_through data meta clauses head items (fun _ => false)
                false selected selected rows Hh Hi Hrun2) as (evs & _ & ->).
    rewrite (drafting_section_submitted meta form selected item clause_id
               topic model first_values eq_refl eq_refl Hc Ht Hdef Hm).
    destruct (model _) as [response|e];
      [destruct (text response) as [draft|e]|];
      cbn [app]; rewrite app_nil_r, <- app_assoc; reflexivity.
Qed.

End App.

(** * The properties on sample inputs *)

Lemma deadline_offset_priority_witness :
  days_to_add
    (limit_text plain_repr plain_repr (VStr (lit "10 days, or 5 if urgent")))
  = 10%Z
  /\ days_to_add (limit_text plain_repr plain_repr (VStr (lit "ImMeDiAtElY")))
     = 0%Z.
Proof.
  split.
  - apply (proj1 (proj2 (deadline_offset_priority plain_repr plain_repr
                           (lit "10 days, or 5 if urgent")))).
    reflexivity.
  - apply (proj1 (proj2 (proj2 (deadline_offset_priority plain_repr plain_repr
                                  (lit "ImMeDiAtElY"))))).
    unfold same_up_to_case. repeat constructor.
Defined.

Lemma sample_clauses_have_fields (item : value) :
  In item [clause_delays; clause_changes] ->
  exists topic clause_id trigger_event time_limit,
    has_fields item topic clause_id trigger_event time_limit.
Proof.
  intros [<-|[<-|[]]]; do 4 eexists; unfold has_fields; repeat split;
    reflexivity.
Defined.

Lemma calendar_one_event_per_clause_witness :
  exists evs payload,
    Forall2
      (fun item e =>
         exists topic clause_id,
           subscript item (lit "topic") = Ok topic
           /\ subscript item (lit "clause_id") = Ok clause_id
           /\ name e = event_title plain_repr plain_repr topic clause_id)
      [clause_delays; clause_changes] evs
    /\ create_calendar_file plain_repr plain_repr ticking_clock (@rev Event)
         [clause_delays; clause_changes]
       = ([], Ok payload)
    /\ Permutation payload evs
    /\ List.length payload = 2%nat
    /\ (rev evs = evs -> payload = evs).
Proof.
  exact (calendar_one_event_per_clause plain_repr plain_repr ticking_clock
           (@rev Event) (fun l => Permutation_sym (Permutation_rev l))
           [clause_delays; clause_changes] sample_clauses_have_fields).
Defined.

(** C2 as stated fails: when the set of events is iterated last added
    first, which is an arrangement of its members, the first event of the
    payload is the one of the second clause. *)
Lemma calendar_order_counterexample :
  (forall l : list Event, Permutation (rev l) l)
  /\ exists payload,
       create_calendar_file plain_repr plain_repr ticking_clock (@rev Event)
         [clause_delays; clause_changes]
       = ([], Ok payload)
       /\ map name payload
          = [event_title plain_repr plain_repr
               (VStr (lit "Changes")) (VStr (lit "GC 6.2.1"));
             event_title plain_repr plain_repr
               (VStr (lit "Delays")) (VStr (lit "GC 6.5.1"))]
       /\ map name payload
          <> [event_title plain_repr plain_repr
                (VStr (lit "Delays")) (VStr (lit "GC 6.5.1"));
              event_title plain_repr plain_repr
                (VStr (lit "Changes")) (VStr (lit "GC 6.2.1"))].
Proof.
  split; [intros l; apply Permutation_sym, Permutation_rev|].
  eexists. split; [vm_compute; reflexivity|].
  split; [vm_compute; reflexivity|].
  vm_compute. discriminate.
Qed.

Lemma event_start_and_alarm_witness :
  exists payload,
    create_calendar_file plain_repr plain_repr ticking_clock (fun l => l)
      [clause_delays; clause_changes]
    = ([], Ok payload)
    /\ (forall i item,
          nth_error [clause_delays; clause_changes] i = Some item ->
          exists e time_limit,
            In e payload
            /\ calendar_event plain_repr plain_repr (ticking_clock i) item = Ok e
            /\ subscript item (lit "time_limit") = Ok time_limit
            /\ begin e
               = (ticking_clock i
                  + timedelta (days_to_add (limit_text plain_repr plain_repr time_limit)))%Z)
    /\ (forall e,
          In e payload ->
          exists a,
            alarms e = [a] /\ alarm_time e a = (begin e - 86400000000)%Z).
Proof.
  exact (event_start_and_alarm plain_repr plain_repr ticking_clock
           (fun l => l) (fun l => Permutation_refl l)
           [clause_delays; clause_changes] sample_clauses_have_fields).
Defined.

Lemma ten_working_days_end_to_end_witness :
  days_to_add (limit_text plain_repr plain_repr (VStr (lit "10 Working Days")))
  = 10%Z
  /\ exists e a,
       create_calendar_file plain_repr plain_repr ticking_clock (fun l => l)
         [clause_delays]
       = ([], Ok [e])
       /\ name e
          = event_title plain_repr plain_repr
              (VStr (lit "Delays")) (VStr (lit "GC 6.5.1"))
       /\ begin e = (ticking_clock 0 + 864000000000)%Z
       /\ alarms e = [a]
       /\ alarm_time e a = (ticking_clock 0 + 777600000000)%Z
       /\ alarm_time e a = (begin e - 86400000000)%Z.
Proof.
  apply (ten_working_days_end_to_end plain_repr plain_repr ticking_clock
           (fun l => l) (fun l => Permutation_refl l)
           clause_delays (VStr (lit "Delays")) (VStr (lit "GC 6.5.1"))
           (VStr (lit "Delay by Owner"))).
  unfold has_fields. repeat split; reflexivity.
Defined.

Lemma deadline_total_in_time_limit_witness :
  (exists e,
     calendar_event plain_repr plain_repr 0 clause_changes = Ok e
     /\ limit_text plain_repr plain_repr VNone = lit "none"
     /\ begin e = (0 + 604800000000)%Z)
  /\ (exists e,
        calendar_event plain_repr plain_repr 0 clause_claims = Ok e
        /\ limit_text plain_repr plain_repr (VInt 10) = lit "10"
        /\ begin e = (0 + 864000000000)%Z
        /\ begin e = (0 + 86400000000 * int_offset 10)%Z)
  /\ (exists e,
        calendar_event plain_repr plain_repr 0 clause_concealed = Ok e
        /\ limit_text plain_repr plain_repr
             (VList [VInt 5; VNone; VBool true])
           = lit "[5, none, true]"
        /\ begin e = (0 + 432000000000)%Z).
Proof.
  split; [|split].
  - destruct (deadline_total_in_time_limit plain_repr plain_repr 0
                clause_changes (VStr (lit "Changes"))
                (VStr (lit "GC 6.2.1")) (VStr (lit "Change Directive"))
                VNone)
      as (e & He & _ & Hnone & _);
      [unfold has_fields; repeat split; reflexivity|].
    exists e. split; [exact He|]. exact (Hnone eq_refl).
  - destruct (deadline_total_in_time_limit plain_repr plain_repr 0
                clause_claims (VStr (lit "Claims")) (VStr (lit "GC 6.6.1"))
                (VStr (lit "Event giving rise to a claim")) (VInt 10))
      as (e & He & _ & _ & _ & Hint & Hten & _);
      [unfold has_fields; repeat split; reflexivity|].
    exists e. split; [exact He|].
    split; [exact (proj1 (Hten eq_refl))|].
    split; [exact (proj2 (Hten eq_refl))|].
    apply (Hint 10%Z eq_refl). lia.
  - destruct (deadline_total_in_time_limit plain_repr plain_repr 0
                clause_concealed (VStr (lit "Concealed Conditions"))
                (VStr (lit "GC 6.4.1")) (VStr (lit "Discovery"))
                (VList [VInt 5; VNone; VBool true]))
      as (e & He & _ & _ & _ & _ & _ & Hlist);
      [unfold has_fields; repeat split; reflexivity|].
    exists e. split; [exact He|]. exact (Hlist eq_refl).
Defined.

Lemma pdf_text_first_51_pages_witness :
  extract_text_from_pdf (list Page) (fun f => Ok f) long_document
  = ([], Ok (Some (List.concat
                     (map (fun t => t ++ newline) (repeat (lit "page") 51))))).
Proof.
  apply (pdf_text_first_51_pages (list Page) (fun f => Ok f) long_document
           long_document (repeat (lit "page") 51)); reflexivity.
Defined.

Lemma extraction_failure_is_contained_witness :
  analyze_contract 1000 (client unreachable_model) (lit "GC 6.5.1 Delays")
  = ([ModelCall (prompt_of_contract (lit "GC 6.5.1 Delays"));
      ShownError (lit "AI Analysis Failed: ")
        (LibraryError (lit "503 Service Unavailable"))],
     Ok empty_analysis)
  /\ analyze_contract 1000 (client (answering (litq "{~metadata~: {}, ")))
       (lit "GC 6.5.1 Delays")
     = ([ModelCall (prompt_of_contract (lit "GC 6.5.1 Delays"));
         ShownError (lit "AI Analysis Failed: ") JSONDecodeError],
        Ok empty_analysis).
Proof.
  split.
  - apply (proj1 (extraction_failure_is_contained 1000 (client unreachable_model)
                    (lit "GC 6.5.1 Delays") unreachable_model eq_refl)).
    left. reflexivity.
  - apply (proj1 (extraction_failure_is_contained 1000
                    (client (answering (litq "{~metadata~: {}, ")))
                    (lit "GC 6.5.1 Delays")
                    (answering (litq "{~metadata~: {}, ")) eq_refl)).
    right. right. exists {| text := Ok (litq "{~metadata~: {}, ") |}.
    exists (litq "{~metadata~: {}, ").
    repeat split; vm_compute; reflexivity.
Defined.

Lemma notice_draft_single_call_witness :
  generate_notice_draft plain_repr plain_repr
    (client (answering (lit "Dear Project Manager, please be advised")))
    clause_delays sample_inputs sample_meta
  = ([ModelCall
        (filled_template plain_repr plain_repr
           (VStr (lit "2024-05-01")) (VStr (lit "City of Toronto"))
           (VStr (lit "Project Manager")) (VStr (lit "Bridge Rehabilitation"))
           (VStr (lit "TBD")) (VStr (lit "GC 6.5.1")) (VStr (lit "Delays"))
           (VStr (lit "Access to the site was denied."))
           (VStr (lit "Work stopped for two days.")))],
     Ok (lit "Dear Project Manager, please be advised")).
Proof.
  apply (notice_draft_single_call plain_repr plain_repr
           (client (answering (lit "Dear Project Manager, please be advised")))
           (answering (lit "Dear Project Manager, please be advised"))
           clause_delays sample_inputs sample_meta
           (VStr (lit "2024-05-01")) (VStr (lit "City of Toronto"))
           (VStr (lit "Project Manager")) (VStr (lit "Bridge Rehabilitation"))
           (VStr (lit "TBD")) (VStr (lit "GC 6.5.1")) (VStr (lit "Delays"))
           (VStr (lit "Access to the site was denied."))
           (VStr (lit "Work stopped for two days."))); reflexivity.
Defined.

Lemma extraction_round_trip_witness :
  clean_json
    ((lit "```json" ++ newline) ++ (123 :: answer_inside ++ [125])
     ++ (newline ++ lit "```"))
  = 123 :: answer_inside ++ [125]
  /\ analyze_contract 1000
       (client (answering ((lit "```json" ++ newline)
                           ++ (123 :: answer_inside ++ [125])
                           ++ (newline ++ lit "```"))))
       (lit "GC 6.5.1 Delays")
     = ([ModelCall (prompt_of_contract (lit "GC 6.5.1 Delays"))],
        Ok (VDict answer_object)).
Proof.
  apply (extraction_round_trip 1000
           (client (answering ((lit "```json" ++ newline)
                               ++ (123 :: answer_inside ++ [125])
                               ++ (newline ++ lit "```"))))
           (lit "GC 6.5.1 Delays")
           (lit "```json" ++ newline) answer_inside (newline ++ lit "```")
           (answering ((lit "```json" ++ newline)
                       ++ (123 :: answer_inside ++ [125])
                       ++ (newline ++ lit "```")))
           {| text := Ok ((lit "```json" ++ newline)
                          ++ (123 :: answer_inside ++ [125])
                          ++ (newline ++ lit "```")) |}
           answer_object).
  - reflexivity.
  - reflexivity.
  - reflexivity.
  - exists [], fence_json, newline. repeat split; auto.
  - exists newline, fence, []. repeat split; auto.
  - vm_compute. reflexivity.
  - vm_compute. reflexivity.
Defined.

(** C4 as stated fails: this answer is a well-formed JSON object, denoting
    a clause whose topic is [a```b], and [analyze_contract] returns a
    clause whose topic is [ab]. *)
Lemma round_trip_counterexample :
  Json.loads 1000 answer_with_inner_fence
  = Ok (VDict [(lit "metadata", VDict []);
               (lit "clauses", VList [VDict [(lit "topic", VStr (lit "a```b"))]])])
  /\ analyze_contract 1000 (client (answering answer_with_inner_fence))
       (lit "GC 6.5.1 Delays")
     = ([ModelCall (prompt_of_contract (lit "GC 6.5.1 Delays"))],
        Ok (VDict [(lit "metadata", VDict []);
                   (lit "clauses", VList [VDict [(lit "topic", VStr (lit "ab"))]])]))
  /\ lit "ab" <> lit "a```b".
Proof.
  split; [vm_compute; reflexivity|].
  split; [vm_compute; reflexivity|].
  discriminate.
Qed.

Lemma fence_stripping_is_global_witness :
  exists body topic,
    Json.loads 1000 body
    = Ok (VDict [(lit "metadata", VDict []);
                 (lit "clauses", VList [VDict [(lit "topic", VStr topic)]])])
    /\ contains fence topic = true
    /\ forall contract_text model response,
         client (answering answer_with_inner_fence) (lit "gemini-2.0-flash-001")
         = Ok model ->
         model (prompt_of_contract contract_text) = Ok response ->
         text response = Ok body ->
         exists topic',
           analyze_contract 1000 (client (answering answer_with_inner_fence))
             contract_text
           = ([ModelCall (prompt_of_contract contract_text)],
              Ok (VDict [(lit "metadata", VDict []);
                         (lit "clauses",
                          VList [VDict [(lit "topic", VStr topic')]])]))
           /\ topic' <> topic.
Proof.
  apply (proj2 (fence_stripping_is_global 1000
                  (client (answering answer_with_inner_fence)))).
  apply Nat.leb_le. reflexivity.
Defined.

(** ** The further properties on sample inputs *)

Lemma pdf_failure_gives_none_witness :
  extract_text_from_pdf (list Page) (fun f => Ok f) damaged_document
  = ([ShownError (lit "Error reading PDF: ")
        (LibraryError (lit "damaged page"))],
     Ok None).
Proof.
  apply (proj1 (proj2 (pdf_failure_gives_none (list Page) (fun f => Ok f)
                         damaged_document))
           damaged_document 1%nat [lit "page"]
           (LibraryError (lit "damaged page")));
    [reflexivity|reflexivity|reflexivity|lia].
Defined.

Lemma pdf_text_empty_iff_no_page_witness :
  exists text,
    extract_text_from_pdf (list Page) (fun f => Ok f) short_document
    = ([], Ok (Some text))
    /\ (text = [] <-> short_document = [])
    /\ (2 <= List.length text)%nat.
Proof.
  exact (pdf_text_empty_iff_no_page (list Page) (fun f => Ok f)
           short_document short_document
           [lit "GC 6.5.1 Delays"; lit "GC 6.2.1 Changes"] eq_refl eq_refl).
Defined.

Lemma calendar_payload_iff_fields_witness :
  (exists payload,
     create_calendar_file plain_repr plain_repr ticking_clock (fun l => l)
       [clause_delays; clause_changes]
     = ([], Ok payload))
  /\ ~ (exists payload,
          create_calendar_file plain_repr plain_repr ticking_clock
            (fun l => l) [clause_without_limit]
          = ([], Ok payload)).
Proof.
  split.
  - apply (proj2 (proj1 (calendar_payload_iff_fields plain_repr plain_repr
                           ticking_clock (fun l => l)
                           [clause_delays; clause_changes]))).
    exact sample_clauses_have_fields.
  - intros H.
    destruct (proj1 (proj1 (calendar_payload_iff_fields plain_repr
                              plain_repr ticking_clock (fun l => l)
                              [clause_without_limit]))
                H clause_without_limit (or_introl eq_refl))
      as (t & c & r & l & _ & _ & _ & Hl).
    discriminate Hl.
Defined.

Lemma calendar_stops_at_first_incomplete_witness :
  create_calendar_file plain_repr plain_repr ticking_clock (fun l => l)
    ([clause_delays] ++ clause_without_limit :: [clause_changes])
  = ([], Raise (KeyError (lit "time_limit"))).
Proof.
  apply (calendar_stops_at_first_incomplete plain_repr plain_repr
           ticking_clock (fun l => l) [clause_delays] [clause_changes]
           clause_without_limit (KeyError (lit "time_limit"))).
  - intros item [<-|[]]. apply sample_clauses_have_fields. left. reflexivity.
  - reflexivity.
Defined.

Lemma event_window_witness :
  exists e,
    calendar_event plain_repr plain_repr 0 clause_delays = Ok e
    /\ (exists d,
          In d [0; 1; 3; 5; 7; 10]%Z /\ begin e = (0 + timedelta d)%Z)
    /\ (0 <= begin e <= 0 + timedelta 10)%Z
    /\ (forall a,
          In a (alarms e) ->
          (0 - timedelta 1 <= alarm_time e a <= 0 + timedelta 9)%Z).
Proof.
  eexists. split; [reflexivity|].
  exact (event_window plain_repr plain_repr 0 clause_delays _ eq_refl).
Defined.

Lemma immediate_reminder_is_past_witness :
  exists e a,
    calendar_event plain_repr plain_repr 1000 clause_immediate = Ok e
    /\ alarms e = [a]
    /\ ((alarm_time e a < 1000)%Z <->
        days_to_add
          (limit_text plain_repr plain_repr
             (VStr (lit "Immediately upon discovery")))
        = 0%Z)
    /\ (days_to_add
          (limit_text plain_repr plain_repr
             (VStr (lit "Immediately upon discovery")))
        = 0%Z ->
        begin e = 1000%Z /\ alarm_time e a = (1000 - 86400000000)%Z).
Proof.
  apply (immediate_reminder_is_past plain_repr plain_repr 1000
           clause_immediate (VStr (lit "Default")) (VStr (lit "GC 7.1.2"))
           (VStr (lit "Notice of default"))
           (VStr (lit "Immediately upon discovery"))).
  unfold has_fields. repeat split; reflexivity.
Defined.

Lemma clean_json_only_removes_witness :
  (List.length (clean_json (lit " {}  ")) <= List.length (lit " {}  "))%nat
  /\ clean_json (lit " {}  ") = strip (lit " {}  ").
Proof.
  split.
  - exact (proj1 (clean_json_only_removes (lit " {}  "))).
  - apply (proj2 (clean_json_only_removes (lit " {}  "))). reflexivity.
Defined.


Lemma notice_draft_outcomes_witness :
  exists e,
    In (Raise e) (draft_lookups clause_without_limit VNone sample_meta)
    /\ generate_notice_draft plain_repr plain_repr
         (client unreachable_model) clause_without_limit VNone sample_meta
       = ([], Raise e).
Proof.
  apply (proj1 (notice_draft_outcomes plain_repr plain_repr
                  (client unreachable_model) unreachable_model
                  clause_without_limit VNone sample_meta eq_refl)).
  exists TypeError. left. reflexivity.
Defined.

Lemma gate_opens_iff_secret_entered_witness :
  exists session',
    gate_runs (Ok (VStr (lit "open sesame")))
      [lit "guess"; lit "open sesame"; lit "later"] fresh_session
    = Ok session'
    /\ (snd (check_password session') = true <->
        exists entered,
          In entered [lit "guess"; lit "open sesame"; lit "later"]
          /\ VStr (lit "open sesame") = VStr entered)
    /\ (snd (check_password session') = true -> password session' = None)
    /\ analysis session' = analysis fresh_session
    /\ selected_clause session' = selected_clause fresh_session
    /\ draft_mode session' = draft_mode fresh_session
    /\ current_draft session' = current_draft fresh_session.
Proof.
  apply (gate_opens_iff_secret_entered (Ok (VStr (lit "open sesame")))
           (VStr (lit "open sesame"))
           [lit "guess"; lit "open sesame"; lit "later"] fresh_session);
    [reflexivity|discriminate].
Defined.

Lemma gate_display_witness :
  exists session',
    gate_runs (Ok (VInt 1234)) [lit "1234"; lit "guess"] fresh_session
    = Ok session'
    /\ check_password session'
       = ([TextInput password_label (lit "password");
           ErrorBox password_incorrect], false)
    /\ password session' = Some (lit "guess").
Proof.
  destruct (gate_display (Ok (VInt 1234)) (VInt 1234)
              [lit "1234"; lit "guess"] eq_refl)
    as (session' & Hruns & Hshown & Hkept).
  exists session'. split; [exact Hruns|]. split; [exact Hshown|].
  apply Hkept; [reflexivity|discriminate].
Defined.

Lemma sidebar_without_text_witness :
  sidebar_analysis 1000 (client unreachable_model) (list Page)
    (fun f => Ok f) (Some damaged_document) true open_session
  = ([ByHelper (ShownError (lit "Error reading PDF: ")
                  (LibraryError (lit "damaged page")))],
     Ok open_session).
Proof.
  apply (proj1 (proj2 (sidebar_without_text 1000 (client unreachable_model)
                         (list Page) (fun f => Ok f) damaged_document
                         open_session))
           damaged_document 1%nat [lit "page"]
           (LibraryError (lit "damaged page")));
    [reflexivity|reflexivity|reflexivity|lia].
Defined.

Lemma sidebar_replaces_analysis_witness :
  sidebar_analysis 1000 (client unreachable_model) (list Page)
    (fun f => Ok f) (Some short_document) true open_session
  = ([ByHelper
        (ModelCall
           (prompt_of_contract
              (List.concat
                 (map (fun t => t ++ newline)
                    [lit "GC 6.5.1 Delays"; lit "GC 6.2.1 Changes"]))));
      ByHelper (ShownError (lit "AI Analysis Failed: ")
                  (LibraryError (lit "503 Service Unavailable")));
      SuccessBox (lit "Extraction Complete!")],
     Ok (with_analysis (Some empty_analysis) open_session)).
Proof.
  apply (proj2 (sidebar_replaces_analysis 1000 (client unreachable_model)
                  (list Page) (fun f => Ok f) short_document short_document
                  [lit "GC 6.5.1 Delays"; lit "GC 6.2.1 Changes"]
                  unreachable_model open_session eq_refl
                  ltac:(discriminate) eq_refl eq_refl)).
  reflexivity.
Defined.

Lemma matrix_guards_exporter_witness :
  exists head rows meta payload,
    dashboard plain_repr plain_repr ticking_clock (@rev Event)
      sample_analysis second_button true analysed_session
    = (head ++ map Expander rows
       ++ [CalendarDownload payload (lit "project_deadlines.ics")],
       drafting_session, Done meta)
    /\ List.length payload = 2%nat
    /\ List.length rows = 2%nat.
Proof.
  edestruct (proj2 (proj2 (matrix_guards_exporter plain_repr plain_repr
                             ticking_clock (@rev Event)
                             (fun l => Permutation_sym (Permutation_rev l))
                             sample_analysis second_button
                             analysed_session)))
    as (payload & Hshown & Hlength);
    [reflexivity|reflexivity|reflexivity|].
  do 4 eexists. split; [exact Hshown|]. split; [exact Hlength|reflexivity].
Defined.

Lemma selected_clause_is_draftable_witness :
  selected_clause drafting_session = Some clause_changes
  /\ draft_mode drafting_session = Some true
  /\ analysis drafting_session = analysis analysed_session
  /\ current_draft drafting_session = current_draft analysed_session
  /\ exists clause_id topic,
       subscript clause_changes (lit "clause_id") = Ok clause_id
       /\ subscript clause_changes (lit "topic") = Ok topic.
Proof.
  eapply (proj1 (selected_clause_is_draftable plain_repr plain_repr
                   [clause_delays; clause_changes] second_button
                   analysed_session drafting_session _ None eq_refl)
            1%nat clause_changes eq_refl).
  - intros i. apply Nat.eqb_eq.
  - reflexivity.
Defined.

Lemma drafting_section_submission_witness :
  drafting_section plain_repr plain_repr
    (client (answering (lit "Dear Project Manager, please be advised")))
    (Some (VDict [])) true sample_form drafting_session
  = ([Header (lit "3. Draft Notice: "
              ++ Py.str_of plain_repr plain_repr (VStr (lit "GC 6.2.1")));
      ByHelper
        (ModelCall
           (filled_template plain_repr plain_repr
              (VStr (date_in sample_form)) (owner_in sample_form)
              (VStr (recipient_in sample_form)) (proj_in sample_form)
              (num_in sample_form) (VStr (lit "GC 6.2.1"))
              (VStr (lit "Changes")) (VStr (cause_in sample_form))
              (VStr (effect_in sample_form))));
      DraftDownload (lit "Dear Project Manager, please be advised")
        (lit "Notice_"
         ++ Py.str_of plain_repr plain_repr (VStr (lit "GC 6.2.1"))
         ++ lit ".txt")],
     with_current_draft
       (Some (lit "Dear Project Manager, please be advised"))
       drafting_session,
     None).
Proof.
  exact (proj1 (drafting_section_submission plain_repr plain_repr
                  (client (answering
                             (lit "Dear Project Manager, please be advised")))
                  [] sample_form drafting_session clause_changes
                  (VStr (lit "GC 6.2.1")) (VStr (lit "Changes"))
                  (answering (lit "Dear Project Manager, please be advised"))
                  eq_refl eq_refl eq_refl eq_refl eq_refl)).
Defined.

Lemma dashboard_header_outcomes_witness :
  dashboard_header plain_repr plain_repr
    (VDict [(lit "clauses", VList [clause_delays])])
  = Done (VDict [], VList [clause_delays],
          [Subheader ([128194%N] ++ lit " Project: Unknown Project");
           Caption (lit "Owner: Unknown | Contract #: N/A")])
  /\ ~ (exists r, dashboard_header plain_repr plain_repr (VList []) = Done r).
Proof.
  split.
  - exact (proj2 (proj2 (dashboard_header_outcomes plain_repr plain_repr
                           (VDict [(lit "clauses", VList [clause_delays])])))
             [(lit "clauses", VList [clause_delays])] eq_refl eq_refl).
  - intros H.
    destruct (proj1 (proj1 (dashboard_header_outcomes plain_repr plain_repr
                              (VList [])))
                H) as [Hdict _].
    discriminate Hdict.
Defined.

Lemma failed_analysis_run_completes_witness :
  script_run plain_repr plain_repr 1000 (client unreachable_model)
    (list Page) (fun f => Ok f) ticking_clock (@rev Event)
    (Some short_document) true no_button true false sample_form open_session
  = (map ByHelper
       [ModelCall
          (prompt_of_contract
             (List.concat
                (map (fun t => t ++ newline)
                   [lit "GC 6.5.1 Delays"; lit "GC 6.2.1 Changes"])));
        ShownError (lit "AI Analysis Failed: ")
          (LibraryError (lit "503 Service Unavailable"))]
     ++ [SuccessBox (lit "Extraction Complete!");
         Subheader ([128194%N] ++ lit " Project: Unknown Project");
         Caption (lit "Owner: Unknown | Contract #: N/A")]
     ++ [CalendarDownload [] (lit "project_deadlines.ics")],
     with_analysis (Some empty_analysis) open_session, Completed).
Proof.
  apply (failed_analysis_run_completes plain_repr plain_repr 1000
           (client unreachable_model) (list Page) (fun f => Ok f)
           ticking_clock (@rev Event)
           (fun l => Permutation_sym (Permutation_rev l))
           short_document
           (List.concat
              (map (fun t => t ++ newline)
                 [lit "GC 6.5.1 Delays"; lit "GC 6.2.1 Changes"]))
           _ no_button true false sample_form open_session).
  - reflexivity.
  - discriminate.
  - reflexivity.
  - discriminate.
  - reflexivity.
Defined.

Lemma session_invariants_witness :
  let session :=
    snd (fst (script_run plain_repr plain_repr 1000
                (client (answering (123%N :: answer_inside ++ [125%N])))
                (list Page) (fun f => Ok f) ticking_clock (fun l => l)
                (Some short_document) true second_button false false
                sample_form
                (after_entry (Ok (VStr (lit "open sesame")))
                   (lit "open sesame") fresh_session))) in
  (password_correct session <> Some true ->
   analysis session = None /\ selected_clause session = None
   /\ draft_mode session = None /\ current_draft session = None)
  /\ (draft_mode session = Some true <-> selected_clause session <> None)
  /\ (draft_mode session = Some true -> analysis session <> None)
  /\ (current_draft session <> None -> draft_mode session = Some true)
  /\ draft_mode session <> Some false.
Proof.
  intros session.
  apply (session_invariants plain_repr plain_repr 1000
           (client (answering (123%N :: answer_inside ++ [125%N])))
           (list Page) (fun f => Ok f) ticking_clock (fun l => l)
           (Ok (VStr (lit "open sesame"))) session).
  unfold session. apply reach_run. apply reach_entry.
  - apply reach_fresh.
  - reflexivity.
Defined.

Lemma meta_bound_when_read_witness :
  let session :=
    after_entry (Ok (VStr (lit "open sesame"))) (lit "open sesame")
      fresh_session in
  (forall name,
     snd (script_run plain_repr plain_repr 1000
            (client (answering (lit "[]")))
            (list Page) (fun f => Ok f) ticking_clock (fun l => l)
            (Some short_document) true no_button false true sample_form
            session)
     <> Failed (NameError name))
  /\ (snd (script_run plain_repr plain_repr 1000
             (client (answering (lit "[]")))
             (list Page) (fun f => Ok f) ticking_clock (fun l => l)
             (Some short_document) true no_button false true sample_form
             session)
      = Failed AttributeError ->
      exists data,
        analysis
          (snd (fst (script_run plain_repr plain_repr 1000
                       (client (answering (lit "[]")))
                       (list Page) (fun f => Ok f) ticking_clock
                       (fun l => l) (Some short_document) true no_button
                       false true sample_form session)))
        = Some data
        /\ dashboard_header plain_repr plain_repr data
           = Uncaught AttributeError).
Proof.
  intros session.
  apply (meta_bound_when_read plain_repr plain_repr 1000
           (client (answering (lit "[]")))
           (list Page) (fun f => Ok f) ticking_clock (fun l => l)
           (Ok (VStr (lit "open sesame")))
           (Some short_document) true no_button false true sample_form
           session).
  unfold session. apply reach_entry.
  - apply reach_fresh.
  - reflexivity.
Defined.

Lemma press_then_submit_witness :
  exists clause_id topic rows head,
    subscript clause_changes (lit "clause_id") = Ok clause_id
    /\ subscript clause_changes (lit "topic") = Ok topic
    /\ List.length rows = 2%nat
    /\ script_run plain_repr plain_repr 1000
         (client (answering (lit "Dear Project Manager, please be advised")))
         (list Page) (fun f => Ok f) ticking_clock (fun l => l)
         None false second_button false false sample_form analysed_session
       = (head ++ map Expander rows
          ++ [Header (lit "3. Draft Notice: "
                      ++ Py.str_of plain_repr plain_repr clause_id)],
          drafting_session, Completed)
    /\ script_run plain_repr plain_repr 1000
         (client (answering (lit "Dear Project Manager, please be advised")))
         (list Page) (fun f => Ok f) ticking_clock (fun l => l)
         None false (fun _ => false) false true sample_form drafting_session
       = (head ++ map Expander rows
          ++ [Header (lit "3. Draft Notice: "
                      ++ Py.str_of plain_repr plain_repr clause_id);
              ByHelper
                (ModelCall
                   (filled_template plain_repr plain_repr
                      (VStr (date_in sample_form)) (owner_in sample_form)
                      (VStr (recipient_in sample_form)) (proj_in sample_form)
                      (num_in sample_form) clause_id topic
                      (VStr (cause_in sample_form))
                      (VStr (effect_in sample_form))));
              DraftDownload (lit "Dear Project Manager, please be advised")
                (lit "Notice_" ++ Py.str_of plain_repr plain_repr clause_id
                 ++ lit ".txt")],
          with_current_draft
            (Some (lit "Dear Project Manager, please be advised"))
            drafting_session,
          Completed).
Proof.
  edestruct (press_then_submit plain_repr plain_repr 1000
               (client (answering
                          (lit "Dear Project Manager, please be advised")))
               (list Page) (fun f => Ok f) ticking_clock (fun l => l)
               analysed_session sample_analysis
               (VDict [(lit "owner_name", VStr (lit "City of Toronto"));
                       (lit "project_name",
                        VStr (lit "Bridge Rehabilitation"))])
               (VList [clause_delays; clause_changes])
               [Subheader ([128194%N] ++ lit " Project: "
                           ++ lit "Bridge Rehabilitation");
                Caption (lit "Owner: " ++ lit "City of Toronto"
                         ++ lit " | Contract #: " ++ lit "N/A")]
               [clause_delays; clause_changes] 1%nat clause_changes
               second_button sample_form
               (answering (lit "Dear Project Manager, please be advised")))
    as (clause_id & topic & rows & Hid & Htopic & Hrows & Hpress & Hsubmit).
  - reflexivity.
  - reflexivity.
  - reflexivity.
  - reflexivity.
  - intros x [<-|[<-|[]]]; apply sample_clauses_have_fields;
      [left|right; left]; reflexivity.
  - reflexivity.
  - intros i. apply Nat.eqb_eq.
  - reflexivity.
  - exists clause_id, topic, rows. eexists.
    split; [exact Hid|]. split; [exact Htopic|]. split; [exact Hrows|].
    split; [exact Hpress|exact Hsubmit].
Defined.
